(** * Satisfy: the AI recommendation endpoint ([ai_recommend], src/app.py)

    A shallow embedding of the handler of [/api/ai-recommend]: the four
    exclusion filters over the product table, the prompt sent to the
    generation service, the validation of the service's reply and the join
    of the surviving identifiers with the filtered products.

    Python values that come back from [json.loads] are modelled by the type
    [json]; an exception that no [except] clause of the handler catches is
    the result [Uncaught].  Three library functions are parameters of the
    development: [str.lower], [int] on text and [json.loads]. *)

From Stdlib Require Import List String Ascii ZArith QArith Bool Lia Sorted.
From Stdlib Require Import DecimalString.
From Stdlib Require Import Permutation.
Import ListNotations.

Local Open Scope list_scope.
Local Open Scope string_scope.
Local Open Scope Z_scope.

Set Warnings "-register-all".

(** ** Python values *)

(** A Python [float]: a finite value (every double is a rational), an
    infinity or a NaN; [json.loads] produces all three.  Python compares
    an [int] with a [float] exactly, so the comparisons below are those of
    the rationals. *)
Inductive pyfloat : Type :=
| FNaN
| FInf (negative : bool)
| FFinite (q : Q).

(** The values [json.loads] returns.  A [dict] is kept as the list of its
    items in insertion order. *)
Inductive json : Type :=
| JNull
| JBool (b : bool)
| JInt (z : Z)
| JFloat (f : pyfloat)
| JStr (s : string)
| JList (l : list json)
| JDict (kv : list (string * json)).

(** Exceptions of the handler that none of its [except] clauses names. *)
Inductive pyexn : Type :=
| TypeError
| AttributeError
| RecursionError
| ValueError.

(** The result of running a piece of the handler: a value, or an exception
    that propagates out of the view function. *)
Inductive outcome (A : Type) : Type :=
| Returned (a : A)
| Uncaught (e : pyexn).

Arguments Returned {A} a.
Arguments Uncaught {A} e.

(** What [json.loads] does with a text: it returns a value, raises
    [json.JSONDecodeError], or raises another exception ([RecursionError]
    on a document nested deeper than the interpreter allows, [ValueError]
    on an integer literal longer than [int] converts). *)
Inductive loaded (A : Type) : Type :=
| Loaded (a : A)
| JSONDecodeError
| Raised (e : pyexn).

Arguments Loaded {A} a.
Arguments JSONDecodeError {A}.
Arguments Raised {A} e.

Definition bind {A B : Type} (m : outcome A) (k : A -> outcome B) : outcome B :=
  match m with
  | Returned a => k a
  | Uncaught e => Uncaught e
  end.

Notation "x <- m ;; k" := (bind m (fun x => k))
  (at level 61, m at next level, right associativity).

(** [d.get(k)] on the items of a dict. *)
Fixpoint dict_get (kv : list (string * json)) (k : string) : option json :=
  match kv with
  | [] => None
  | (k', v) :: rest => if String.eqb k' k then Some v else dict_get rest k
  end.

(** [d.get(k, default)]. *)
Definition dict_get_default (kv : list (string * json)) (k : string) (default : json) : json :=
  match dict_get kv k with
  | Some v => v
  | None => default
  end.

(** [v >= n] for an integer literal [n]: numbers compare by value, a bool
    counts as 0 or 1, a NaN compares false, everything else raises
    [TypeError]. *)
Definition py_ge_int (v : json) (n : Z) : outcome bool :=
  match v with
  | JInt z => Returned (n <=? z)
  | JBool b => Returned (n <=? Z.b2z b)
  | JFloat FNaN => Returned false
  | JFloat (FInf negative) => Returned (negb negative)
  | JFloat (FFinite q) => Returned (Qle_bool (inject_Z n) q)
  | JNull | JStr _ | JList _ | JDict _ => Uncaught TypeError
  end.

(** [v <= n] for an integer literal [n]. *)
Definition py_le_int (v : json) (n : Z) : outcome bool :=
  match v with
  | JInt z => Returned (z <=? n)
  | JBool b => Returned (Z.b2z b <=? n)
  | JFloat FNaN => Returned false
  | JFloat (FInf negative) => Returned negative
  | JFloat (FFinite q) => Returned (Qle_bool q (inject_Z n))
  | JNull | JStr _ | JList _ | JDict _ => Uncaught TypeError
  end.

(** [n == v] for an [int] [n]: never raises; a value that is not a number
    is unequal. *)
Definition py_eq_int (n : Z) (v : json) : bool :=
  match v with
  | JInt z => n =? z
  | JBool b => n =? Z.b2z b
  | JFloat (FFinite q) => Qeq_bool (inject_Z n) q
  | JFloat _ | JNull | JStr _ | JList _ | JDict _ => false
  end.

(** The characters of a string, as [for c in s] yields them. *)
Fixpoint chars (s : string) : list string :=
  match s with
  | EmptyString => []
  | String c rest => String c EmptyString :: chars rest
  end.

(** [for rec in v]: a list yields its elements, a dict its keys, a string
    its characters; the other values are not iterable. *)
Definition py_iter (v : json) : outcome (list json) :=
  match v with
  | JList l => Returned l
  | JDict kv => Returned (map (fun item => JStr (fst item)) kv)
  | JStr s => Returned (map JStr (chars s))
  | JNull | JBool _ | JInt _ | JFloat _ => Uncaught TypeError
  end.

(** ** Text *)

(** [s.startswith(t)]. *)
Fixpoint starts_with (t s : string) : bool :=
  match t, s with
  | EmptyString, _ => true
  | String a t', String b s' => Ascii.eqb a b && starts_with t' s'
  | String _ _, EmptyString => false
  end.

(** [t in s] on strings. *)
Fixpoint str_in (t s : string) : bool :=
  starts_with t s ||
  match s with
  | EmptyString => false
  | String _ s' => str_in t s'
  end.

(** [sep.join(items)]. *)
Fixpoint join (sep : string) (items : list string) : string :=
  match items with
  | [] => EmptyString
  | [x] => x
  | x :: rest => x ++ sep ++ join sep rest
  end.

(** [str(n)] for an [int]. *)
Definition str_of_int (n : Z) : string := NilZero.string_of_int (Z.to_int n).

Definition nl : string := String (ascii_of_nat 10) EmptyString.
Definition dq : string := String (ascii_of_nat 34) EmptyString.

(** ** Data *)

(** A row of the [products] table as [model_to_dict] returns it: one key
    per column; the two [DateTime] columns are rendered by [isoformat]. *)
Record Product : Type := {
  id : Z;
  name : string;
  category : string;
  price : pyfloat;
  roast : option string;
  notes : option string;
  allergens : json;
  caffeine_mg : option Z;
  vendor : string;
  created_at : option string;
  updated_at : option string
}.

(** The fields the handler reads from the request body, defaults applied. *)
Record Request : Type := {
  user_query : string;
  user_id : string;
  disliked_ids : list Z;
  allergies : list string;
  avoid_list : list string;
  preferred_vendors : list string;
  category_filter : option string
}.

(** An element of the [recommendations] array of a response: the product's
    columns, and the [confidence] key when the handler has set it. *)
Record Recommendation : Type := {
  product : Product;
  confidence : option json
}.

(** The body of a 200 response; [ai_model] and [note] are keys that only
    some of the handler's returns carry. *)
Record RecommendBody : Type := {
  body_user_id : string;
  body_query : string;
  recommendations : list Recommendation;
  reasoning : json;
  ai_model : option string;
  note : option string
}.

(** The two error envelopes, both sent with status 500. *)
Inductive ErrorBody : Type :=
| OllamaApiError (error : string) (status : Z)
| CannotConnect (error : string) (details : string).

Inductive Response : Type :=
| Ok200 (body : RecommendBody)
| Err500 (body : ErrorBody).

(** The arguments of the one [requests.post] of the handler. *)
Record GenerateCall : Type := {
  url : string;
  model : string;
  prompt : string;
  stream : bool;
  format : string;
  temperature : Q;
  num_predict : Z;
  timeout : Z
}.

(** What [requests.post] does: a response with a status code and a body,
    given as the value [response.json()] decodes it to, or a
    [RequestException] (connection refused, timeout, ...) with its text. *)
Inductive ServiceOutcome : Type :=
| HttpReply (status_code : Z) (body : json)
| RequestException (cause : string).

Definition OLLAMA_API : string := "http://host.docker.internal:11434".

Definition AI_MODEL : string := "deepseek-r1:8b (Local)".

Definition NO_DRINKS_MATCH : string :=
  "No drinks match your preferences and restrictions. Please adjust your filters.".

Definition NO_STRONG_MATCHES : string :=
  "No strong matches found (confidence 5+/7). Try adjusting your search or preferences.".

Definition DEFAULT_REASONING : string :=
  "AI-powered recommendations based on your preferences.".

Definition FALLBACK_REASONING : string := "Using fallback recommendations".

Definition PARSING_FAILED_NOTE : string := "AI response parsing failed".

Definition OLLAMA_ERROR : string := "Ollama API error".

Definition CANNOT_CONNECT : string :=
  "Cannot connect to Ollama. Make sure Ollama is running.".

(** [f"{p.get('notes', '')}"]: the key is always there, so a NULL column is
    formatted as the text of [None]. *)
Definition notes_text (p : Product) : string :=
  match notes p with
  | Some s => s
  | None => "None"
  end.

(** [if category_filter:] is false for [None] and for the empty string. *)
Definition category_active (c : option string) : option string :=
  match c with
  | Some (String a rest) => Some (String a rest)
  | Some EmptyString | None => None
  end.

(** ** Library functions on plain text

    Instances of the three library parameters of the endpoint, used to run
    it on concrete requests and replies.  They follow Python on ASCII text:
    [ascii_lower] is [str.lower], [decimal_int] is [int], and
    [loads_fragment] is [json.loads] on the documents that use no escape
    sequence, no fraction, no exponent and no literal beyond [true],
    [false] and [null]; it rejects the others.  The scanner of [json.loads]
    enters one recursive call for each object or array it opens, and the
    interpreter raises [RecursionError] when the calls in progress reach
    its recursion limit; it raises [ValueError] on an integer literal of
    more digits than [int] converts.  [loads_fragment] counts the nesting
    from zero, so it agrees with Python on the documents nested less deep
    than the calls the interpreter has left, and on those nested deeper
    than the limit itself. *)

(** [sys.getrecursionlimit()] and [sys.get_int_max_str_digits()], as the
    interpreter starts. *)
Definition RECURSION_LIMIT : nat := 1000.

Definition INT_MAX_STR_DIGITS : nat := 4300.

Definition code (c : ascii) : nat := nat_of_ascii c.

Definition lower_char (c : ascii) : ascii :=
  if ((65 <=? code c) && (code c <=? 90))%nat then ascii_of_nat (code c + 32) else c.

Fixpoint ascii_lower (s : string) : string :=
  match s with
  | EmptyString => EmptyString
  | String c rest => String (lower_char c) (ascii_lower rest)
  end.

Definition digit_of (c : ascii) : option Z :=
  if ((48 <=? code c) && (code c <=? 57))%nat then Some (Z.of_nat (code c - 48)) else None.

(** The white space [int] strips. *)
Definition is_space (c : ascii) : bool :=
  ((9 <=? code c) && (code c <=? 13) || (28 <=? code c) && (code c <=? 32))%nat.

Fixpoint lstrip (s : string) : string :=
  match s with
  | EmptyString => EmptyString
  | String c rest => if is_space c then lstrip rest else s
  end.

Fixpoint rstrip (s : string) : string :=
  match s with
  | EmptyString => EmptyString
  | String c rest =>
      match rstrip rest with
      | EmptyString => if is_space c then EmptyString else String c EmptyString
      | String c' rest' => String c (String c' rest')
      end
  end.

(** Digits with single underscores between them. *)
Fixpoint digits_value (acc : Z) (after_digit : bool) (s : string) : option Z :=
  match s with
  | EmptyString => if after_digit then Some acc else None
  | String c rest =>
      match digit_of c with
      | Some d => digits_value (10 * acc + d) true rest
      | None =>
          if Ascii.eqb c "_" && after_digit then digits_value acc false rest else None
      end
  end.

Fixpoint count_digits (s : string) : nat :=
  match s with
  | EmptyString => O
  | String c rest =>
      match digit_of c with
      | Some _ => S (count_digits rest)
      | None => count_digits rest
      end
  end.

(** [int] rejects a text of more digits than it converts. *)
Definition decimal_int (s : string) : option Z :=
  let text := rstrip (lstrip s) in
  if (INT_MAX_STR_DIGITS <? count_digits text)%nat then None
  else match text with
       | String "-" rest => option_map Z.opp (digits_value 0 false rest)
       | String "+" rest => digits_value 0 false rest
       | body => digits_value 0 false body
       end.

(** White space between JSON tokens. *)
Definition is_json_space (c : ascii) : bool :=
  ((code c =? 32) || (code c =? 9) || (code c =? 10) || (code c =? 13))%nat.

Fixpoint skip_ws (s : string) : string :=
  match s with
  | EmptyString => EmptyString
  | String c rest => if is_json_space c then skip_ws rest else s
  end.

Definition is_quote (c : ascii) : bool := (code c =? 34)%nat.

(** The characters of a string literal up to its closing quote, and what
    follows it. *)
Fixpoint scan_string (s : string) : option (string * string) :=
  match s with
  | EmptyString => None
  | String c rest =>
      if is_quote c then Some (EmptyString, rest)
      else if ((code c =? 92) || (code c <? 32))%nat then None
      else match scan_string rest with
           | Some (text, after) => Some (String c text, after)
           | None => None
           end
  end.

Fixpoint scan_digits (acc : Z) (s : string) : Z * string :=
  match s with
  | EmptyString => (acc, s)
  | String c rest =>
      match digit_of c with
      | Some d => scan_digits (10 * acc + d) rest
      | None => (acc, s)
      end
  end.

(** An integer literal without sign: no leading zero, no fraction or
    exponent after it. *)
Definition scan_nat (s : string) : option (Z * string) :=
  match s with
  | EmptyString => None
  | String c rest =>
      match digit_of c with
      | None => None
      | Some d =>
          let '(n, after) := if d =? 0 then (0, rest) else scan_digits d rest in
          match after with
          | String c' _ =>
              match digit_of c' with
              | Some _ => None
              | None =>
                  if Ascii.eqb c' "." || Ascii.eqb c' "e" || Ascii.eqb c' "E"
                  then None else Some (n, after)
              end
          | EmptyString => Some (n, after)
          end
      end
  end.

Fixpoint drop (n : nat) (s : string) : string :=
  match n, s with
  | S n', String _ rest => drop n' rest
  | _, _ => s
  end.

(** Assignment to a key of a dict: a key already there keeps its place. *)
Fixpoint dict_set (kv : list (string * json)) (k : string) (v : json) : list (string * json) :=
  match kv with
  | [] => [(k, v)]
  | (k', v') :: rest =>
      if String.eqb k' k then (k', v) :: rest else (k', v') :: dict_set rest k v
  end.

(** An integer literal, its sign read: the digits are converted as
    [int] converts them. *)
Definition scan_int (negative : bool) (s : string) : loaded (json * string) :=
  match scan_nat s with
  | Some (n, after) =>
      if (INT_MAX_STR_DIGITS <? String.length s - String.length after)%nat
      then Raised ValueError
      else Loaded (JInt (if negative then - n else n), after)
  | None => JSONDecodeError
  end.

(** [depth] is the number of objects and arrays that may still be opened
    inside one another. *)
Fixpoint parse_value (fuel depth : nat) (s : string) : loaded (json * string) :=
  match fuel with
  | O => JSONDecodeError
  | S fuel' =>
      match skip_ws s with
      | EmptyString => JSONDecodeError
      | String c rest as other =>
          if Ascii.eqb c "{" then
            match depth with
            | O => Raised RecursionError
            | S depth' =>
                match skip_ws rest with
                | String "}" after => Loaded (JDict [], after)
                | members => parse_members fuel' depth' [] members
                end
            end
          else if Ascii.eqb c "[" then
            match depth with
            | O => Raised RecursionError
            | S depth' =>
                match skip_ws rest with
                | String "]" after => Loaded (JList [], after)
                | elements => parse_elements fuel' depth' [] elements
                end
            end
          else if is_quote c then
            match scan_string rest with
            | Some (text, after) => Loaded (JStr text, after)
            | None => JSONDecodeError
            end
          else if Ascii.eqb c "-" then scan_int true rest
          else if starts_with "true" other then Loaded (JBool true, drop 4 other)
          else if starts_with "false" other then Loaded (JBool false, drop 5 other)
          else if starts_with "null" other then Loaded (JNull, drop 4 other)
          else scan_int false other
      end
  end

with parse_elements (fuel depth : nat) (acc : list json) (s : string)
    : loaded (json * string) :=
  match fuel with
  | O => JSONDecodeError
  | S fuel' =>
      match parse_value fuel' depth s with
      | Loaded (v, after) =>
          match skip_ws after with
          | String "," rest => parse_elements fuel' depth (acc ++ [v]) rest
          | String "]" rest => Loaded (JList (acc ++ [v]), rest)
          | _ => JSONDecodeError
          end
      | JSONDecodeError => JSONDecodeError
      | Raised e => Raised e
      end
  end

with parse_members (fuel depth : nat) (acc : list (string * json)) (s : string)
    : loaded (json * string) :=
  match fuel with
  | O => JSONDecodeError
  | S fuel' =>
      match skip_ws s with
      | EmptyString => JSONDecodeError
      | String c rest =>
          if is_quote c then
            match scan_string rest with
            | Some (key, after_key) =>
                match skip_ws after_key with
                | String ":" rest' =>
                    match parse_value fuel' depth rest' with
                    | Loaded (v, after) =>
                        match skip_ws after with
                        | String "," rest'' =>
                            parse_members fuel' depth (dict_set acc key v) rest''
                        | String "}" rest'' => Loaded (JDict (dict_set acc key v), rest'')
                        | _ => JSONDecodeError
                        end
                    | JSONDecodeError => JSONDecodeError
                    | Raised e => Raised e
                    end
                | _ => JSONDecodeError
                end
            | None => JSONDecodeError
            end
          else JSONDecodeError
      end
  end.

Definition loads_fragment (s : string) : loaded json :=
  match parse_value (2 * String.length s + 2) RECURSION_LIMIT s with
  | Loaded (v, after) =>
      match skip_ws after with
      | EmptyString => Loaded v
      | String _ _ => JSONDecodeError
      end
  | JSONDecodeError => JSONDecodeError
  | Raised e => Raised e
  end.

(** ** A catalog, requests and replies to run the endpoint on

    Rows of the seed data of [init_db.py], with the identifiers the seed
    gives them. *)

Definition seeded (i : Z) (n c : string) (cents : Z) (r : option string) (text : string)
    (tags : list string) (mg : Z) : Product :=
  {| id := i; name := n; category := c; price := FFinite (cents # 100); roast := r;
     notes := Some text; allergens := JList (map JStr tags); caffeine_mg := Some mg;
     vendor := "Starbucks";
     created_at := Some "2025-01-01T00:00:00"; updated_at := Some "2025-01-01T00:00:00" |}.

Definition pike_place : Product :=
  seeded 1 "Pike Place Roast" "Hot Coffees" 245 (Some "Medium")
    "Smooth, balanced, cocoa & toasted nuts" [] 310.

Definition cappuccino : Product :=
  seeded 3 "Cappuccino" "Hot Coffees" 425 (Some "Dark")
    "Espresso with steamed milk foam" ["milk"] 150.

Definition flat_white : Product :=
  seeded 4 "Flat White" "Hot Coffees" 475 (Some "Dark")
    "Bold ristretto shots, microfoam" ["milk"] 195.

Definition iced_coffee : Product :=
  seeded 6 "Iced Coffee" "Cold Coffees" 325 (Some "Medium")
    "Freshly brewed and chilled" [] 165.

Definition cold_brew : Product :=
  seeded 7 "Cold Brew" "Cold Coffees" 445 (Some "Dark")
    "Slow-steeped 20 hours, smooth" [] 205.

Definition catalog : list Product :=
  [pike_place; cappuccino; flat_white; iced_coffee; cold_brew].

(** A guest who asks for something strong and excludes nothing. *)
Definition guest_request : Request :=
  {| user_query := "something strong"; user_id := "guest"; disliked_ids := [];
     allergies := []; avoid_list := []; preferred_vendors := []; category_filter := None |}.

(** A customer allergic to milk who disliked the cold brew. *)
Definition careful_request : Request :=
  {| user_query := "a smooth coffee"; user_id := "ana@example.com"; disliked_ids := [7];
     allergies := ["Milk"]; avoid_list := []; preferred_vendors := ["Starbucks"];
     category_filter := None |}.

(** A customer who disliked every drink of the catalog. *)
Definition picky_request : Request :=
  {| user_query := "anything"; user_id := "guest"; disliked_ids := [1; 3; 4; 6; 7];
     allergies := []; avoid_list := []; preferred_vendors := []; category_filter := None |}.

(** A service that answers every call with status 200 and the given text as
    its payload. *)
Definition answers (text : string) : GenerateCall -> ServiceOutcome :=
  fun _ =>
    HttpReply 200
      (JDict [("model", JStr "deepseek-r1:8b"); ("response", JStr text); ("done", JBool true)]).

(** A service that answers with an error status. *)
Definition refuses (status_code : Z) : GenerateCall -> ServiceOutcome :=
  fun _ => HttpReply status_code (JDict [("error", JStr "model not found")]).

(** A service that cannot be reached. *)
Definition unreachable : GenerateCall -> ServiceOutcome :=
  fun _ => RequestException "Connection refused".

Definition quoted (s : string) : string := dq ++ s ++ dq.

(** [{"id": i, "confidence": c}] with [i] and [c] as written. *)
Definition entry_text (i c : string) : string :=
  "{" ++ quoted "id" ++ ": " ++ i ++ ", " ++ quoted "confidence" ++ ": " ++ c ++ "}".

(** [{"recommendations": [...], "reasoning": "..."}]. *)
Definition reply_text (entries : list string) (why : string) : string :=
  "{" ++ quoted "recommendations" ++ ": [" ++ join ", " entries ++ "], "
  ++ quoted "reasoning" ++ ": " ++ quoted why ++ "}".

(** The weaker match listed first. *)
Definition unsorted_reply : string :=
  reply_text [entry_text "1" "5"; entry_text "3" "7"] "Both are smooth".

(** A reply in descending order, with a textual and an unknown identifier. *)
Definition sorted_reply : string :=
  reply_text [entry_text "3" "7"; entry_text (quoted "4") "6"; entry_text "99" "6";
              entry_text "1" "5"] "Strongest first".

(** A confidence given as text. *)
Definition text_confidence_reply : string :=
  reply_text [entry_text "1" (quoted "high")] "A strong roast".


(** [n] copies of a text, one after the other. *)
Fixpoint copies (n : nat) (s : string) : string :=
  match n with
  | O => EmptyString
  | S n' => s ++ copies n' s
  end.

(** Five thousand opening brackets, and an integer of five thousand
    digits. *)
Definition deep_reply : string := copies (Z.to_nat 5000) "[".

Definition long_number_reply : string := copies (Z.to_nat 5000) "1".


(** A good match whose identifier is text that is not a number. *)
Definition named_reply : string :=
  reply_text [entry_text (quoted "Pike Place Roast") "6"] "Try the house roast".

(** A good match for an identifier that is not on the menu. *)
Definition unknown_reply : string :=
  reply_text [entry_text "99" "6"] "Try the seasonal special".

(** Text that is not JSON. *)
Definition garbled_reply : string := "Sure! Here are some drinks you might like".

(** What [json.loads] makes of [entry_text] and [reply_text]. *)
Definition entry (i c : json) : json := JDict [("id", i); ("confidence", c)].

Definition parsed (entries : list json) (why : string) : list (string * json) :=
  [("recommendations", JList entries); ("reasoning", JStr why)].

Definition scored (p : Product) (c : Z) : Recommendation :=
  {| product := p; confidence := Some (JInt c) |}.

(** A ranked response to [r]. *)
Definition response_to (r : Request) (recs : list Recommendation) (why : string) : RecommendBody :=
  {| body_user_id := user_id r; body_query := user_query r; recommendations := recs;
     reasoning := JStr why; ai_model := Some AI_MODEL; note := None |}.

(** More requests and replies. *)

(** A guest who avoids everything cold. *)
Definition avoiding_request : Request :=
  {| user_query := "something warm"; user_id := "guest"; disliked_ids := [];
     allergies := []; avoid_list := ["COLD"]; preferred_vendors := [];
     category_filter := None |}.

(** A guest who wants cold coffees only. *)
Definition cold_request : Request :=
  {| user_query := "something chilled"; user_id := "guest"; disliked_ids := [];
     allergies := []; avoid_list := []; preferred_vendors := [];
     category_filter := Some "Cold Coffees" |}.

(** A request whose allergy list holds an empty string. *)
Definition blank_allergy_request : Request :=
  {| user_query := "anything"; user_id := "guest"; disliked_ids := [];
     allergies := ["soy"; EmptyString]; avoid_list := []; preferred_vendors := [];
     category_filter := None |}.

(** Every product of the catalog, best first. *)
Definition full_reply : string :=
  reply_text [entry_text "7" "7"; entry_text "6" "6"; entry_text "3" "6";
              entry_text "4" "5"; entry_text "1" "5"] "All of them".

(** A reply that is a list, one whose candidate list is [null], and one
    whose candidate list is text. *)
Definition list_reply : string := "[1, 2]".

Definition null_candidates_reply : string :=
  "{" ++ quoted "recommendations" ++ ": null}".

Definition text_candidates_reply : string :=
  "{" ++ quoted "recommendations" ++ ": " ++ quoted "none" ++ "}".

(** A service whose 200 answer has no [response] key. *)
Definition silent : GenerateCall -> ServiceOutcome :=
  fun _ => HttpReply 200 (JDict [("model", JStr "deepseek-r1:8b"); ("done", JBool true)]).

(** ** Shapes of a reply *)

(** The values a [for] loop accepts. *)
Definition is_iterable (v : json) : bool :=
  match v with
  | JList _ | JDict _ | JStr _ => true
  | JNull | JBool _ | JInt _ | JFloat _ => false
  end.

Definition is_dict (v : json) : bool :=
  match v with
  | JDict _ => true
  | JNull | JBool _ | JInt _ | JFloat _ | JStr _ | JList _ => false
  end.

(** ** Order of a sequence *)

(** [subseq l1 l2]: [l1] is [l2] with some elements left out, the others in
    their order. *)
Inductive subseq {A : Type} : list A -> list A -> Prop :=
| subseq_nil : subseq [] []
| subseq_skip (x : A) (l1 l2 : list A) : subseq l1 l2 -> subseq l1 (x :: l2)
| subseq_keep (x : A) (l1 l2 : list A) : subseq l1 l2 -> subseq (x :: l1) (x :: l2).

(** ** Confidence values *)

(** The values that [>=] and [<=] compare with an [int] without raising. *)
Definition is_number (c : json) : bool :=
  match c with
  | JInt _ | JFloat _ | JBool _ => true
  | JNull | JStr _ | JList _ | JDict _ => false
  end.

(** A confidence in the interval from 5 to 7, bounds included. *)
Definition within_5_7 (c : json) : bool :=
  match c with
  | JInt z => (5 <=? z) && (z <=? 7)
  | JFloat (FFinite q) => Qle_bool (inject_Z 5) q && Qle_bool q (inject_Z 7)
  | JFloat FNaN | JFloat (FInf _) | JBool _ | JNull | JStr _ | JList _ | JDict _ => false
  end.

(** The number a confidence stands for. *)
Definition confidence_value (c : json) : option Q :=
  match c with
  | JInt z => Some (inject_Z z)
  | JFloat (FFinite q) => Some q
  | JBool b => Some (inject_Z (Z.b2z b))
  | JFloat FNaN | JFloat (FInf _) | JNull | JStr _ | JList _ | JDict _ => None
  end.

(** [c1] is a number at least as large as the number [c2]. *)
Definition num_ge (c1 c2 : json) : Prop :=
  match confidence_value c1, confidence_value c2 with
  | Some q1, Some q2 => (q2 <= q1)%Q
  | _, _ => False
  end.

Definition conf_ge (r1 r2 : Recommendation) : Prop :=
  match confidence r1, confidence r2 with
  | Some c1, Some c2 => num_ge c1 c2
  | _, _ => False
  end.

(** A sequence of recommendations sorted by descending confidence. *)
Definition descending (recs : list Recommendation) : Prop :=
  StronglySorted conf_ge recs.

(** The [confidence] an entry of the reply gives ([0] when a record has
    none). *)
Definition entry_confidence (e : json) : json :=
  match e with
  | JDict kv => dict_get_default kv "confidence" (JInt 0)
  | JNull | JBool _ | JInt _ | JFloat _ | JStr _ | JList _ => JNull
  end.

(** A candidate list in non-increasing order of confidence. *)
Definition entry_conf_ge (e1 e2 : json) : Prop :=
  num_ge (entry_confidence e1) (entry_confidence e2).

(** An administrator table and forms to run the admin endpoints on. *)
Definition ASCII_STRIP (s : string) : string := rstrip (lstrip s).

(** ** Sessions and replies of the other endpoints

    The other view functions of [app.py] read and write the session, query
    and update tables, and answer with [jsonify(...)] and a status code.
    A table is the list of its rows in the order a query returns them; a
    commit is taken to succeed.  Texts are kept in UTF-8, so the length of
    a [str] is the number of bytes that start a character. *)

Module Web.

(** [jsonify(body), code]; a bare [jsonify(body)] has code 200. *)
Record Reply : Type := { body : json; code : Z }.

(** The keys of the session the views use; a key that is absent and a key
    set to [None] read the same through [session.get]. *)
Record Session : Type := {
  admin_id : option string;
  admin_role : option string;
  admin_name : option string;
  vendor_id : option Z;
  business_name : option string;
  permanent : bool
}.

Definition anonymous : Session :=
  {| admin_id := None; admin_role := None; admin_name := None;
     vendor_id := None; business_name := None; permanent := false |}.

(** Truth of an optional [str]: [None] and the empty string are false. *)
Definition truthy_text (v : option string) : bool :=
  match v with
  | Some (String _ _) => true
  | Some EmptyString | None => false
  end.

(** Truth of an optional [int]: [None] and [0] are false. *)
Definition truthy_int (v : option Z) : bool :=
  match v with
  | Some n => negb (n =? 0)
  | None => false
  end.

(** [v or default] for an optional [str]. *)
Definition text_or (v : option string) (default : string) : string :=
  match v with
  | Some (String a rest) => String a rest
  | Some EmptyString | None => default
  end.

Definition json_text (v : option string) : json :=
  match v with
  | Some s => JStr s
  | None => JNull
  end.

Definition option_eqb (a b : option string) : bool :=
  match a, b with
  | Some x, Some y => String.eqb x y
  | None, None => true
  | _, _ => false
  end.

(** [len(s)]: the bytes of the UTF-8 text that are not continuation
    bytes. *)
Fixpoint py_len (s : string) : Z :=
  match s with
  | EmptyString => 0
  | String c rest =>
      (if ((128 <=? nat_of_ascii c) && (nat_of_ascii c <? 192))%nat then 0 else 1)
      + py_len rest
  end.

(** [require_admin_auth] (lines 71-76): the 401 reply, or [None]. *)
Definition require_admin_auth (s : Session) : option Reply :=
  if truthy_text (admin_id s) then None
  else Some {| body := JDict [("error", JStr "Unauthorized. Admin login required.")];
               code := 401 |}.

End Web.

Module Admin.

(** A row of [admin_accounts]. *)
Record Account : Type := {
  id : Z;
  username : string;
  password : string;
  role : option string;
  name : string;
  created_at : string;
  updated_at : string
}.

(** The body of the login request, defaults applied. *)
Record LoginForm : Type := { form_username : string; form_password : string }.

(** The body of the change-password request, defaults applied. *)
Record PasswordForm : Type := {
  current_password : string;
  new_password : string;
  confirm_password : string
}.

(** [admin_login] (lines 119-143); [strip] is [str.strip]. *)
Definition admin_login (strip : string -> string) (table : list Account)
    (s : Web.Session) (data : LoginForm) : Web.Reply * Web.Session :=
  let username := strip (form_username data) in
  let password := form_password data in
  match find (fun a => String.eqb (Admin.username a) username
                       && String.eqb (Admin.password a) password) table with
  | Some admin =>
      ({| Web.body :=
            JDict [("success", JBool true);
                   ("message", JStr "Login successful");
                   ("admin", JDict [("username", JStr (Admin.username admin));
                                    ("role", Web.json_text (role admin));
                                    ("name", JStr (name admin))])];
          Web.code := 200 |},
       {| Web.admin_id := Some (Admin.username admin);
          Web.admin_role := role admin;
          Web.admin_name := Some (name admin);
          Web.vendor_id := Web.vendor_id s;
          Web.business_name := Web.business_name s;
          Web.permanent := true |})
  | None =>
      ({| Web.body := JDict [("error", JStr "Invalid username or password")];
          Web.code := 401 |}, s)
  end.

(** [admin_logout] (lines 146-151). *)
Definition admin_logout (s : Web.Session) : Web.Reply * Web.Session :=
  ({| Web.body := JDict [("success", JBool true);
                         ("message", JStr "Logged out successfully")];
      Web.code := 200 |},
   {| Web.admin_id := None; Web.admin_role := None; Web.admin_name := None;
      Web.vendor_id := Web.vendor_id s;
      Web.business_name := Web.business_name s;
      Web.permanent := Web.permanent s |}).

(** [admin_session] (lines 154-164). *)
Definition admin_session (s : Web.Session) : Web.Reply :=
  if Web.truthy_text (Web.admin_id s) then
    {| Web.body := JDict [("authenticated", JBool true);
                          ("username", Web.json_text (Web.admin_id s));
                          ("role", Web.json_text (Web.admin_role s));
                          ("name", Web.json_text (Web.admin_name s))];
       Web.code := 200 |}
  else {| Web.body := JDict [("authenticated", JBool false)]; Web.code := 401 |}.

Definition error (message : string) (status : Z) : Web.Reply :=
  {| Web.body := JDict [("error", JStr message)]; Web.code := status |}.

(** The assignment of line 196 and the commit: the first row with the
    user name gets the password, and the time of the commit when the
    password is a new one. *)
Fixpoint set_password (table : list Account) (user new now : string) : list Account :=
  match table with
  | [] => []
  | a :: rest =>
      if String.eqb (username a) user then
        {| id := id a; username := username a; password := new; role := role a;
           name := name a; created_at := created_at a;
           updated_at := if String.eqb (password a) new then updated_at a else now |}
        :: rest
      else a :: set_password rest user new now
  end.

Definition is_empty (s : string) : bool :=
  match s with
  | EmptyString => true
  | String _ _ => false
  end.

(** [change_admin_password] (lines 167-202); [now] is the time of the
    commit. *)
Definition change_admin_password (table : list Account) (s : Web.Session)
    (data : PasswordForm) (now : string) : Web.Reply * list Account :=
  match Web.require_admin_auth s with
  | Some auth_error => (auth_error, table)
  | None =>
      if is_empty (current_password data) || is_empty (new_password data)
         || is_empty (confirm_password data)
      then (error "All fields are required" 400, table)
      else if negb (String.eqb (new_password data) (confirm_password data))
      then (error "New passwords do not match" 400, table)
      else if Web.py_len (new_password data) <? 6
      then (error "Password must be at least 6 characters" 400, table)
      else
        match Web.admin_id s with
        | None => (error "Admin account not found" 404, table)
        | Some admin_username =>
            match find (fun a => String.eqb (username a) admin_username) table with
            | None => (error "Admin account not found" 404, table)
            | Some admin =>
                if negb (String.eqb (password admin) (current_password data))
                then (error "Current password is incorrect" 401, table)
                else
                  ({| Web.body := JDict [("success", JBool true);
                                         ("message", JStr "Password changed successfully")];
                      Web.code := 200 |},
                   set_password table admin_username (new_password data) now)
            end
        end
  end.

End Admin.

(** The seeded super administrator and an operator, a session of the
    first, and a form to change its password. *)
Definition admins : list Admin.Account :=
  [{| Admin.id := 1; Admin.username := "olving82@gmail.com"; Admin.password := "admin123";
      Admin.role := Some "super_admin"; Admin.name := "Super Administrator";
      Admin.created_at := "2025-01-01T00:00:00"; Admin.updated_at := "2025-01-01T00:00:00" |};
   {| Admin.id := 2; Admin.username := "ops@example.com"; Admin.password := "letmein";
      Admin.role := Some "admin"; Admin.name := "Operator";
      Admin.created_at := "2025-01-02T00:00:00"; Admin.updated_at := "2025-01-02T00:00:00" |}].

Definition admin_logged_in : Web.Session :=
  {| Web.admin_id := Some "olving82@gmail.com"; Web.admin_role := Some "super_admin";
     Web.admin_name := Some "Super Administrator"; Web.vendor_id := None;
     Web.business_name := None; Web.permanent := true |}.

Definition new_secret : Admin.PasswordForm :=
  {| Admin.current_password := "admin123"; Admin.new_password := "s3cr3t!";
     Admin.confirm_password := "s3cr3t!" |}.

(** ** Outgoing mail ([email_service.py])

    The configuration is read from the environment when the module is
    loaded.  The two real transports are parameters: what the SendGrid
    client answers to a message (a status code, or the text of the
    exception raised inside the [try]), and what the SMTP session does with
    one ([None], or the text of the exception). *)

Module Email.

Record Config : Type := {
  EMAIL_PROVIDER : string;
  SENDGRID_API_KEY : string;
  FROM_EMAIL : string;
  FROM_NAME : string;
  SMTP_HOST : string;
  SMTP_PORT : Z;
  SMTP_USER : string;
  SMTP_PASSWORD : string
}.

(** The configuration of an empty environment. *)
Definition defaults : Config :=
  {| EMAIL_PROVIDER := "mock"; SENDGRID_API_KEY := EmptyString;
     FROM_EMAIL := "noreply@satisfy.com"; FROM_NAME := "Satisfy Platform";
     SMTP_HOST := "smtp.gmail.com"; SMTP_PORT := 587;
     SMTP_USER := EmptyString; SMTP_PASSWORD := EmptyString |}.

(** A message as handed to a transport: the parts are pairs of a content
    type and a text. *)
Record Message : Type := {
  from_address : string;
  from_name : string;
  to_email : string;
  subject : string;
  parts : list (string * string)
}.

(** What leaves the process, or is printed. *)
Inductive Effect : Type :=
| SendGrid (api_key : string) (m : Message)
| Smtp (host : string) (port : Z) (user password : string) (m : Message)
| Printed (lines : list string).

Record Transports : Type := {
  sendgrid : string -> Message -> Z + string;
  smtp : string -> Z -> string -> string -> Message -> option string
}.

Definition is_empty (s : string) : bool :=
  match s with
  | EmptyString => true
  | String _ _ => false
  end.

(** [if html_body:] for the optional HTML text. *)
Definition html_part (kind : string) (html_body : option string) : list (string * string) :=
  match html_body with
  | Some (String a rest) => [(kind, String a rest)]
  | Some EmptyString | None => []
  end.

Fixpoint repeated (s : string) (n : nat) : string :=
  match n with
  | O => EmptyString
  | S n' => s ++ repeated s n'
  end.

(** [_send_via_sendgrid] (lines 42-82). *)
Definition _send_via_sendgrid (cfg : Config) (net : Transports)
    (to subject body : string) (html_body : option string) : json * list Effect :=
  if is_empty (SENDGRID_API_KEY cfg) then
    (JDict [("success", JBool false);
            ("message", JStr "SendGrid API key not configured. Set SENDGRID_API_KEY environment variable.")],
     [])
  else
    let message :=
      {| from_address := FROM_EMAIL cfg; from_name := FROM_NAME cfg; to_email := to;
         Email.subject := subject;
         parts := ("text/plain", body) :: html_part "text/html" html_body |} in
    match sendgrid net (SENDGRID_API_KEY cfg) message with
    | inl status_code =>
        (JDict [("success", JBool true);
                ("message", JStr ("Email sent successfully via SendGrid (Status: "
                                  ++ str_of_int status_code ++ ")"));
                ("status_code", JInt status_code)],
         [SendGrid (SENDGRID_API_KEY cfg) message])
    | inr e =>
        (JDict [("success", JBool false); ("message", JStr ("SendGrid error: " ++ e))],
         [SendGrid (SENDGRID_API_KEY cfg) message])
    end.

(** [_send_via_smtp] (lines 84-125). *)
Definition _send_via_smtp (cfg : Config) (net : Transports)
    (to subject body : string) (html_body : option string) : json * list Effect :=
  if is_empty (SMTP_USER cfg) || is_empty (SMTP_PASSWORD cfg) then
    (JDict [("success", JBool false);
            ("message", JStr "SMTP credentials not configured. Set SMTP_USER and SMTP_PASSWORD.")],
     [])
  else
    let message :=
      {| from_address := FROM_EMAIL cfg; from_name := FROM_NAME cfg; to_email := to;
         Email.subject := subject;
         parts := ("plain", body) :: html_part "html" html_body |} in
    let sent := Smtp (SMTP_HOST cfg) (SMTP_PORT cfg) (SMTP_USER cfg) (SMTP_PASSWORD cfg) message in
    match smtp net (SMTP_HOST cfg) (SMTP_PORT cfg) (SMTP_USER cfg) (SMTP_PASSWORD cfg) message with
    | None =>
        (JDict [("success", JBool true);
                ("message", JStr ("Email sent successfully via SMTP to " ++ to))],
         [sent])
    | Some e =>
        (JDict [("success", JBool false); ("message", JStr ("SMTP error: " ++ e))], [sent])
    end.

(** [_send_mock] (lines 127-143): the eight [print]s and the result. *)
Definition _send_mock (cfg : Config) (to subject body : string) : json * list Effect :=
  (JDict [("success", JBool true);
          ("message", JStr "Email logged to console (mock mode)");
          ("preview", JStr body)],
   [Printed [nl ++ repeated "=" 60;
             "üìß EMAIL SENT (Mock Mode)";
             repeated "=" 60;
             "To: " ++ to;
             "From: " ++ FROM_NAME cfg ++ " <" ++ FROM_EMAIL cfg ++ ">";
             "Subject: " ++ subject;
             repeated "-" 60;
             body;
             repeated "=" 60 ++ nl]]).

(** [send_email] (lines 20-40). *)
Definition send_email (cfg : Config) (net : Transports)
    (to subject body : string) (html_body : option string) : json * list Effect :=
  if String.eqb (EMAIL_PROVIDER cfg) "sendgrid" then
    _send_via_sendgrid cfg net to subject body html_body
  else if String.eqb (EMAIL_PROVIDER cfg) "smtp" then
    _send_via_smtp cfg net to subject body html_body
  else _send_mock cfg to subject body.

(** [get_vendor_approval_email] (lines 146-209). *)
Definition get_vendor_approval_email (vendor_name contact_person : string) : string * string * string :=
  let subject := "‚úÖ Vendor Application Approved - Satisfy Platform" in
  let body :=
    join nl
      [ "Dear " ++ contact_person ++ ",";
        EmptyString;
        "Congratulations! Your vendor application for " ++ vendor_name ++ " has been APPROVED.";
        EmptyString;
        "You can now access the Satisfy Vendor Portal to manage your products and view customer feedback.";
        EmptyString;
        "üîó Vendor Portal: http://localhost:5000/vendor";
        EmptyString;
        "What you can do now:";
        "‚úì Add and manage your product listings";
        "‚úì View customer likes and dislikes";
        "‚úì Track product performance";
        "‚úì Update product information anytime";
        EmptyString;
        "If you have any questions, please contact our support team.";
        EmptyString;
        "Best regards,";
        "The Satisfy Team";
        EmptyString;
        "---";
        "This is an automated message from Satisfy Platform." ] in
  let html_body :=
    join nl
      [ EmptyString;
        "    <html>";
        "    <body style=" ++ dq
          ++ "font-family: Arial, sans-serif; line-height: 1.6; color: #333;" ++ dq ++ ">";
        "        <div style=" ++ dq
          ++ "max-width: 600px; margin: 0 auto; padding: 20px; background: #f7f7f7;" ++ dq ++ ">";
        "            <div style=" ++ dq
          ++ "background: #00704A; color: white; padding: 20px; border-radius: 8px 8px 0 0;" ++ dq
          ++ ">";
        "                <h1 style=" ++ dq ++ "margin: 0;" ++ dq ++ ">‚òï Satisfy</h1>";
        "            </div>";
        "            <div style=" ++ dq
          ++ "background: white; padding: 30px; border-radius: 0 0 8px 8px;" ++ dq ++ ">";
        "                <h2 style=" ++ dq ++ "color: #00704A;" ++ dq
          ++ ">‚úÖ Vendor Application Approved!</h2>";
        "                <p>Dear <strong>" ++ contact_person ++ "</strong>,</p>";
        "                <p>Congratulations! Your vendor application for <strong>"
          ++ vendor_name ++ "</strong> has been APPROVED.</p>";
        "                ";
        "                <div style=" ++ dq
          ++ "background: #e8f5e9; padding: 15px; border-left: 4px solid #4caf50; margin: 20px 0;"
          ++ dq ++ ">";
        "                    <p style=" ++ dq ++ "margin: 0;" ++ dq
          ++ "><strong>üîó Access your portal:</strong></p>";
        "                    <p style=" ++ dq ++ "margin: 5px 0;" ++ dq ++ "><a href=" ++ dq
          ++ "http://localhost:5000/vendor" ++ dq ++ " style=" ++ dq ++ "color: #00704A;" ++ dq
          ++ ">http://localhost:5000/vendor</a></p>";
        "                </div>";
        "                ";
        "                <h3>What you can do now:</h3>";
        "                <ul>";
        "                    <li>‚úì Add and manage your product listings</li>";
        "                    <li>‚úì View customer likes and dislikes</li>";
        "                    <li>‚úì Track product performance</li>";
        "                    <li>‚úì Update product information anytime</li>";
        "                </ul>";
        "                ";
        "                <p>If you have any questions, please contact our support team.</p>";
        "                ";
        "                <p>Best regards,<br><strong>The Satisfy Team</strong></p>";
        "                ";
        "                <hr style=" ++ dq
          ++ "border: none; border-top: 1px solid #ddd; margin: 20px 0;" ++ dq ++ ">";
        "                <p style=" ++ dq ++ "font-size: 12px; color: #666;" ++ dq
          ++ ">This is an automated message from Satisfy Platform.</p>";
        "            </div>";
        "        </div>";
        "    </body>";
        "    </html>";
        "    " ] in
  (subject, body, html_body).

(** [get_vendor_rejection_email] (lines 211-260). *)
Definition get_vendor_rejection_email (vendor_name contact_person reason : string) : string * string * string :=
  let subject := "Vendor Application Status - Satisfy Platform" in
  let body :=
    join nl
      [ "Dear " ++ contact_person ++ ",";
        EmptyString;
        "Thank you for your interest in joining Satisfy with " ++ vendor_name ++ ".";
        EmptyString;
        "After careful review, we regret to inform you that we cannot approve your application at this time.";
        EmptyString;
        "Reason: " ++ reason;
        EmptyString;
        "If you have any questions or would like to discuss this decision, please contact our support team.";
        EmptyString;
        "Best regards,";
        "The Satisfy Team";
        EmptyString;
        "---";
        "This is an automated message from Satisfy Platform." ] in
  let html_body :=
    join nl
      [ EmptyString;
        "    <html>";
        "    <body style=" ++ dq
          ++ "font-family: Arial, sans-serif; line-height: 1.6; color: #333;" ++ dq ++ ">";
        "        <div style=" ++ dq
          ++ "max-width: 600px; margin: 0 auto; padding: 20px; background: #f7f7f7;" ++ dq ++ ">";
        "            <div style=" ++ dq
          ++ "background: #00704A; color: white; padding: 20px; border-radius: 8px 8px 0 0;" ++ dq
          ++ ">";
        "                <h1 style=" ++ dq ++ "margin: 0;" ++ dq ++ ">‚òï Satisfy</h1>";
        "            </div>";
        "            <div style=" ++ dq
          ++ "background: white; padding: 30px; border-radius: 0 0 8px 8px;" ++ dq ++ ">";
        "                <h2>Vendor Application Status</h2>";
        "                <p>Dear <strong>" ++ contact_person ++ "</strong>,</p>";
        "                <p>Thank you for your interest in joining Satisfy with <strong>"
          ++ vendor_name ++ "</strong>.</p>";
        "                <p>After careful review, we regret to inform you that we cannot approve your application at this time.</p>";
        "                ";
        "                <div style=" ++ dq
          ++ "background: #ffebee; padding: 15px; border-left: 4px solid #f44336; margin: 20px 0;"
          ++ dq ++ ">";
        "                    <p style=" ++ dq ++ "margin: 0;" ++ dq
          ++ "><strong>Reason:</strong> " ++ reason ++ "</p>";
        "                </div>";
        "                ";
        "                <p>If you have any questions or would like to discuss this decision, please contact our support team.</p>";
        "                ";
        "                <p>Best regards,<br><strong>The Satisfy Team</strong></p>";
        "                ";
        "                <hr style=" ++ dq
          ++ "border: none; border-top: 1px solid #ddd; margin: 20px 0;" ++ dq ++ ">";
        "                <p style=" ++ dq ++ "font-size: 12px; color: #666;" ++ dq
          ++ ">This is an automated message from Satisfy Platform.</p>";
        "            </div>";
        "        </div>";
        "    </body>";
        "    </html>";
        "    " ] in
  (subject, body, html_body).

(** [get_vendor_blocked_email] (lines 262-308). *)
Definition get_vendor_blocked_email (vendor_name contact_person reason : string) : string * string * string :=
  let subject := "üö´ Account Blocked - Satisfy Platform" in
  let body :=
    join nl
      [ "Dear " ++ contact_person ++ ",";
        EmptyString;
        "Your vendor account for " ++ vendor_name ++ " has been blocked by an administrator.";
        EmptyString;
        "Reason: " ++ reason;
        EmptyString;
        "Your vendor portal access has been suspended. Please contact support for more information.";
        EmptyString;
        "Best regards,";
        "The Satisfy Admin Team";
        EmptyString;
        "---";
        "This is an automated message from Satisfy Platform." ] in
  let html_body :=
    join nl
      [ EmptyString;
        "    <html>";
        "    <body style=" ++ dq
          ++ "font-family: Arial, sans-serif; line-height: 1.6; color: #333;" ++ dq ++ ">";
        "        <div style=" ++ dq
          ++ "max-width: 600px; margin: 0 auto; padding: 20px; background: #f7f7f7;" ++ dq ++ ">";
        "            <div style=" ++ dq
          ++ "background: #d32f2f; color: white; padding: 20px; border-radius: 8px 8px 0 0;" ++ dq
          ++ ">";
        "                <h1 style=" ++ dq ++ "margin: 0;" ++ dq ++ ">‚òï Satisfy</h1>";
        "            </div>";
        "            <div style=" ++ dq
          ++ "background: white; padding: 30px; border-radius: 0 0 8px 8px;" ++ dq ++ ">";
        "                <h2 style=" ++ dq ++ "color: #d32f2f;" ++ dq
          ++ ">üö´ Account Blocked</h2>";
        "                <p>Dear <strong>" ++ contact_person ++ "</strong>,</p>";
        "                <p>Your vendor account for <strong>" ++ vendor_name
          ++ "</strong> has been blocked by an administrator.</p>";
        "                ";
        "                <div style=" ++ dq
          ++ "background: #ffebee; padding: 15px; border-left: 4px solid #d32f2f; margin: 20px 0;"
          ++ dq ++ ">";
        "                    <p style=" ++ dq ++ "margin: 0;" ++ dq
          ++ "><strong>Reason:</strong> " ++ reason ++ "</p>";
        "                </div>";
        "                ";
        "                <p>Your vendor portal access has been suspended. Please contact support for more information.</p>";
        "                ";
        "                <p>Best regards,<br><strong>The Satisfy Admin Team</strong></p>";
        "                ";
        "                <hr style=" ++ dq
          ++ "border: none; border-top: 1px solid #ddd; margin: 20px 0;" ++ dq ++ ">";
        "                <p style=" ++ dq ++ "font-size: 12px; color: #666;" ++ dq
          ++ ">This is an automated message from Satisfy Platform.</p>";
        "            </div>";
        "        </div>";
        "    </body>";
        "    </html>";
        "    " ] in
  (subject, body, html_body).

(** [get_vendor_suspended_email] (lines 310-362). *)
Definition get_vendor_suspended_email (vendor_name contact_person reason : string) : string * string * string :=
  let subject := "‚è∏Ô∏è Account Suspended - Satisfy Platform" in
  let body :=
    join nl
      [ "Dear " ++ contact_person ++ ",";
        EmptyString;
        "Your vendor account for " ++ vendor_name ++ " has been temporarily suspended.";
        EmptyString;
        "Reason: " ++ reason;
        EmptyString;
        "Your vendor portal access is paused. Please resolve the issue to restore access.";
        "This is a temporary measure and can be resolved.";
        EmptyString;
        "If you have any questions, please contact support.";
        EmptyString;
        "Best regards,";
        "The Satisfy Admin Team";
        EmptyString;
        "---";
        "This is an automated message from Satisfy Platform." ] in
  let html_body :=
    join nl
      [ EmptyString;
        "    <html>";
        "    <body style=" ++ dq
          ++ "font-family: Arial, sans-serif; line-height: 1.6; color: #333;" ++ dq ++ ">";
        "        <div style=" ++ dq
          ++ "max-width: 600px; margin: 0 auto; padding: 20px; background: #f7f7f7;" ++ dq ++ ">";
        "            <div style=" ++ dq
          ++ "background: #ff9800; color: white; padding: 20px; border-radius: 8px 8px 0 0;" ++ dq
          ++ ">";
        "                <h1 style=" ++ dq ++ "margin: 0;" ++ dq ++ ">‚òï Satisfy</h1>";
        "            </div>";
        "            <div style=" ++ dq
          ++ "background: white; padding: 30px; border-radius: 0 0 8px 8px;" ++ dq ++ ">";
        "                <h2 style=" ++ dq ++ "color: #ff9800;" ++ dq
          ++ ">‚è∏Ô∏è Account Suspended</h2>";
        "                <p>Dear <strong>" ++ contact_person ++ "</strong>,</p>";
        "                <p>Your vendor account for <strong>" ++ vendor_name
          ++ "</strong> has been temporarily suspended.</p>";
        "                ";
        "                <div style=" ++ dq
          ++ "background: #fff3e0; padding: 15px; border-left: 4px solid #ff9800; margin: 20px 0;"
          ++ dq ++ ">";
        "                    <p style=" ++ dq ++ "margin: 0;" ++ dq
          ++ "><strong>Reason:</strong> " ++ reason ++ "</p>";
        "                </div>";
        "                ";
        "                <p>Your vendor portal access is paused. Please resolve the issue to restore access.</p>";
        "                <p><em>This is a temporary measure and can be resolved.</em></p>";
        "                ";
        "                <p>If you have any questions, please contact support.</p>";
        "                ";
        "                <p>Best regards,<br><strong>The Satisfy Admin Team</strong></p>";
        "                ";
        "                <hr style=" ++ dq
          ++ "border: none; border-top: 1px solid #ddd; margin: 20px 0;" ++ dq ++ ">";
        "                <p style=" ++ dq ++ "font-size: 12px; color: #666;" ++ dq
          ++ ">This is an automated message from Satisfy Platform.</p>";
        "            </div>";
        "        </div>";
        "    </body>";
        "    </html>";
        "    " ] in
  (subject, body, html_body).

(** [get_vendor_restored_email] (lines 364-413). *)
Definition get_vendor_restored_email (vendor_name contact_person : string) : string * string * string :=
  let subject := "‚úÖ Account Restored - Satisfy Platform" in
  let body :=
    join nl
      [ "Dear " ++ contact_person ++ ",";
        EmptyString;
        "Good news! Your vendor account for " ++ vendor_name ++ " has been restored.";
        EmptyString;
        "Your vendor portal access is now active again. You can continue managing your products.";
        EmptyString;
        "Thank you for resolving the issue.";
        EmptyString;
        "üîó Vendor Portal: http://localhost:5000/vendor";
        EmptyString;
        "Best regards,";
        "The Satisfy Admin Team";
        EmptyString;
        "---";
        "This is an automated message from Satisfy Platform." ] in
  let html_body :=
    join nl
      [ EmptyString;
        "    <html>";
        "    <body style=" ++ dq
          ++ "font-family: Arial, sans-serif; line-height: 1.6; color: #333;" ++ dq ++ ">";
        "        <div style=" ++ dq
          ++ "max-width: 600px; margin: 0 auto; padding: 20px; background: #f7f7f7;" ++ dq ++ ">";
        "            <div style=" ++ dq
          ++ "background: #4caf50; color: white; padding: 20px; border-radius: 8px 8px 0 0;" ++ dq
          ++ ">";
        "                <h1 style=" ++ dq ++ "margin: 0;" ++ dq ++ ">‚òï Satisfy</h1>";
        "            </div>";
        "            <div style=" ++ dq
          ++ "background: white; padding: 30px; border-radius: 0 0 8px 8px;" ++ dq ++ ">";
        "                <h2 style=" ++ dq ++ "color: #4caf50;" ++ dq
          ++ ">‚úÖ Account Restored</h2>";
        "                <p>Dear <strong>" ++ contact_person ++ "</strong>,</p>";
        "                <p>Good news! Your vendor account for <strong>" ++ vendor_name
          ++ "</strong> has been restored.</p>";
        "                ";
        "                <div style=" ++ dq
          ++ "background: #e8f5e9; padding: 15px; border-left: 4px solid #4caf50; margin: 20px 0;"
          ++ dq ++ ">";
        "                    <p style=" ++ dq ++ "margin: 0;" ++ dq
          ++ ">Your vendor portal access is now active again.</p>";
        "                    <p style=" ++ dq ++ "margin: 5px 0;" ++ dq ++ "><a href=" ++ dq
          ++ "http://localhost:5000/vendor" ++ dq ++ " style=" ++ dq ++ "color: #00704A;" ++ dq
          ++ ">Access Vendor Portal</a></p>";
        "                </div>";
        "                ";
        "                <p>Thank you for resolving the issue.</p>";
        "                ";
        "                <p>Best regards,<br><strong>The Satisfy Admin Team</strong></p>";
        "                ";
        "                <hr style=" ++ dq
          ++ "border: none; border-top: 1px solid #ddd; margin: 20px 0;" ++ dq ++ ">";
        "                <p style=" ++ dq ++ "font-size: 12px; color: #666;" ++ dq
          ++ ">This is an automated message from Satisfy Platform.</p>";
        "            </div>";
        "        </div>";
        "    </body>";
        "    </html>";
        "    " ] in
  (subject, body, html_body).

End Email.

(** ** Vendor accounts *)

Module Vendor.

(** A row of [vendor_accounts]. *)
Record Account : Type := {
  id : Z;
  business_name : string;
  contact_person : option string;
  email : string;
  phone : option string;
  facebook_business_id : option string;
  status : option string;
  reject_reason : option string;
  block_reason : option string;
  suspend_reason : option string;
  created_at : string;
  updated_at : string
}.

(** [model_to_dict] (lines 79-90) of a vendor row. *)
Definition to_dict (v : Account) : json :=
  JDict [("id", JInt (id v));
         ("business_name", JStr (business_name v));
         ("contact_person", Web.json_text (contact_person v));
         ("email", JStr (email v));
         ("phone", Web.json_text (phone v));
         ("facebook_business_id", Web.json_text (facebook_business_id v));
         ("status", Web.json_text (status v));
         ("reject_reason", Web.json_text (reject_reason v));
         ("block_reason", Web.json_text (block_reason v));
         ("suspend_reason", Web.json_text (suspend_reason v));
         ("created_at", JStr (created_at v));
         ("updated_at", JStr (updated_at v))].

Definition has_status (v : Account) (st : string) : bool :=
  Web.option_eqb (status v) (Some st).

(** [require_vendor_auth] (lines 48-69): the 401 or 403 reply, or [None]. *)
Definition require_vendor_auth (table : list Account) (s : Web.Session) : option Web.Reply :=
  if negb (Web.truthy_int (Web.vendor_id s)) then
    Some {| Web.body :=
              JDict [("error",
                      JStr "Unauthorized. Please login with Facebook Business account.")];
            Web.code := 401 |}
  else
    match Web.business_name s with
    | Some (String a rest) =>
        match find (fun v => String.eqb (business_name v) (String a rest)) table with
        | Some vendor =>
            if has_status vendor "blocked" then
              Some {| Web.body :=
                        JDict [("error", JStr "Account Blocked");
                               ("message",
                                JStr ("Your account has been blocked. Reason: "
                                      ++ Web.text_or (block_reason vendor)
                                           "Contact administrator"))];
                      Web.code := 403 |}
            else if has_status vendor "suspended" then
              Some {| Web.body :=
                        JDict [("error", JStr "Account Suspended");
                               ("message",
                                JStr ("Your account is temporarily suspended. Reason: "
                                      ++ Web.text_or (suspend_reason vendor)
                                           "Payment required"))];
                      Web.code := 403 |}
            else None
        | None => None
        end
    | Some EmptyString | None => None
    end.

(** The row [v] with the status and the three reasons given. *)
Definition amend (v : Account) (st rr br sr : option string) : Account :=
  {| id := id v; business_name := business_name v; contact_person := contact_person v;
     email := email v; phone := phone v; facebook_business_id := facebook_business_id v;
     status := st; reject_reason := rr; block_reason := br; suspend_reason := sr;
     created_at := created_at v; updated_at := updated_at v |}.

(** The commit of an amended row: [updated_at] is set to the time of the
    commit when a column has a new value. *)
Definition commit (now : string) (old new : Account) : Account :=
  if Web.option_eqb (status old) (status new)
     && Web.option_eqb (reject_reason old) (reject_reason new)
     && Web.option_eqb (block_reason old) (block_reason new)
     && Web.option_eqb (suspend_reason old) (suspend_reason new)
  then new
  else {| id := id new; business_name := business_name new;
          contact_person := contact_person new; email := email new; phone := phone new;
          facebook_business_id := facebook_business_id new; status := status new;
          reject_reason := reject_reason new; block_reason := block_reason new;
          suspend_reason := suspend_reason new; created_at := created_at new;
          updated_at := now |}.

(** The table with the first row of identifier [vendor_id] replaced. *)
Fixpoint store (table : list Account) (vendor_id : Z) (new : Account) : list Account :=
  match table with
  | [] => []
  | v :: rest =>
      if id v =? vendor_id then new :: rest else v :: store rest vendor_id new
  end.

(** The reason of the request body, or the default of the handler. *)
Definition reason_or (reason : option string) (default : string) : string :=
  match reason with
  | Some r => r
  | None => default
  end.

(** What the six status handlers (lines 502-678) share: the admin guard,
    the lookup by identifier, the assignment and the commit, the mail to
    the vendor's address and the reply.  The result is the reply, the
    table and what the mail did. *)
Definition transition (cfg : Email.Config) (net : Email.Transports)
    (table : list Account) (s : Web.Session) (vendor_id : Z) (now : string)
    (change : Account -> Account) (mail : Account -> string * string * string)
    (message : string) : Web.Reply * list Account * list Email.Effect :=
  match Web.require_admin_auth s with
  | Some auth_error => (auth_error, table, [])
  | None =>
      match find (fun v => id v =? vendor_id) table with
      | None =>
          ({| Web.body := JDict [("error", JStr "Vendor not found")]; Web.code := 404 |},
           table, [])
      | Some old =>
          let vendor := commit now old (change old) in
          let '(subject, body, html_body) := mail vendor in
          let (email_result, effects) :=
            Email.send_email cfg net (email vendor) subject body (Some html_body) in
          ({| Web.body := JDict [("message", JStr message);
                                 ("vendor", to_dict vendor);
                                 ("email_status", email_result)];
              Web.code := 200 |},
           store table vendor_id vendor, effects)
      end
  end.

(** [vendor.contact_person or 'Vendor']. *)
Definition contact (v : Account) : string := Web.text_or (contact_person v) "Vendor".

(** [approve_vendor] (lines 502-526). *)
Definition approve_vendor (cfg : Email.Config) (net : Email.Transports)
    (table : list Account) (s : Web.Session) (vendor_id : Z) (now : string) :=
  transition cfg net table s vendor_id now
    (fun v => amend v (Some "approved") (reject_reason v) (block_reason v) (suspend_reason v))
    (fun v => Email.get_vendor_approval_email (business_name v) (contact v))
    "Vendor approved and notification email sent".

(** [reject_vendor] (lines 529-558). *)
Definition reject_vendor (cfg : Email.Config) (net : Email.Transports)
    (table : list Account) (s : Web.Session) (vendor_id : Z) (now : string)
    (reason : option string) :=
  let reason := reason_or reason "Application did not meet requirements" in
  transition cfg net table s vendor_id now
    (fun v => amend v (Some "rejected") (Some reason) (block_reason v) (suspend_reason v))
    (fun v => Email.get_vendor_rejection_email (business_name v) (contact v) reason)
    "Vendor rejected and notification email sent".

(** [block_vendor] (lines 561-590). *)
Definition block_vendor (cfg : Email.Config) (net : Email.Transports)
    (table : list Account) (s : Web.Session) (vendor_id : Z) (now : string)
    (reason : option string) :=
  let reason := reason_or reason "Blocked by administrator" in
  transition cfg net table s vendor_id now
    (fun v => amend v (Some "blocked") (reject_reason v) (Some reason) (suspend_reason v))
    (fun v => Email.get_vendor_blocked_email (business_name v) (contact v) reason)
    "Vendor blocked and notification email sent".

(** [unblock_vendor] (lines 593-618). *)
Definition unblock_vendor (cfg : Email.Config) (net : Email.Transports)
    (table : list Account) (s : Web.Session) (vendor_id : Z) (now : string) :=
  transition cfg net table s vendor_id now
    (fun v => amend v (Some "approved") (reject_reason v) None (suspend_reason v))
    (fun v => Email.get_vendor_restored_email (business_name v) (contact v))
    "Vendor unblocked and notification email sent".

(** [suspend_vendor] (lines 621-650). *)
Definition suspend_vendor (cfg : Email.Config) (net : Email.Transports)
    (table : list Account) (s : Web.Session) (vendor_id : Z) (now : string)
    (reason : option string) :=
  let reason := reason_or reason "Payment required" in
  transition cfg net table s vendor_id now
    (fun v => amend v (Some "suspended") (reject_reason v) (block_reason v) (Some reason))
    (fun v => Email.get_vendor_suspended_email (business_name v) (contact v) reason)
    "Vendor suspended and notification email sent".

(** [unsuspend_vendor] (lines 653-678). *)
Definition unsuspend_vendor (cfg : Email.Config) (net : Email.Transports)
    (table : list Account) (s : Web.Session) (vendor_id : Z) (now : string) :=
  transition cfg net table s vendor_id now
    (fun v => amend v (Some "approved") (reject_reason v) (block_reason v) None)
    (fun v => Email.get_vendor_restored_email (business_name v) (contact v))
    "Vendor unsuspended and notification email sent".

(** The six requests an administrator can make about a vendor's status;
    the reason is the [reason] key of the body, when there is one. *)
Inductive Action : Type :=
| Approve
| Reject (reason : option string)
| Block (reason : option string)
| Unblock
| Suspend (reason : option string)
| Unsuspend.

Definition perform (cfg : Email.Config) (net : Email.Transports)
    (table : list Account) (s : Web.Session) (vendor_id : Z) (now : string) (a : Action)
    : Web.Reply * list Account * list Email.Effect :=
  match a with
  | Approve => approve_vendor cfg net table s vendor_id now
  | Reject reason => reject_vendor cfg net table s vendor_id now reason
  | Block reason => block_vendor cfg net table s vendor_id now reason
  | Unblock => unblock_vendor cfg net table s vendor_id now
  | Suspend reason => suspend_vendor cfg net table s vendor_id now reason
  | Unsuspend => unsuspend_vendor cfg net table s vendor_id now
  end.

(** The status an action leaves the vendor in. *)
Definition target (a : Action) : string :=
  match a with
  | Approve | Unblock | Unsuspend => "approved"
  | Reject _ => "rejected"
  | Block _ => "blocked"
  | Suspend _ => "suspended"
  end.

End Vendor.

(** ** Products of a vendor *)

Module Shop.

(** A row of [product_interactions]. *)
Record Interaction : Type := {
  interaction_id : Z;
  product_id : Z;
  interaction_type : string;
  customer_email : option string;
  interaction_created_at : string
}.

(** An element of the statistics: the keys of lines 343-349. *)
Record Stat : Type := {
  stat_id : Z;
  stat_name : string;
  stat_category : string;
  likes : Z;
  dislikes : Z
}.

Definition stat_to_dict (x : Stat) : json :=
  JDict [("id", JInt (stat_id x)); ("name", JStr (stat_name x));
         ("category", JStr (stat_category x));
         ("likes", JInt (likes x)); ("dislikes", JInt (dislikes x))].

(** [filter_by(vendor=vendor_business_name)]: a comparison with [None] is
    the test [IS NULL], which no row passes since the column is not
    nullable. *)
Definition owned_by (vendor_business_name : option string) (p : Product) : bool :=
  match vendor_business_name with
  | Some bn => String.eqb (vendor p) bn
  | None => false
  end.

(** [filter_by(product_id=..., interaction_type=...).count()]. *)
Definition count (interactions : list Interaction) (pid : Z) (kind : string) : Z :=
  Z.of_nat (List.length
              (filter (fun i => (product_id i =? pid) && String.eqb (interaction_type i) kind)
                 interactions)).

(** The loop of lines 334-349. *)
Definition stats_of (interactions : list Interaction) (products : list Product) : list Stat :=
  map (fun product =>
         {| stat_id := id product; stat_name := name product;
            stat_category := category product;
            likes := count interactions (id product) "like";
            dislikes := count interactions (id product) "dislike" |})
    products.

(** [stats.sort(key=lambda x: x['likes'], reverse=True)]: the sort is
    stable, so elements with as many likes keep their order. *)
Fixpoint insert_stat (x : Stat) (sorted : list Stat) : list Stat :=
  match sorted with
  | [] => [x]
  | y :: rest => if likes x <? likes y then y :: insert_stat x rest else x :: y :: rest
  end.

Fixpoint sort_stats (stats : list Stat) : list Stat :=
  match stats with
  | [] => []
  | x :: rest => insert_stat x (sort_stats rest)
  end.

(** [get_product_stats] (lines 323-353). *)
Definition get_product_stats (vendors : list Vendor.Account) (products : list Product)
    (interactions : list Interaction) (s : Web.Session) : Web.Reply :=
  match Vendor.require_vendor_auth vendors s with
  | Some auth_error => auth_error
  | None =>
      let own := filter (owned_by (Web.business_name s)) products in
      {| Web.body := JList (map stat_to_dict (sort_stats (stats_of interactions own)));
         Web.code := 200 |}
  end.

(** [delete_product] (lines 276-291): the reply, the products and the
    interactions; the interactions of a deleted product go with it
    ([cascade='all, delete-orphan'] of [models.py]). *)
Definition delete_product (vendors : list Vendor.Account) (products : list Product)
    (interactions : list Interaction) (s : Web.Session) (pid : Z)
    : Web.Reply * list Product * list Interaction :=
  match Vendor.require_vendor_auth vendors s with
  | Some auth_error => (auth_error, products, interactions)
  | None =>
      match find (fun p => (id p =? pid) && owned_by (Web.business_name s) p) products with
      | None =>
          ({| Web.body := JDict [("error", JStr "Product not found or unauthorized")];
              Web.code := 404 |}, products, interactions)
      | Some product =>
          ({| Web.body := JDict [("message", JStr "Product deleted successfully")];
              Web.code := 200 |},
           filter (fun p => negb (id p =? id product)) products,
           filter (fun i => negb (product_id i =? id product)) interactions)
      end
  end.

End Shop.

(** Notions used by the properties of the vendor endpoints. *)

(** The effect is a message, or a console note, for the address [to]. *)
Definition addressed (to : string) (e : Email.Effect) : Prop :=
  match e with
  | Email.SendGrid _ m => Email.to_email m = to
  | Email.Smtp _ _ _ _ m => Email.to_email m = to
  | Email.Printed lines => In ("To: " ++ to) lines
  end.

(** What an action writes in the reason columns of the vendor's row. *)
Definition reason_recorded (a : Vendor.Action) (old new : Vendor.Account) : Prop :=
  match a with
  | Vendor.Approve =>
      Vendor.reject_reason new = Vendor.reject_reason old
      /\ Vendor.block_reason new = Vendor.block_reason old
      /\ Vendor.suspend_reason new = Vendor.suspend_reason old
  | Vendor.Reject reason =>
      Vendor.reject_reason new
      = Some (Vendor.reason_or reason "Application did not meet requirements")
      /\ Vendor.block_reason new = Vendor.block_reason old
      /\ Vendor.suspend_reason new = Vendor.suspend_reason old
  | Vendor.Block reason =>
      Vendor.reject_reason new = Vendor.reject_reason old
      /\ Vendor.block_reason new = Some (Vendor.reason_or reason "Blocked by administrator")
      /\ Vendor.suspend_reason new = Vendor.suspend_reason old
  | Vendor.Unblock =>
      Vendor.reject_reason new = Vendor.reject_reason old
      /\ Vendor.block_reason new = None
      /\ Vendor.suspend_reason new = Vendor.suspend_reason old
  | Vendor.Suspend reason =>
      Vendor.reject_reason new = Vendor.reject_reason old
      /\ Vendor.block_reason new = Vendor.block_reason old
      /\ Vendor.suspend_reason new = Some (Vendor.reason_or reason "Payment required")
  | Vendor.Unsuspend =>
      Vendor.reject_reason new = Vendor.reject_reason old
      /\ Vendor.block_reason new = Vendor.block_reason old
      /\ Vendor.suspend_reason new = None
  end.

(** Vendors, transports and configurations to run the vendor endpoints
    on. *)
Definition vendor_row (i : Z) (bn : string) (who : option string) (mail : string)
    (st : string) (br : option string) : Vendor.Account :=
  {| Vendor.id := i; Vendor.business_name := bn; Vendor.contact_person := who;
     Vendor.email := mail; Vendor.phone := None; Vendor.facebook_business_id := None;
     Vendor.status := Some st; Vendor.reject_reason := None; Vendor.block_reason := br;
     Vendor.suspend_reason := None;
     Vendor.created_at := "2025-01-01T00:00:00"; Vendor.updated_at := "2025-01-01T00:00:00" |}.

Definition vendors : list Vendor.Account :=
  [vendor_row 1 "Starbucks" (Some "Dana") "dana@starbucks.example" "approved" None;
   vendor_row 2 "Blue Bottle Coffee" None "hello@bluebottle.example" "pending" None;
   vendor_row 3 "Corner Roasters" (Some "Sam") "sam@corner.example" "blocked"
     (Some "Unpaid invoices")].

(** A SendGrid that accepts every message and an SMTP server that refuses
    the login. *)
Definition sample_net : Email.Transports :=
  {| Email.sendgrid := fun _ _ => inl 202;
     Email.smtp := fun _ _ _ _ _ => Some "(535, b'Authentication failed')" |}.

Definition smtp_config : Email.Config :=
  {| Email.EMAIL_PROVIDER := "smtp"; Email.SENDGRID_API_KEY := EmptyString;
     Email.FROM_EMAIL := "noreply@satisfy.com"; Email.FROM_NAME := "Satisfy Platform";
     Email.SMTP_HOST := "smtp.gmail.com"; Email.SMTP_PORT := 587;
     Email.SMTP_USER := "mailer"; Email.SMTP_PASSWORD := "wrong" |}.

(** The session of the vendor Blue Bottle Coffee. *)
Definition blue_bottle_session : Web.Session :=
  {| Web.admin_id := None; Web.admin_role := None; Web.admin_name := None;
     Web.vendor_id := Some 2; Web.business_name := Some "Blue Bottle Coffee";
     Web.permanent := true |}.

(** The session of the vendor Starbucks. *)
Definition starbucks_session : Web.Session :=
  {| Web.admin_id := None; Web.admin_role := None; Web.admin_name := None;
     Web.vendor_id := Some 1; Web.business_name := Some "Starbucks";
     Web.permanent := true |}.

(** The products of two vendors. *)
Definition single_origin : Product :=
  {| id := 9; name := "Single Origin"; category := "Hot Coffees"; price := FFinite (5 # 1);
     roast := Some "Light"; notes := None; allergens := JList []; caffeine_mg := Some 180;
     vendor := "Blue Bottle Coffee"; created_at := None; updated_at := None |}.

Definition shelves : list Product := catalog ++ [single_origin].

Definition interaction (i pid : Z) (kind : string) : Shop.Interaction :=
  {| Shop.interaction_id := i; Shop.product_id := pid; Shop.interaction_type := kind;
     Shop.customer_email := None; Shop.interaction_created_at := "2025-02-01T00:00:00" |}.

(** Two likes for the flat white and for the cold brew, one for the single
    origin, one dislike for the cappuccino. *)
Definition sample_interactions : list Shop.Interaction :=
  [interaction 1 4 "like"; interaction 2 7 "like"; interaction 3 3 "dislike";
   interaction 4 7 "like"; interaction 5 9 "like"; interaction 6 4 "like"].

(** ** The endpoint *)

Section Endpoint.

(** [str.lower]. *)
Variable str_lower : string -> string.

(** [int(s)] for a [str]: [None] stands for [ValueError]. *)
Variable py_int : string -> option Z.

(** [json.loads(s)]: [None] stands for [json.JSONDecodeError]. *)
Variable json_loads : string -> loaded json.

(** *** Exclusion filters (lines 698-731) *)

Definition category_stage (category_filter : option string) (ps : list Product) : list Product :=
  match category_active category_filter with
  | Some c => filter (fun p => String.eqb (category p) c) ps
  | None => ps
  end.

(** [p['id'] not in disliked_ids]. *)
Definition not_disliked (disliked_ids : list Z) (p : Product) : bool :=
  negb (existsb (fun d => id p =? d) disliked_ids).

Definition dislike_stage (disliked_ids : list Z) (ps : list Product) : list Product :=
  filter (not_disliked disliked_ids) ps.

(** [f"{p['name']} {p.get('notes', '')}".lower()]. *)
Definition allergy_text (p : Product) : string :=
  str_lower (name p ++ " " ++ notes_text p).

Definition has_allergen (allergies : list string) (p : Product) : bool :=
  existsb (fun allergen => str_in (str_lower allergen) (allergy_text p)) allergies.

Definition allergen_stage (allergies : list string) (ps : list Product) : list Product :=
  match allergies with
  | [] => ps
  | _ :: _ => filter (fun p => negb (has_allergen allergies p)) ps
  end.

(** [f"{p['name']} {p.get('notes', '')} {p['category']}".lower()]. *)
Definition avoid_text (p : Product) : string :=
  str_lower (name p ++ " " ++ notes_text p ++ " " ++ category p).

Definition should_avoid (avoid_list : list string) (p : Product) : bool :=
  existsb (fun avoid_item => str_in (str_lower avoid_item) (avoid_text p)) avoid_list.

Definition avoid_stage (avoid_list : list string) (ps : list Product) : list Product :=
  match avoid_list with
  | [] => ps
  | _ :: _ => filter (fun p => negb (should_avoid avoid_list p)) ps
  end.

(** The value of [filtered_products] at line 733. *)
Definition filtered_products (all_products : list Product) (data : Request) : list Product :=
  avoid_stage (avoid_list data)
    (allergen_stage (allergies data)
      (dislike_stage (disliked_ids data)
        (category_stage (category_filter data) all_products))).

(** *** The prompt (lines 742-800) *)

Definition product_line (p : Product) : string :=
  str_of_int (id p) ++ ". " ++ name p ++ " (" ++ category p ++ ") - " ++ notes_text p.

Definition products_text (ps : list Product) : string :=
  join nl (map product_line ps).

Definition vendor_note (preferred_vendors : list string) : string :=
  match preferred_vendors with
  | [] => EmptyString
  | _ :: _ =>
      nl ++ nl ++ "USER PREFERS THESE VENDORS: " ++ join ", " preferred_vendors
      ++ ". Prioritize drinks from these brands when possible."
  end.

Definition category_note (category_filter : option string) : string :=
  match category_active category_filter with
  | Some c => nl ++ nl ++ "ONLY RECOMMEND FROM CATEGORY: " ++ c
  | None => EmptyString
  end.

(** [any(k in a.lower() for a in allergies)] for one of the keywords. *)
Definition mentions (keywords : list string) (allergies : list string) : bool :=
  existsb (fun a => existsb (fun k => str_in k (str_lower a)) keywords) allergies.

Definition advisory (keywords : list string) (text : string) (allergies : list string) : string :=
  if mentions keywords allergies then nl ++ text else EmptyString.

Definition allergen_note (allergies : list string) : string :=
  match allergies with
  | [] => EmptyString
  | _ :: _ =>
      nl ++ nl ++ "⚠️ USER HAS ALLERGIES: " ++ join ", " allergies
      ++ nl ++ "IMPORTANT: Mention substitution options in your reasoning:"
      ++ advisory ["milk"; "dairy"]
           "- Milk → Can substitute with: Oat milk, Almond milk, Soy milk, Coconut milk" allergies
      ++ advisory ["soy"]
           "- Soy → Can substitute with: Oat milk, Almond milk, Coconut milk" allergies
      ++ advisory ["nut"]
           "- Nuts → Avoid almond milk, use oat milk or soy milk instead" allergies
      ++ advisory ["chocolate"; "cocoa"]
           "- Chocolate → Can try vanilla, caramel, or fruit-based drinks" allergies
      ++ advisory ["caffeine"]
           "- Caffeine → Suggest decaf versions, herbal teas, or non-coffee drinks" allergies
  end.

(** The fixed part of the prompt after the menu. *)
Definition instructions : list string := [
  EmptyString;
  "CRITICAL INSTRUCTIONS:";
  "- SEARCH CAREFULLY: Match the query against drink names, categories, AND ingredients/flavors in the notes";
  "- If user searches for an ingredient (strawberry, chocolate, milk, vanilla, etc), check ALL notes fields";
  "- FIND ALL MATCHES: Include EVERY drink that matches the query, not just one";
  "- For ingredient searches like " ++ dq ++ "strawberry" ++ dq ++ ", look for it in: drink name, notes/description";
  EmptyString;
  "CAFFEINE KNOWLEDGE (use this for caffeine/energy/strong queries):";
  "- HIGHEST CAFFEINE: Espresso shots (category: Espresso), Americano, Cold Brew, Nitro Cold Brew";
  "- HIGH CAFFEINE: Most Hot Coffees, Cold Coffees with espresso (Latte, Cappuccino, Macchiato, Mocha)";
  "- MEDIUM CAFFEINE: Coffee Frappuccinos, Iced Coffee";
  "- LOW/NO CAFFEINE: Teas (except matcha), Refreshers, Hot Chocolate, Vanilla Bean Frappuccino";
  "- When user asks for " ++ dq ++ "strong" ++ dq ++ ", " ++ dq ++ "caffeine" ++ dq ++ ", "
    ++ dq ++ "energy" ++ dq ++ ", or " ++ dq ++ "wake up" ++ dq ++ " → recommend Espresso category first!";
  EmptyString;
  "Rate drinks' match confidence on scale 1-7:";
  "  * 7 = Perfect match (ingredient in name or main flavor)";
  "  * 6 = Very good match (ingredient in notes/closely related)";
  "  * 5 = Good match (same category or complementary)";
  "  * 4 or below = Weak match";
  "- Include drinks with confidence 5, 6, or 7 in your recommendations";
  "- Include ALL qualifying matches (don't limit to just 1-2 drinks)";
  "- Sort by confidence (highest first)";
  EmptyString;
  "Reply ONLY with JSON: {" ++ dq ++ "recommendations" ++ dq ++ ": [{" ++ dq ++ "id" ++ dq ++ ": id, "
    ++ dq ++ "confidence" ++ dq ++ ": 5-7}], " ++ dq ++ "reasoning" ++ dq ++ ": "
    ++ dq ++ "brief explanation of all matches found" ++ dq ++ "}"
].

Definition request_line (data : Request) : string :=
  "Recommend drinks from this menu for: " ++ dq ++ user_query data ++ dq
  ++ vendor_note (preferred_vendors data)
  ++ category_note (category_filter data)
  ++ allergen_note (allergies data).

Definition build_prompt (filtered : list Product) (data : Request) : string :=
  join nl
    (request_line data
     :: EmptyString
     :: "Menu (format: ID. Name (Category) - Ingredients/Flavors):"
     :: products_text filtered
     :: instructions).

(** The [requests.post] of lines 804-817. *)
Definition generate_call (filtered : list Product) (data : Request) : GenerateCall :=
  {| url := OLLAMA_API ++ "/api/generate";
     model := "deepseek-r1:8b";
     prompt := build_prompt filtered data;
     stream := false;
     format := "json";
     temperature := 7 # 10;
     num_predict := 500;
     timeout := 90 |}.

(** *** Validation of the reply (lines 835-848) *)

(** Lines 841-845: a textual identifier is converted with [int]; [None]
    is the [continue] of the [except ValueError] branch. *)
Definition coerce_id (rec_id : json) : option json :=
  match rec_id with
  | JStr s =>
      match py_int s with
      | Some n => Some (JInt n)
      | None => None
      end
  | JNull | JBool _ | JInt _ | JFloat _ | JList _ | JDict _ => Some rec_id
  end.

(** [confidence >= 5 and confidence <= 7]. *)
Definition confidence_ok (confidence : json) : outcome bool :=
  ge <- py_ge_int confidence 5 ;;
  if ge then py_le_int confidence 7 else Returned false.

(** One turn of the loop of line 837: the pair appended to
    [high_confidence], if any. *)
Definition check_rec (rec : json) : outcome (option (json * json)) :=
  match rec with
  | JDict kv =>
      match coerce_id (dict_get_default kv "id" JNull) with
      | None => Returned None
      | Some rec_id =>
          let confidence := dict_get_default kv "confidence" (JInt 0) in
          ok <- confidence_ok confidence ;;
          Returned (if ok then Some (rec_id, confidence) else None)
      end
  | JNull | JBool _ | JInt _ | JFloat _ | JStr _ | JList _ => Returned None
  end.

(** The list [high_confidence] after the loop: pairs of [id] and
    [confidence], in the order of the reply. *)
Fixpoint high_confidence (recommendations_data : list json) : outcome (list (json * json)) :=
  match recommendations_data with
  | [] => Returned []
  | rec :: rest =>
      kept <- check_rec rec ;;
      others <- high_confidence rest ;;
      Returned (match kept with
                | Some entry => entry :: others
                | None => others
                end)
  end.

(** *** Join with the filtered products (lines 860-867) *)

(** [next((p for p in filtered_products if p['id'] == rec['id']), None)]. *)
Definition lookup_product (filtered : list Product) (rec_id : json) : option Product :=
  find (fun p => py_eq_int (id p) rec_id) filtered.

Fixpoint recommended_products (filtered : list Product) (high : list (json * json)) : list Recommendation :=
  match high with
  | [] => []
  | (rec_id, confidence) :: rest =>
      match lookup_product filtered rec_id with
      | Some p =>
          {| product := p; confidence := Some confidence |}
          :: recommended_products filtered rest
      | None => recommended_products filtered rest
      end
  end.

(** *** Responses *)

Definition plain (p : Product) : Recommendation :=
  {| product := p; confidence := None |}.

(** Lines 734-740. *)
Definition no_drinks_response (data : Request) : Response :=
  Ok200 {| body_user_id := user_id data;
           body_query := user_query data;
           recommendations := [];
           reasoning := JStr NO_DRINKS_MATCH;
           ai_model := Some AI_MODEL;
           note := None |}.

(** Lines 852-858. *)
Definition no_strong_matches_response (data : Request) : Response :=
  Ok200 {| body_user_id := user_id data;
           body_query := user_query data;
           recommendations := [];
           reasoning := JStr NO_STRONG_MATCHES;
           ai_model := Some AI_MODEL;
           note := None |}.

(** Lines 873-879. *)
Definition ranked_response (data : Request) (recs : list Recommendation) (reasoning : json) : Response :=
  Ok200 {| body_user_id := user_id data;
           body_query := user_query data;
           recommendations := recs;
           reasoning := reasoning;
           ai_model := Some AI_MODEL;
           note := None |}.

(** Lines 883-889: [filtered_products[:3]], no [ai_model] key. *)
Definition fallback_response (filtered : list Product) (data : Request) : Response :=
  Ok200 {| body_user_id := user_id data;
           body_query := user_query data;
           recommendations := map plain (firstn 3 filtered);
           reasoning := JStr FALLBACK_REASONING;
           ai_model := None;
           note := Some PARSING_FAILED_NOTE |}.

(** Lines 829-879: the body of the inner [try] after a successful
    [json.loads]. *)
Definition rank (filtered : list Product) (data : Request) (result : json) : outcome Response :=
  match result with
  | JDict kv =>
      let recommendations_data := dict_get_default kv "recommendations" (JList []) in
      let reasoning := dict_get_default kv "reasoning" (JStr DEFAULT_REASONING) in
      recs <- py_iter recommendations_data ;;
      high <- high_confidence recs ;;
      match high with
      | [] => Returned (no_strong_matches_response data)
      | _ :: _ => Returned (ranked_response data (recommended_products filtered high) reasoning)
      end
  | JNull | JBool _ | JInt _ | JFloat _ | JStr _ | JList _ => Uncaught AttributeError
  end.

(** Lines 819-897: what the handler does with the outcome of the call.
    The text payload is sliced and measured by the debug prints of lines
    823-824 and then handed to [json.loads]: a payload that is not a [str]
    raises at one of the three ([TypeError]; for a dict payload the slice
    raises [KeyError] from Python 3.12 on, which the handler does not catch
    either).  The inner [except] names [json.JSONDecodeError] alone, so
    any other exception of [json.loads] leaves the handler. *)
Definition handle_outcome (filtered : list Product) (data : Request) (r : ServiceOutcome) : outcome Response :=
  match r with
  | HttpReply status_code ai_response =>
      if status_code =? 200 then
        match ai_response with
        | JDict kv =>
            match dict_get_default kv "response" (JStr "{}") with
            | JStr ai_text =>
                match json_loads ai_text with
                | Loaded result => rank filtered data result
                | JSONDecodeError => Returned (fallback_response filtered data)
                | Raised e => Uncaught e
                end
            | JNull | JBool _ | JInt _ | JFloat _ | JList _ | JDict _ => Uncaught TypeError
            end
        | JNull | JBool _ | JInt _ | JFloat _ | JStr _ | JList _ => Uncaught AttributeError
        end
      else Returned (Err500 (OllamaApiError OLLAMA_ERROR status_code))
  | RequestException cause => Returned (Err500 (CannotConnect CANNOT_CONNECT cause))
  end.

(** The view function: the generation service is the function [ollama];
    the result is the response (or the uncaught exception) together with
    the calls made to the service, in order. *)
Definition ai_recommend (ollama : GenerateCall -> ServiceOutcome)
    (all_products : list Product) (data : Request) : outcome Response * list GenerateCall :=
  let filtered := filtered_products all_products data in
  match filtered with
  | [] => (Returned (no_drinks_response data), [])
  | _ :: _ =>
      let call := generate_call filtered data in
      (handle_outcome filtered data (ollama call), [call])
  end.


(** *** Notions used by the properties *)

(** The identifier of an entry of the reply, text converted: [None] for
    an entry that is not a record or whose identifier is text that [int]
    rejects. *)
Definition entry_id (e : json) : option json :=
  match e with
  | JDict kv => coerce_id (dict_get_default kv "id" JNull)
  | JNull | JBool _ | JInt _ | JFloat _ | JStr _ | JList _ => None
  end.

(** An entry whose confidence, if the loop reads it, is a number. *)
Definition typed_entry (e : json) : bool :=
  match entry_id e with
  | Some _ => is_number (entry_confidence e)
  | None => true
  end.

(** What validation keeps of an entry. *)
Definition kept_pair (e : json) : option (json * json) :=
  match entry_id e with
  | Some rec_id =>
      if within_5_7 (entry_confidence e) then Some (rec_id, entry_confidence e) else None
  | None => None
  end.

(** The entries that survive validation, in the order of the reply. *)
Fixpoint survivors (entries : list json) : list (json * json) :=
  match entries with
  | [] => []
  | e :: rest =>
      match kept_pair e with
      | Some entry => entry :: survivors rest
      | None => survivors rest
      end
  end.


(** An entry that reaches the response: its identifier is read, its
    confidence is in the interval and one of the candidates has its
    identifier. *)
Definition joined (filtered : list Product) (e : json) : bool :=
  match entry_id e with
  | Some rec_id =>
      within_5_7 (entry_confidence e)
      && existsb (fun p => py_eq_int (id p) rec_id) filtered
  | None => false
  end.

(** The recommendation [r] comes from the entry [e] of the reply: it
    carries the entry's confidence and its product has the entry's
    identifier. *)
Definition from_entry (r : Recommendation) (e : json) : Prop :=
  confidence r = Some (entry_confidence e)
  /\ exists rec_id, entry_id e = Some rec_id /\ py_eq_int (id (product r)) rec_id = true.

(** The request has candidates and the service answers its call with
    status 200 and the text payload [ai_text]. *)
Definition success_payload (ollama : GenerateCall -> ServiceOutcome)
    (all_products : list Product) (data : Request) (ai_text : string) : Prop :=
  filtered_products all_products data <> []
  /\ exists kv,
       ollama (generate_call (filtered_products all_products data) data)
       = HttpReply 200 (JDict kv)
       /\ dict_get_default kv "response" (JStr "{}") = JStr ai_text.

(** The candidate list of a parsed reply. *)
Definition candidates (result : list (string * json)) : json :=
  dict_get_default result "recommendations" (JList []).

(** A product the four stages let through: it depends on the product and
    the request alone. *)
Definition eligible (data : Request) (p : Product) : bool :=
  match category_active (category_filter data) with
  | Some c => String.eqb (category p) c
  | None => true
  end
  && not_disliked (disliked_ids data) p
  && negb (has_allergen (allergies data) p)
  && negb (should_avoid (avoid_list data) p).

(** The request [data'] excludes at least what [data] excludes. *)
Definition stricter (data data' : Request) : Prop :=
  category_filter data' = category_filter data
  /\ incl (disliked_ids data) (disliked_ids data')
  /\ incl (allergies data) (allergies data')
  /\ incl (avoid_list data) (avoid_list data').

(** ** Validation *)

Lemma confidence_ok_number (c : json) :
  is_number c = true -> confidence_ok c = Returned (within_5_7 c).
Proof.
  destruct c as [| b | z | [| negative | x] | | |]; simpl; try discriminate; intros _.
  - destruct b; reflexivity.
  - unfold confidence_ok; simpl. destruct (5 <=? z); reflexivity.
  - reflexivity.
  - unfold confidence_ok; simpl. destruct negative; reflexivity.
  - unfold confidence_ok; simpl. destruct (Qle_bool (inject_Z 5) x); reflexivity.
Qed.

Lemma confidence_ok_returned (c : json) (b : bool) :
  confidence_ok c = Returned b -> is_number c = true /\ b = within_5_7 c.
Proof.
  intros H.
  assert (N : is_number c = true).
  { destruct c; try reflexivity; discriminate H. }
  split; [exact N|].
  rewrite (confidence_ok_number _ N) in H. congruence.
Qed.

Lemma check_rec_typed (e : json) :
  typed_entry e = true -> check_rec e = Returned (kept_pair e).
Proof.
  unfold typed_entry, kept_pair.
  destruct e; simpl; try reflexivity.
  destruct (coerce_id (dict_get_default kv "id" JNull)) as [rec_id|]; [|reflexivity].
  intros N. rewrite (confidence_ok_number _ N). reflexivity.
Qed.

Lemma check_rec_returned (e : json) (kept : option (json * json)) :
  check_rec e = Returned kept -> typed_entry e = true /\ kept = kept_pair e.
Proof.
  unfold typed_entry, kept_pair.
  destruct e; simpl; try (intros H; split; congruence).
  destruct (coerce_id (dict_get_default kv "id" JNull)) as [rec_id|];
    [|intros H; split; congruence].
  destruct (confidence_ok (dict_get_default kv "confidence" (JInt 0))) as [ok|x] eqn:E;
    simpl; [|discriminate].
  apply confidence_ok_returned in E. destruct E as [N ->].
  intros H. split; [exact N|]. congruence.
Qed.

Lemma high_confidence_typed (entries : list json) :
  Forall (fun e => typed_entry e = true) entries ->
  high_confidence entries = Returned (survivors entries).
Proof.
  induction 1 as [|e rest T _ IH]; simpl; [reflexivity|].
  rewrite (check_rec_typed _ T), IH. simpl.
  destruct (kept_pair e); reflexivity.
Qed.

Lemma high_confidence_returned (entries : list json) (high : list (json * json)) :
  high_confidence entries = Returned high ->
  Forall (fun e => typed_entry e = true) entries /\ high = survivors entries.
Proof.
  revert high. induction entries as [|e rest IH]; simpl; intros high H.
  - split; [constructor | congruence].
  - destruct (check_rec e) as [kept|x] eqn:E; simpl in H; [|discriminate].
    destruct (high_confidence rest) as [others|x] eqn:R; simpl in H; [|discriminate].
    apply check_rec_returned in E. destruct E as [T ->].
    destruct (IH _ eq_refl) as [Ts ->].
    split; [constructor; assumption|].
    destruct (kept_pair e); congruence.
Qed.

Lemma survivors_In (entries : list json) (rec_id c : json) :
  In (rec_id, c) (survivors entries) ->
  within_5_7 c = true /\ exists e, In e entries /\ kept_pair e = Some (rec_id, c).
Proof.
  induction entries as [|e rest IH]; simpl; [tauto|].
  destruct (kept_pair e) as [[i' c']|] eqn:K.
  - intros [E | I].
    + injection E as -> ->. split; [|exists e; auto].
      unfold kept_pair in K. destruct (entry_id e); [|discriminate].
      destruct (within_5_7 (entry_confidence e)) eqn:W; [|discriminate].
      injection K as _ <-. exact W.
    + destruct (IH I) as [W [e' [I' K']]]. split; [exact W|]. exists e'; auto.
  - intros I. destruct (IH I) as [W [e' [I' K']]]. split; [exact W|]. exists e'; auto.
Qed.

(** ** Join *)

Lemma lookup_product_Some (filtered : list Product) (rec_id : json) (p : Product) :
  lookup_product filtered rec_id = Some p ->
  In p filtered /\ py_eq_int (id p) rec_id = true.
Proof. unfold lookup_product. apply find_some. Qed.

Lemma recommended_products_In (filtered : list Product) (high : list (json * json))
    (r : Recommendation) :
  In r (recommended_products filtered high) ->
  In (product r) filtered
  /\ exists rec_id c, In (rec_id, c) high /\ confidence r = Some c.
Proof.
  induction high as [|[rec_id c] rest IH]; simpl; [tauto|].
  destruct (lookup_product filtered rec_id) as [p|] eqn:L.
  - intros [<- | I].
    + apply lookup_product_Some in L. simpl. split; [tauto|].
      exists rec_id, c. auto.
    + destruct (IH I) as [F [i' [c' [I' C]]]]. split; [exact F|].
      exists i', c'. auto.
  - intros I. destruct (IH I) as [F [i' [c' [I' C]]]]. split; [exact F|].
    exists i', c'. auto.
Qed.

Lemma recommended_products_unmatched (filtered : list Product) (high : list (json * json)) :
  Forall (fun entry => lookup_product filtered (fst entry) = None) high ->
  recommended_products filtered high = [].
Proof.
  induction 1 as [|[rec_id c] rest U _ IH]; simpl in *; [reflexivity|].
  rewrite U. exact IH.
Qed.

(** The recommendations are drawn, in order, from a subsequence of the
    entries of the reply. *)
Lemma recommended_from_entries (filtered : list Product) (entries : list json) :
  exists kept,
    subseq kept entries
    /\ Forall2 from_entry (recommended_products filtered (survivors entries)) kept.
Proof.
  induction entries as [|e rest [kept [S F]]]; simpl.
  - exists []. split; constructor.
  - destruct (kept_pair e) as [[rec_id c]|] eqn:K; simpl.
    + destruct (lookup_product filtered rec_id) as [p|] eqn:L.
      * exists (e :: kept). split; [constructor; exact S|].
        constructor; [|exact F].
        unfold kept_pair in K. destruct (entry_id e) as [i|] eqn:I; [|discriminate].
        destruct (within_5_7 (entry_confidence e)); [|discriminate].
        injection K as -> <-.
        apply lookup_product_Some in L.
        split; simpl; [reflexivity|]. exists rec_id. tauto.
      * exists kept. split; [constructor; exact S | exact F].
    + exists kept. split; [constructor; exact S | exact F].
Qed.

(** ** Order *)

Lemma subseq_In {A : Type} (l1 l2 : list A) (x : A) :
  subseq l1 l2 -> In x l1 -> In x l2.
Proof.
  induction 1 as [|y l1 l2 _ IH|y l1 l2 _ IH]; simpl; [tauto | auto |].
  intros [E | I]; auto.
Qed.

Lemma subseq_sorted {A : Type} (R : A -> A -> Prop) (l1 l2 : list A) :
  subseq l1 l2 -> StronglySorted R l2 -> StronglySorted R l1.
Proof.
  induction 1 as [|y l1 l2 S IH|y l1 l2 S IH]; intros H.
  - constructor.
  - inversion H; auto.
  - inversion H as [|? ? Hs Hf]; subst. constructor; [auto|].
    rewrite Forall_forall in *. intros x I. apply Hf. eapply subseq_In; eauto.
Qed.

Lemma from_entry_ge (r1 r2 : Recommendation) (e1 e2 : json) :
  from_entry r1 e1 -> from_entry r2 e2 -> entry_conf_ge e1 e2 -> conf_ge r1 r2.
Proof.
  intros [C1 _] [C2 _] G. unfold conf_ge. rewrite C1, C2. exact G.
Qed.

Lemma from_entries_descending (recs : list Recommendation) (kept : list json) :
  Forall2 from_entry recs kept -> StronglySorted entry_conf_ge kept -> descending recs.
Proof.
  unfold descending.
  induction 1 as [|r e recs kept F Fs IH]; intros H; [constructor|].
  inversion H as [|? ? Hs Hf]; subst. constructor; [auto|].
  clear IH Hs H. induction Fs as [|r' e' recs kept F' _ IH]; constructor.
  - inversion Hf; subst. eapply from_entry_ge; eauto.
  - inversion Hf; subst. auto.
Qed.



Lemma lookup_product_existsb (filtered : list Product) (rec_id : json) :
  existsb (fun p => py_eq_int (id p) rec_id) filtered
  = match lookup_product filtered rec_id with
    | Some _ => true
    | None => false
    end.
Proof.
  unfold lookup_product. induction filtered as [|p rest IH]; [reflexivity|].
  simpl. destruct (py_eq_int (id p) rec_id); [reflexivity | exact IH].
Qed.

(** The join keeps the order of the reply: the recommendations are the
    entries that pass [joined], one for one. *)
Lemma recommended_joined (filtered : list Product) (entries : list json) :
  Forall2 from_entry (recommended_products filtered (survivors entries))
    (filter (joined filtered) entries).
Proof.
  induction entries as [|e rest IH]; [constructor|].
  simpl. unfold joined, kept_pair.
  destruct (entry_id e) as [rec_id|] eqn:I; [|exact IH].
  destruct (within_5_7 (entry_confidence e)) eqn:W; [|exact IH].
  rewrite lookup_product_existsb. simpl.
  destruct (lookup_product filtered rec_id) as [p|] eqn:L; [|exact IH].
  constructor; [|exact IH].
  apply lookup_product_Some in L.
  split; [reflexivity|]. exists rec_id. cbn [product]. tauto.
Qed.

Lemma recommended_descending (filtered : list Product) (entries : list json) :
  StronglySorted entry_conf_ge entries ->
  descending (recommended_products filtered (survivors entries)).
Proof.
  intros H. destruct (recommended_from_entries filtered entries) as [kept [S F]].
  eapply from_entries_descending; [exact F|]. eapply subseq_sorted; eauto.
Qed.

(** ** Exclusion filters *)

Lemma category_stage_In (c : option string) (ps : list Product) (p : Product) :
  In p (category_stage c ps) -> In p ps.
Proof.
  unfold category_stage. destruct (category_active c); [|tauto].
  intros I. apply filter_In in I. tauto.
Qed.

Lemma dislike_stage_In (disliked : list Z) (ps : list Product) (p : Product) :
  In p (dislike_stage disliked ps) -> In p ps /\ ~ In (id p) disliked.
Proof.
  unfold dislike_stage, not_disliked. intros I. apply filter_In in I.
  destruct I as [I N]. split; [exact I|]. intros D.
  apply negb_true_iff in N.
  assert (X : existsb (fun d => id p =? d) disliked = true).
  { apply existsb_exists. exists (id p). split; [exact D | apply Z.eqb_refl]. }
  congruence.
Qed.

Lemma allergen_stage_In (allergies : list string) (ps : list Product) (p : Product) :
  In p (allergen_stage allergies ps) ->
  In p ps /\ (allergies <> [] -> has_allergen allergies p = false).
Proof.
  unfold allergen_stage. destruct allergies as [|a rest].
  - intros I. split; [exact I | congruence].
  - intros I. apply filter_In in I. destruct I as [I N].
    split; [exact I|]. intros _. apply negb_true_iff in N. exact N.
Qed.

Lemma avoid_stage_In (avoid : list string) (ps : list Product) (p : Product) :
  In p (avoid_stage avoid ps) -> In p ps.
Proof.
  unfold avoid_stage. destruct avoid; [tauto|].
  intros I. apply filter_In in I. tauto.
Qed.

(** What the four stages guarantee of a candidate. *)
Lemma filtered_products_In (all_products : list Product) (data : Request) (p : Product) :
  In p (filtered_products all_products data) ->
  In p all_products
  /\ ~ In (id p) (disliked_ids data)
  /\ (allergies data <> [] -> has_allergen (allergies data) p = false).
Proof.
  unfold filtered_products. intros I.
  apply avoid_stage_In in I. apply allergen_stage_In in I. destruct I as [I A].
  apply dislike_stage_In in I. destruct I as [I D].
  apply category_stage_In in I. tauto.
Qed.

Lemma has_allergen_false (allergies : list string) (p : Product) (allergen : string) :
  has_allergen allergies p = false -> In allergen allergies ->
  str_in (str_lower allergen) (allergy_text p) = false.
Proof.
  unfold has_allergen. intros H I.
  destruct (str_in (str_lower allergen) (allergy_text p)) eqn:E; [|reflexivity].
  assert (X : existsb (fun a => str_in (str_lower a) (allergy_text p)) allergies = true).
  { apply existsb_exists. exists allergen. auto. }
  congruence.
Qed.

(** ** Paths of the handler *)

Lemma rank_returned (filtered : list Product) (data : Request) (result : json) (resp : Response) :
  rank filtered data result = Returned resp ->
  exists rkv entries,
    result = JDict rkv
    /\ py_iter (candidates rkv) = Returned entries
    /\ Forall (fun e => typed_entry e = true) entries
    /\ resp = match survivors entries with
              | [] => no_strong_matches_response data
              | _ :: _ =>
                  ranked_response data
                    (recommended_products filtered (survivors entries))
                    (dict_get_default rkv "reasoning" (JStr DEFAULT_REASONING))
              end.
Proof.
  destruct result as [| | | | | |rkv]; simpl; try discriminate.
  fold (candidates rkv).
  destruct (py_iter (candidates rkv)) as [entries|x] eqn:P; simpl; [|discriminate].
  destruct (high_confidence entries) as [high|x] eqn:H; simpl; [|discriminate].
  apply high_confidence_returned in H. destruct H as [T ->].
  intros R. exists rkv, entries. repeat split; try assumption.
  destruct (survivors entries); congruence.
Qed.

Lemma rank_typed (filtered : list Product) (data : Request) (rkv : list (string * json))
    (entries : list json) :
  candidates rkv = JList entries ->
  Forall (fun e => typed_entry e = true) entries ->
  rank filtered data (JDict rkv)
  = Returned match survivors entries with
             | [] => no_strong_matches_response data
             | _ :: _ =>
                 ranked_response data
                   (recommended_products filtered (survivors entries))
                   (dict_get_default rkv "reasoning" (JStr DEFAULT_REASONING))
             end.
Proof.
  intros C T. simpl. fold (candidates rkv). rewrite C. simpl.
  rewrite (high_confidence_typed entries T). simpl.
  destruct (survivors entries); reflexivity.
Qed.

Lemma handle_outcome_ok (filtered : list Product) (data : Request) (r : ServiceOutcome)
    (resp : RecommendBody) :
  handle_outcome filtered data r = Returned (Ok200 resp) ->
  exists kv ai_text,
    r = HttpReply 200 (JDict kv)
    /\ dict_get_default kv "response" (JStr "{}") = JStr ai_text
    /\ ((json_loads ai_text = JSONDecodeError /\ Ok200 resp = fallback_response filtered data)
        \/ exists result,
             json_loads ai_text = Loaded result
             /\ rank filtered data result = Returned (Ok200 resp)).
Proof.
  destruct r as [status_code ai_response|cause]; simpl; [|discriminate].
  destruct (status_code =? 200) eqn:S; [|discriminate].
  apply Z.eqb_eq in S. subst status_code.
  destruct ai_response as [| | | | | |kv]; try discriminate.
  destruct (dict_get_default kv "response" (JStr "{}")) as [| | | |ai_text| |] eqn:G;
    try discriminate.
  intros H. exists kv, ai_text. repeat split; try assumption.
  destruct (json_loads ai_text) as [result| |e].
  - right. exists result. auto.
  - left. split; congruence.
  - discriminate.
Qed.

Lemma handle_outcome_parsed (filtered : list Product) (data : Request)
    (kv : list (string * json)) (ai_text : string) (result : json) :
  dict_get_default kv "response" (JStr "{}") = JStr ai_text ->
  json_loads ai_text = Loaded result ->
  handle_outcome filtered data (HttpReply 200 (JDict kv)) = rank filtered data result.
Proof. intros G L. simpl. rewrite G, L. reflexivity. Qed.

(** A run of the endpoint on a request with at least one candidate. *)
Lemma ai_recommend_called (ollama : GenerateCall -> ServiceOutcome)
    (all_products : list Product) (data : Request) :
  filtered_products all_products data <> [] ->
  ai_recommend ollama all_products data
  = (handle_outcome (filtered_products all_products data) data
       (ollama (generate_call (filtered_products all_products data) data)),
     [generate_call (filtered_products all_products data) data]).
Proof.
  unfold ai_recommend. destruct (filtered_products all_products data); [congruence|].
  reflexivity.
Qed.

Lemma ai_recommend_payload (ollama : GenerateCall -> ServiceOutcome)
    (all_products : list Product) (data : Request) (ai_text : string) :
  success_payload ollama all_products data ai_text ->
  fst (ai_recommend ollama all_products data)
  = match json_loads ai_text with
    | Loaded result => rank (filtered_products all_products data) data result
    | JSONDecodeError => Returned (fallback_response (filtered_products all_products data) data)
    | Raised e => Uncaught e
    end.
Proof.
  intros [N [kv [O G]]].
  rewrite (ai_recommend_called ollama all_products data N). simpl fst. rewrite O.
  simpl. rewrite G. reflexivity.
Qed.

(** Every recommendation of a 200 response is one of the candidates. *)
Lemma In_firstn (A : Type) (n : nat) (l : list A) (x : A) :
  In x (firstn n l) -> In x l.
Proof.
  revert l. induction n as [|n IH]; intros [|y l]; simpl; try tauto.
  intros [E | I]; auto.
Qed.

Lemma filtered_empty_or_not (all_products : list Product) (data : Request) :
  filtered_products all_products data = [] \/ filtered_products all_products data <> [].
Proof. destruct (filtered_products all_products data); [left | right]; congruence. Qed.

Lemma ai_recommend_empty (ollama : GenerateCall -> ServiceOutcome)
    (all_products : list Product) (data : Request) :
  filtered_products all_products data = [] ->
  ai_recommend ollama all_products data = (Returned (no_drinks_response data), []).
Proof. unfold ai_recommend. intros ->. reflexivity. Qed.

Lemma recommendations_filtered (ollama : GenerateCall -> ServiceOutcome)
    (all_products : list Product) (data : Request) (resp : RecommendBody) :
  fst (ai_recommend ollama all_products data) = Returned (Ok200 resp) ->
  forall r, In r (recommendations resp) -> In (product r) (filtered_products all_products data).
Proof.
  destruct (filtered_empty_or_not all_products data) as [E | N].
  - rewrite (ai_recommend_empty ollama all_products data E). simpl fst.
    intros H. injection H as <-. simpl. tauto.
  - rewrite (ai_recommend_called ollama all_products data N). simpl fst.
    intros H r. apply handle_outcome_ok in H.
    destruct H as [kv [ai_text [_ [_ [[_ B] | [result [_ R]]]]]]].
    + unfold fallback_response in B. injection B as ->. cbn [recommendations].
      intros I. apply in_map_iff in I.
      destruct I as [p [<- I]]. cbn [product plain]. exact (In_firstn _ 3%nat (filtered_products all_products data) p I).
    + apply rank_returned in R. destruct R as [rkv [entries [_ [_ [_ R]]]]].
      destruct (survivors entries) as [|entry high] eqn:S.
      * injection R as ->. simpl. tauto.
      * rewrite <- S in R. unfold ranked_response in R. injection R as ->.
        cbn [recommendations]. intros I. apply recommended_products_In in I. tauto.
Qed.

(** The three ways the endpoint answers 200. *)
Lemma ok_paths (ollama : GenerateCall -> ServiceOutcome)
    (all_products : list Product) (data : Request) (resp : RecommendBody) :
  fst (ai_recommend ollama all_products data) = Returned (Ok200 resp) ->
  Ok200 resp = no_drinks_response data
  \/ Ok200 resp = fallback_response (filtered_products all_products data) data
  \/ exists rkv entries,
       Ok200 resp
       = match survivors entries with
         | [] => no_strong_matches_response data
         | _ :: _ =>
             ranked_response data
               (recommended_products (filtered_products all_products data) (survivors entries))
               (dict_get_default rkv "reasoning" (JStr DEFAULT_REASONING))
         end.
Proof.
  destruct (filtered_empty_or_not all_products data) as [E | N].
  - rewrite (ai_recommend_empty ollama all_products data E). simpl fst.
    intros H. left. congruence.
  - rewrite (ai_recommend_called ollama all_products data N). simpl fst.
    intros H. apply handle_outcome_ok in H.
    destruct H as [kv [ai_text [_ [_ [[_ B] | [result [_ R]]]]]]].
    + right. left. exact B.
    + right. right. apply rank_returned in R.
      destruct R as [rkv [entries [_ [_ [_ R]]]]]. exists rkv, entries. exact R.
Qed.

Lemma ranked_confidences (filtered : list Product) (entries : list json) :
  Forall (fun r => exists c, confidence r = Some c /\ within_5_7 c = true)
    (recommended_products filtered (survivors entries)).
Proof.
  apply Forall_forall. intros r I.
  apply recommended_products_In in I. destruct I as [_ [rec_id [c [I C]]]].
  apply survivors_In in I. exists c. tauto.
Qed.

Lemma find_all_false (A : Type) (f : A -> bool) (l : list A) :
  Forall (fun x => f x = false) l -> find f l = None.
Proof. induction 1 as [|x l F _ IH]; simpl; [reflexivity|]. rewrite F. exact IH. Qed.

Lemma number_typed (e : json) :
  is_number (entry_confidence e) = true -> typed_entry e = true.
Proof. unfold typed_entry. destruct (entry_id e); auto. Qed.

(** ** Properties of the endpoint *)

(** C1 (as amended).  In every 200 response each entry is one of the
    post-filter candidates; when the response is not the parse-failure
    fallback each entry carries a confidence in [5,7], and the entries of
    the fallback carry none; the entries answer, one for one and in the
    order of the reply, the entries of the parsed candidate list that pass
    validation and the join, so the sequence is sorted by descending
    confidence whenever the candidate list of the parsed reply is. *)
Theorem recommendations_invariant (ollama : GenerateCall -> ServiceOutcome)
    (all_products : list Product) (data : Request) (resp : RecommendBody) :
  fst (ai_recommend ollama all_products data) = Returned (Ok200 resp) ->
  Forall (fun r => In (product r) (filtered_products all_products data)) (recommendations resp)
  /\ (note resp = None ->
      Forall (fun r => exists c, confidence r = Some c /\ within_5_7 c = true)
        (recommendations resp))
  /\ (note resp <> None -> Forall (fun r => confidence r = None) (recommendations resp))
  /\ (forall ai_text result entries,
        success_payload ollama all_products data ai_text ->
        json_loads ai_text = Loaded (JDict result) ->
        candidates result = JList entries ->
        Forall2 from_entry (recommendations resp)
          (filter (joined (filtered_products all_products data)) entries)
        /\ (StronglySorted entry_conf_ge entries -> descending (recommendations resp))).
Proof.
  intros H. split; [|split; [|split]].
  - apply Forall_forall. exact (recommendations_filtered ollama all_products data resp H).
  - intros Hnote. destruct (ok_paths _ _ _ _ H) as [B | [B | [rkv [entries B]]]].
    + injection B as ->. constructor.
    + unfold fallback_response in B. injection B as ->. discriminate Hnote.
    + destruct (survivors entries) as [|entry high] eqn:S.
      * injection B as ->. constructor.
      * rewrite <- S in B. unfold ranked_response in B. injection B as ->.
        apply ranked_confidences.
  - intros Hnote. destruct (ok_paths _ _ _ _ H) as [B | [B | [rkv [entries B]]]].
    + injection B as ->. constructor.
    + unfold fallback_response in B. injection B as ->. cbn [recommendations].
      apply Forall_forall. intros r I. apply in_map_iff in I.
      destruct I as [p [<- _]]. reflexivity.
    + destruct (survivors entries) as [|entry high] eqn:S.
      * injection B as ->. constructor.
      * unfold ranked_response in B. injection B as ->. now contradiction Hnote.
  - intros ai_text result entries P L C.
    rewrite (ai_recommend_payload ollama all_products data ai_text P), L in H.
    pose proof (recommended_joined (filtered_products all_products data) entries) as J.
    pose proof (recommended_descending (filtered_products all_products data) entries) as D.
    rewrite (rank_typed _ data result entries C) in H.
    + destruct (survivors entries) as [|entry high] eqn:S.
      * injection H as <-. split; [exact J | exact D].
      * unfold ranked_response in H. injection H as <-. split; [exact J | exact D].
    + apply rank_returned in H. destruct H as [rkv [entries' [E [I [T _]]]]].
      injection E as <-. rewrite C in I. injection I as <-. exact T.
Qed.

(** C2.  When the request declares allergies, no returned product has a
    lowercased name-and-notes text that contains a declared allergy term,
    lowercased, on any path that returns recommendations. *)
Theorem no_allergen_returned (ollama : GenerateCall -> ServiceOutcome)
    (all_products : list Product) (data : Request) (resp : RecommendBody) :
  allergies data <> [] ->
  fst (ai_recommend ollama all_products data) = Returned (Ok200 resp) ->
  forall r allergen,
    In r (recommendations resp) -> In allergen (allergies data) ->
    str_in (str_lower allergen)
      (str_lower (name (product r) ++ " " ++ notes_text (product r))) = false.
Proof.
  intros A H r allergen I Ia.
  apply (recommendations_filtered ollama all_products data resp H) in I.
  apply filtered_products_In in I. destruct I as [_ [_ F]].
  exact (has_allergen_false _ _ _ (F A) Ia).
Qed.

(** C3.  When the request names disliked products, no returned
    recommendation has an identifier of the disliked set, on any path. *)
Theorem no_disliked_returned (ollama : GenerateCall -> ServiceOutcome)
    (all_products : list Product) (data : Request) (resp : RecommendBody) :
  disliked_ids data <> [] ->
  fst (ai_recommend ollama all_products data) = Returned (Ok200 resp) ->
  forall r, In r (recommendations resp) -> ~ In (id (product r)) (disliked_ids data).
Proof.
  intros _ H r I.
  apply (recommendations_filtered ollama all_products data resp H) in I.
  apply filtered_products_In in I. tauto.
Qed.

(** C4.  When nothing is left after the category, dislike, allergen and
    avoid stages, the endpoint answers with no recommendations and the
    fixed rationale, and makes no call to the generation service. *)
Theorem empty_filter_short_circuit (ollama : GenerateCall -> ServiceOutcome)
    (all_products : list Product) (data : Request) :
  avoid_stage (avoid_list data)
    (allergen_stage (allergies data)
      (dislike_stage (disliked_ids data)
        (category_stage (category_filter data) all_products))) = [] ->
  ai_recommend ollama all_products data
  = (Returned (Ok200 {| body_user_id := user_id data;
                        body_query := user_query data;
                        recommendations := [];
                        reasoning := JStr NO_DRINKS_MATCH;
                        ai_model := Some AI_MODEL;
                        note := None |}),
     []).
Proof.
  intros E. unfold ai_recommend, filtered_products, no_drinks_response.
  rewrite E. reflexivity.
Qed.

(** X24.  When the service answers 200 with a text payload, the fallback
    is the answer to [json.JSONDecodeError] and to nothing else: if
    [json.loads] raises it, the response is the first three candidates in
    filter order, without confidence, the fixed fallback rationale and the
    note that parsing failed; if [json.loads] raises another exception,
    that exception leaves the handler; and a response with a note is
    returned only when [json.loads] raised [json.JSONDecodeError]. *)
Theorem parse_failure_fallback (ollama : GenerateCall -> ServiceOutcome)
    (all_products : list Product) (data : Request) (ai_text : string) :
  success_payload ollama all_products data ai_text ->
  (json_loads ai_text = JSONDecodeError ->
   fst (ai_recommend ollama all_products data)
   = Returned (Ok200 {| body_user_id := user_id data;
                        body_query := user_query data;
                        recommendations :=
                          map (fun p => {| product := p; confidence := None |})
                            (firstn 3 (filtered_products all_products data));
                        reasoning := JStr FALLBACK_REASONING;
                        ai_model := None;
                        note := Some PARSING_FAILED_NOTE |}))
  /\ (forall e,
        json_loads ai_text = Raised e ->
        fst (ai_recommend ollama all_products data) = Uncaught e)
  /\ (forall resp,
        fst (ai_recommend ollama all_products data) = Returned (Ok200 resp) ->
        note resp <> None ->
        json_loads ai_text = JSONDecodeError).
Proof.
  intros P. rewrite (ai_recommend_payload ollama all_products data ai_text P).
  split; [|split].
  - intros ->. reflexivity.
  - intros e ->. reflexivity.
  - intros resp H Hnote. destruct (json_loads ai_text) as [result| |e];
      [|reflexivity|discriminate].
    exfalso. apply Hnote. apply rank_returned in H.
    destruct H as [rkv [entries [_ [_ [_ R]]]]].
    destruct (survivors entries); unfold ranked_response in R; injection R as ->;
      reflexivity.
Qed.


(** C8.  When the request has candidates, the endpoint makes one call to
    the generation service, with a timeout of 90; an answer with a status
    other than 200 gives a 500 response that names the status, and a
    failure to connect or a timeout gives a 500 response with a hint and
    the cause; nothing is tried again. *)
Theorem service_failures (ollama : GenerateCall -> ServiceOutcome)
    (all_products : list Product) (data : Request) :
  filtered_products all_products data <> [] ->
  let call := generate_call (filtered_products all_products data) data in
  snd (ai_recommend ollama all_products data) = [call]
  /\ timeout call = 90
  /\ (forall status_code body,
        ollama call = HttpReply status_code body -> status_code <> 200 ->
        fst (ai_recommend ollama all_products data)
        = Returned (Err500 (OllamaApiError OLLAMA_ERROR status_code)))
  /\ (forall cause,
        ollama call = RequestException cause ->
        fst (ai_recommend ollama all_products data)
        = Returned (Err500 (CannotConnect CANNOT_CONNECT cause))).
Proof.
  intros N call. rewrite (ai_recommend_called ollama all_products data N).
  fold call. simpl fst. simpl snd. repeat split.
  - intros status_code body O S. rewrite O. simpl.
    apply Z.eqb_neq in S. rewrite S. reflexivity.
  - intros cause O. rewrite O. reflexivity.
Qed.

(** C9.  When the reply parses and its candidate list is made of entries
    with numeric confidences, the endpoint answers, and the entries of the
    response answer one for one, in the order of the reply, the entries of
    the candidate list that pass validation and the join, each with the
    confidence and the identifier of its entry: nothing is dropped beyond
    those, and nothing is reordered by the threshold or by the join.  So
    a candidate list in non-increasing order of confidence gives a
    sequence that is non-increasing in confidence. *)
Theorem sorted_reply_sorted_response (ollama : GenerateCall -> ServiceOutcome)
    (all_products : list Product) (data : Request) (ai_text : string)
    (result : list (string * json)) (entries : list json) :
  success_payload ollama all_products data ai_text ->
  json_loads ai_text = Loaded (JDict result) ->
  candidates result = JList entries ->
  Forall (fun e => is_number (entry_confidence e) = true) entries ->
  exists resp,
    fst (ai_recommend ollama all_products data) = Returned (Ok200 resp)
    /\ Forall2 from_entry (recommendations resp)
         (filter (joined (filtered_products all_products data)) entries)
    /\ (StronglySorted entry_conf_ge entries -> descending (recommendations resp)).
Proof.
  intros P L C N.
  rewrite (ai_recommend_payload ollama all_products data ai_text P), L.
  rewrite (rank_typed _ data result entries C).
  2: { eapply Forall_impl; [|exact N]. exact number_typed. }
  pose proof (recommended_joined (filtered_products all_products data) entries) as J.
  pose proof (recommended_descending (filtered_products all_products data) entries) as D.
  destruct (survivors entries) as [|entry high].
  - eexists. split; [reflexivity|]. split; [exact J | exact D].
  - eexists. split; [reflexivity|]. split; [exact J | exact D].
Qed.

(** C10 (as amended).  When the reply parses, no entry of its candidate
    list has a confidence that cannot be compared with a number, at least
    one record entry has a confidence in [5,7] and an identifier that is
    not text rejected by [int], and no such entry has the identifier of a
    candidate product, the response has no recommendations and carries
    the reasoning of the reply. *)
Theorem unmatched_reply_keeps_reasoning (ollama : GenerateCall -> ServiceOutcome)
    (all_products : list Product) (data : Request) (ai_text : string)
    (result : list (string * json)) (entries : list json) (why : json) :
  success_payload ollama all_products data ai_text ->
  json_loads ai_text = Loaded (JDict result) ->
  candidates result = JList entries ->
  dict_get result "reasoning" = Some why ->
  Forall (fun e => typed_entry e = true) entries ->
  Exists (fun e => entry_id e <> None /\ within_5_7 (entry_confidence e) = true) entries ->
  Forall (fun e => forall rec_id,
            entry_id e = Some rec_id -> within_5_7 (entry_confidence e) = true ->
            Forall (fun p => py_eq_int (id p) rec_id = false)
              (filtered_products all_products data)) entries ->
  fst (ai_recommend ollama all_products data)
  = Returned (Ok200 {| body_user_id := user_id data;
                       body_query := user_query data;
                       recommendations := [];
                       reasoning := why;
                       ai_model := Some AI_MODEL;
                       note := None |}).
Proof.
  intros P L C W T E U.
  rewrite (ai_recommend_payload ollama all_products data ai_text P), L.
  rewrite (rank_typed _ data result entries C T).
  assert (Some_survivor : survivors entries <> []).
  { clear - E. induction E as [e rest [I R] | e rest _ IH]; simpl.
    - unfold kept_pair. destruct (entry_id e); [|congruence]. rewrite R. discriminate.
    - destruct (kept_pair e); [discriminate | exact IH]. }
  assert (Unmatched : recommended_products (filtered_products all_products data)
                        (survivors entries) = []).
  { apply recommended_products_unmatched. apply Forall_forall.
    intros [rec_id c] I. apply survivors_In in I. destruct I as [_ [e [I K]]].
    rewrite Forall_forall in U. specialize (U e I).
    unfold kept_pair in K. destruct (entry_id e) as [i|]; [|discriminate].
    destruct (within_5_7 (entry_confidence e)) eqn:R; [|discriminate].
    injection K as -> _. simpl. apply find_all_false. exact (U rec_id eq_refl eq_refl). }
  rewrite Unmatched. destruct (survivors entries); [congruence|].
  unfold ranked_response, dict_get_default. rewrite W. reflexivity.
Qed.

(** ** Further properties of the exclusion filters *)

Lemma filter_filter (A : Type) (f g : A -> bool) (l : list A) :
  filter f (filter g l) = filter (fun x => g x && f x) l.
Proof.
  induction l as [|x l IH]; simpl; [reflexivity|].
  destruct (g x); simpl; [destruct (f x)|]; rewrite IH; reflexivity.
Qed.

Lemma filter_same (A : Type) (f g : A -> bool) (l : list A) :
  (forall x, f x = g x) -> filter f l = filter g l.
Proof. intros E. apply filter_ext. exact E. Qed.

Lemma category_stage_filter (c : option string) (ps : list Product) :
  category_stage c ps
  = filter (fun p => match category_active c with
                     | Some c' => String.eqb (category p) c'
                     | None => true
                     end) ps.
Proof.
  unfold category_stage. destruct (category_active c); [reflexivity|].
  induction ps as [|p ps IH]; simpl; congruence.
Qed.

Lemma allergen_stage_filter (allergies : list string) (ps : list Product) :
  allergen_stage allergies ps = filter (fun p => negb (has_allergen allergies p)) ps.
Proof.
  destruct allergies; [|reflexivity]. simpl.
  induction ps as [|p ps IH]; simpl; congruence.
Qed.

Lemma avoid_stage_filter (avoid : list string) (ps : list Product) :
  avoid_stage avoid ps = filter (fun p => negb (should_avoid avoid p)) ps.
Proof.
  destruct avoid; [|reflexivity]. simpl.
  induction ps as [|p ps IH]; simpl; congruence.
Qed.

Lemma filtered_products_filter (all_products : list Product) (data : Request) :
  filtered_products all_products data = filter (eligible data) all_products.
Proof.
  unfold filtered_products, dislike_stage.
  rewrite avoid_stage_filter, allergen_stage_filter, category_stage_filter.
  rewrite !filter_filter. apply filter_same. intros p. unfold eligible.
  rewrite !andb_assoc. reflexivity.
Qed.

(** X1.  The four stages together are one test applied to each product on
    its own: same category when a category is given, not disliked, no
    allergy term in its name and notes, no avoid term in its name, notes
    and category.  The candidates keep the order of the product table. *)
Theorem candidates_are_the_eligible_products (all_products : list Product) (data : Request) :
  avoid_stage (avoid_list data)
    (allergen_stage (allergies data)
      (dislike_stage (disliked_ids data)
        (category_stage (category_filter data) all_products)))
  = filter (fun p =>
              match category_filter data with
              | Some (String a rest) => String.eqb (category p) (String a rest)
              | Some EmptyString | None => true
              end
              && negb (existsb (fun d => id p =? d) (disliked_ids data))
              && negb (existsb (fun allergen =>
                                  str_in (str_lower allergen)
                                    (str_lower (name p ++ " " ++ notes_text p)))
                         (allergies data))
              && negb (existsb (fun avoid_item =>
                                  str_in (str_lower avoid_item)
                                    (str_lower (name p ++ " " ++ notes_text p ++ " " ++ category p)))
                         (avoid_list data)))
      all_products.
Proof.
  fold (filtered_products all_products data). rewrite filtered_products_filter.
  apply filter_same. intros p. unfold eligible, category_active.
  destruct (category_filter data) as [[|a rest]|]; reflexivity.
Qed.

(** X2.  The stages commute and filtering is idempotent: applying the
    stages in the opposite order gives the same candidates, and filtering
    the candidates again changes nothing. *)
Theorem stages_commute_and_are_idempotent (all_products : list Product) (data : Request) :
  category_stage (category_filter data)
    (dislike_stage (disliked_ids data)
      (allergen_stage (allergies data)
        (avoid_stage (avoid_list data) all_products)))
  = filtered_products all_products data
  /\ filtered_products (filtered_products all_products data) data
     = filtered_products all_products data.
Proof.
  split.
  - rewrite filtered_products_filter. unfold dislike_stage.
    rewrite avoid_stage_filter, allergen_stage_filter, category_stage_filter.
    rewrite !filter_filter. apply filter_same. intros p. unfold eligible.
    destruct (match category_active (category_filter data) with
              | Some c' => String.eqb (category p) c'
              | None => true
              end);
      destruct (not_disliked (disliked_ids data) p);
      destruct (has_allergen (allergies data) p);
      destruct (should_avoid (avoid_list data) p); reflexivity.
  - rewrite !filtered_products_filter, filter_filter. apply filter_same.
    intros p. destruct (eligible data p); reflexivity.
Qed.

Lemma filtered_products_eligible (all_products : list Product) (data : Request) (p : Product) :
  In p (filtered_products all_products data) <-> In p all_products /\ eligible data p = true.
Proof. rewrite filtered_products_filter. apply filter_In. Qed.

Lemma eligible_parts (data : Request) (p : Product) :
  eligible data p = true ->
  match category_active (category_filter data) with
  | Some c => String.eqb (category p) c
  | None => true
  end = true
  /\ not_disliked (disliked_ids data) p = true
  /\ has_allergen (allergies data) p = false
  /\ should_avoid (avoid_list data) p = false.
Proof.
  unfold eligible. intros E.
  apply andb_prop in E. destruct E as [E V].
  apply andb_prop in E. destruct E as [E A].
  apply andb_prop in E. destruct E as [C D].
  apply negb_true_iff in V. apply negb_true_iff in A. tauto.
Qed.

Lemma existsb_false_In (A : Type) (f : A -> bool) (l : list A) (x : A) :
  existsb f l = false -> In x l -> f x = false.
Proof.
  intros E I. destruct (f x) eqn:F; [|reflexivity].
  assert (X : existsb f l = true) by (apply existsb_exists; exists x; auto).
  congruence.
Qed.

Lemma existsb_incl (A : Type) (f : A -> bool) (l l' : list A) :
  incl l l' -> existsb f l = true -> existsb f l' = true.
Proof.
  intros I E. apply existsb_exists in E. destruct E as [x [Ix Fx]].
  apply existsb_exists. exists x. auto.
Qed.

(** X3.  No returned recommendation has a lowercased text of name, notes
    and category that contains a term of the avoid list, lowercased, on any
    path that returns recommendations. *)
Theorem no_avoided_returned (ollama : GenerateCall -> ServiceOutcome)
    (all_products : list Product) (data : Request) (resp : RecommendBody) :
  fst (ai_recommend ollama all_products data) = Returned (Ok200 resp) ->
  forall r avoid_item,
    In r (recommendations resp) -> In avoid_item (avoid_list data) ->
    str_in (str_lower avoid_item)
      (str_lower (name (product r) ++ " " ++ notes_text (product r) ++ " "
                  ++ category (product r))) = false.
Proof.
  intros H r avoid_item I Ia.
  apply (recommendations_filtered ollama all_products data resp H) in I.
  apply filtered_products_eligible in I. destruct I as [_ E].
  apply eligible_parts in E. destruct E as [_ [_ [_ V]]].
  exact (existsb_false_In _ _ _ _ V Ia).
Qed.

(** X4.  When the request gives a category that is not the empty string,
    every returned recommendation has exactly that category (the
    comparison is case-sensitive); an empty category restricts nothing. *)
Theorem category_restriction (ollama : GenerateCall -> ServiceOutcome)
    (all_products : list Product) (data : Request) (resp : RecommendBody) (c : string) :
  category_filter data = Some c ->
  (c <> EmptyString ->
   fst (ai_recommend ollama all_products data) = Returned (Ok200 resp) ->
   forall r, In r (recommendations resp) -> category (product r) = c)
  /\ (c = EmptyString ->
      category_stage (category_filter data) all_products = all_products).
Proof.
  intros C. split.
  - intros N H r I.
    apply (recommendations_filtered ollama all_products data resp H) in I.
    apply filtered_products_eligible in I. destruct I as [_ E].
    apply eligible_parts in E. destruct E as [E _]. rewrite C in E.
    destruct c as [|a rest]; [congruence|]. simpl in E.
    apply String.eqb_eq in E. exact E.
  - intros ->. rewrite C. reflexivity.
Qed.

(** X5.  Excluding more never adds a candidate: when a second request has
    the same category and its disliked identifiers, allergies and avoid
    terms include those of the first, each of its candidates is a
    candidate of the first. *)
Theorem stricter_request_fewer_candidates (all_products : list Product)
    (data data' : Request) :
  stricter data data' ->
  incl (filtered_products all_products data') (filtered_products all_products data).
Proof.
  intros [C [D [A V]]] p I.
  apply filtered_products_eligible in I. destruct I as [I E].
  apply filtered_products_eligible. split; [exact I|].
  apply eligible_parts in E. destruct E as [Ec [Ed [Ea Ev]]].
  unfold eligible. rewrite <- C, Ec. simpl.
  assert (Xd : not_disliked (disliked_ids data) p = true).
  { unfold not_disliked in *. apply negb_true_iff. apply negb_true_iff in Ed.
    destruct (existsb (fun d => id p =? d) (disliked_ids data)) eqn:X; [|reflexivity].
    rewrite (existsb_incl _ _ _ _ D X) in Ed. discriminate. }
  assert (Xa : has_allergen (allergies data) p = false).
  { unfold has_allergen in *.
    destruct (existsb (fun allergen => str_in (str_lower allergen) (allergy_text p))
                (allergies data)) eqn:X; [|reflexivity].
    rewrite (existsb_incl _ _ _ _ A X) in Ea. discriminate. }
  assert (Xv : should_avoid (avoid_list data) p = false).
  { unfold should_avoid in *.
    destruct (existsb (fun avoid_item => str_in (str_lower avoid_item) (avoid_text p))
                (avoid_list data)) eqn:X; [|reflexivity].
    rewrite (existsb_incl _ _ _ _ V X) in Ev. discriminate. }
  rewrite Xd, Xa, Xv. reflexivity.
Qed.

Lemma str_in_empty (s : string) : str_in EmptyString s = true.
Proof. destruct s; reflexivity. Qed.

(** X6.  An empty string among the allergies, or in the avoid list,
    excludes every product, since the empty string is found in every text:
    the endpoint answers that no drinks match and does not call the
    service.  ([str.lower] maps the empty string to itself.) *)
Theorem empty_term_excludes_everything (ollama : GenerateCall -> ServiceOutcome)
    (all_products : list Product) (data : Request) :
  str_lower EmptyString = EmptyString ->
  In EmptyString (allergies data) \/ In EmptyString (avoid_list data) ->
  ai_recommend ollama all_products data
  = (Returned (Ok200 {| body_user_id := user_id data;
                        body_query := user_query data;
                        recommendations := [];
                        reasoning := JStr NO_DRINKS_MATCH;
                        ai_model := Some AI_MODEL;
                        note := None |}),
     []).
Proof.
  intros L T. apply ai_recommend_empty.
  destruct (filtered_products all_products data) as [|p ps] eqn:F; [reflexivity|].
  assert (I : In p (filtered_products all_products data)) by (rewrite F; left; reflexivity).
  apply filtered_products_eligible in I. destruct I as [_ E].
  apply eligible_parts in E. destruct E as [_ [_ [Ea Ev]]].
  destruct T as [T | T].
  - unfold has_allergen in Ea.
    pose proof (existsb_false_In _ _ _ _ Ea T) as X. simpl in X.
    rewrite L, str_in_empty in X. discriminate.
  - unfold should_avoid in Ev.
    pose proof (existsb_false_In _ _ _ _ Ev T) as X. simpl in X.
    rewrite L, str_in_empty in X. discriminate.
Qed.

(** ** Further properties of the handler *)

Lemma confidence_ok_not_number (c : json) :
  is_number c = false -> confidence_ok c = Uncaught TypeError.
Proof. destruct c; simpl; try discriminate; reflexivity. Qed.

Lemma check_rec_untyped (e : json) :
  typed_entry e = false -> check_rec e = Uncaught TypeError.
Proof.
  unfold typed_entry. destruct e; simpl; try discriminate.
  destruct (coerce_id (dict_get_default kv "id" JNull)); [|discriminate].
  intros N. rewrite (confidence_ok_not_number _ N). reflexivity.
Qed.

Lemma high_confidence_untyped (entries : list json) :
  Exists (fun e => typed_entry e = false) entries ->
  high_confidence entries = Uncaught TypeError.
Proof.
  induction entries as [|e rest IH]; intros X; [inversion X|].
  simpl. destruct (typed_entry e) eqn:T.
  - rewrite (check_rec_typed _ T). simpl.
    inversion X as [? ? U | ? ? U]; subst; [congruence|].
    rewrite (IH U). reflexivity.
  - rewrite (check_rec_untyped _ T). reflexivity.
Qed.

(** X7.  For a reply that parses to an object whose candidate list is a
    list, the endpoint answers 200 when every entry is harmless (not a
    record, or a record whose identifier is text that [int] rejects, or a
    record whose confidence is a number), and raises [TypeError] as soon as
    one entry is a record with a usable identifier and a confidence that is
    not a number. *)
Theorem answered_unless_confidence_not_number (ollama : GenerateCall -> ServiceOutcome)
    (all_products : list Product) (data : Request) (ai_text : string)
    (result : list (string * json)) (entries : list json) :
  success_payload ollama all_products data ai_text ->
  json_loads ai_text = Loaded (JDict result) ->
  candidates result = JList entries ->
  (Forall (fun e => typed_entry e = true) entries ->
   exists resp, fst (ai_recommend ollama all_products data) = Returned (Ok200 resp))
  /\ (Exists (fun e => typed_entry e = false) entries ->
      fst (ai_recommend ollama all_products data) = Uncaught TypeError).
Proof.
  intros P L C.
  rewrite (ai_recommend_payload ollama all_products data ai_text P), L. split.
  - intros T. rewrite (rank_typed _ data result entries C T).
    destruct (survivors entries); eexists; reflexivity.
  - intros X. simpl. fold (candidates result). rewrite C. simpl.
    rewrite (high_confidence_untyped entries X). reflexivity.
Qed.

(** X8.  A reply that parses to something other than an object makes the
    handler raise [AttributeError]; an object whose candidate list is
    [null], a number or a boolean makes it raise [TypeError].  Neither is
    answered with the fallback. *)
Theorem wrong_shape_raises (ollama : GenerateCall -> ServiceOutcome)
    (all_products : list Product) (data : Request) (ai_text : string) (parsed_reply : json) :
  success_payload ollama all_products data ai_text ->
  json_loads ai_text = Loaded parsed_reply ->
  (is_dict parsed_reply = false ->
   fst (ai_recommend ollama all_products data) = Uncaught AttributeError)
  /\ (forall result,
        parsed_reply = JDict result -> is_iterable (candidates result) = false ->
        fst (ai_recommend ollama all_products data) = Uncaught TypeError).
Proof.
  intros P L.
  rewrite (ai_recommend_payload ollama all_products data ai_text P), L. split.
  - destruct parsed_reply; try discriminate; reflexivity.
  - intros result -> I. simpl. fold (candidates result).
    destruct (candidates result); try discriminate; reflexivity.
Qed.

Lemma survivors_of_texts (texts : list string) : survivors (map JStr texts) = [].
Proof. induction texts as [|t rest IH]; simpl; [reflexivity | exact IH]. Qed.

Lemma typed_texts (texts : list string) :
  Forall (fun e => typed_entry e = true) (map JStr texts).
Proof. induction texts as [|t rest IH]; simpl; constructor; auto. Qed.

(** X9.  An object whose candidate list is a string or an object is
    iterated character by character or key by key: no element is a record,
    so the answer is the one of no strong matches. *)
Theorem text_or_object_candidates_are_no_matches (ollama : GenerateCall -> ServiceOutcome)
    (all_products : list Product) (data : Request) (ai_text : string)
    (result : list (string * json)) :
  success_payload ollama all_products data ai_text ->
  json_loads ai_text = Loaded (JDict result) ->
  (exists s, candidates result = JStr s) \/ (exists kv, candidates result = JDict kv) ->
  fst (ai_recommend ollama all_products data)
  = Returned (Ok200 {| body_user_id := user_id data;
                       body_query := user_query data;
                       recommendations := [];
                       reasoning := JStr NO_STRONG_MATCHES;
                       ai_model := Some AI_MODEL;
                       note := None |}).
Proof.
  intros P L S.
  rewrite (ai_recommend_payload ollama all_products data ai_text P), L.
  simpl. fold (candidates result).
  assert (X : exists texts, py_iter (candidates result) = Returned (map JStr texts)).
  { destruct S as [[s ->] | [kv ->]]; simpl.
    - exists (chars s). reflexivity.
    - exists (map fst kv). rewrite map_map. reflexivity. }
  destruct X as [texts ->]. simpl.
  rewrite (high_confidence_typed _ (typed_texts texts)), survivors_of_texts.
  reflexivity.
Qed.

(** X10.  When the body of a 200 answer of the service has no [response]
    key, the handler parses the text of an empty object instead; with
    [json.loads] reading that as the empty object, the answer is the one of
    no strong matches. *)
Theorem missing_payload_is_no_matches (ollama : GenerateCall -> ServiceOutcome)
    (all_products : list Product) (data : Request) (kv : list (string * json)) :
  filtered_products all_products data <> [] ->
  ollama (generate_call (filtered_products all_products data) data)
  = HttpReply 200 (JDict kv) ->
  dict_get kv "response" = None ->
  json_loads "{}" = Loaded (JDict []) ->
  fst (ai_recommend ollama all_products data)
  = Returned (Ok200 {| body_user_id := user_id data;
                       body_query := user_query data;
                       recommendations := [];
                       reasoning := JStr NO_STRONG_MATCHES;
                       ai_model := Some AI_MODEL;
                       note := None |}).
Proof.
  intros N O G L.
  assert (P : success_payload ollama all_products data "{}").
  { split; [exact N|]. exists kv. split; [exact O|].
    unfold dict_get_default. rewrite G. reflexivity. }
  rewrite (ai_recommend_payload ollama all_products data "{}" P), L.
  reflexivity.
Qed.

Lemma Forall2_length_le (A B : Type) (R : A -> B -> Prop) (l : list A) (kept all : list B) :
  Forall2 R l kept -> subseq kept all -> (List.length l <= List.length all)%nat.
Proof.
  intros F S. rewrite (Forall2_length F). clear F.
  induction S; simpl; lia.
Qed.

(** X11.  Whenever the endpoint answers a parsed reply, its
    recommendations come from the reply: they are, in order, a subsequence
    of the entries of the candidate list, each with its entry's confidence
    unchanged and a product whose identifier equals the entry's; so there
    are never more recommendations than entries. *)
Theorem recommendations_come_from_the_reply (ollama : GenerateCall -> ServiceOutcome)
    (all_products : list Product) (data : Request) (ai_text : string)
    (result : list (string * json)) (entries : list json) (resp : RecommendBody) :
  success_payload ollama all_products data ai_text ->
  json_loads ai_text = Loaded (JDict result) ->
  candidates result = JList entries ->
  fst (ai_recommend ollama all_products data) = Returned (Ok200 resp) ->
  (exists kept, subseq kept entries /\ Forall2 from_entry (recommendations resp) kept)
  /\ (List.length (recommendations resp) <= List.length entries)%nat.
Proof.
  intros P L C H.
  rewrite (ai_recommend_payload ollama all_products data ai_text P), L in H.
  assert (T : Forall (fun e => typed_entry e = true) entries).
  { apply rank_returned in H. destruct H as [rkv [entries' [E [I [T _]]]]].
    injection E as <-. rewrite C in I. injection I as <-. exact T. }
  rewrite (rank_typed _ data result entries C T) in H.
  destruct (recommended_from_entries (filtered_products all_products data) entries)
    as [kept [S F]].
  assert (X : exists kept, subseq kept entries /\ Forall2 from_entry (recommendations resp) kept).
  { destruct (survivors entries) as [|entry high] eqn:E.
    - injection H as <-. exists kept. split; [exact S | exact F].
    - unfold ranked_response in H. injection H as <-.
      exists kept. split; [exact S | exact F]. }
  split; [exact X|]. destruct X as [kept' [S' F']].
  exact (Forall2_length_le _ _ _ _ _ _ F' S').
Qed.

(** X12.  Every 200 answer repeats the requester and the query of the
    request; it carries the model tag and no note, except the
    parse-failure fallback, which carries the note and no model tag. *)
Theorem answers_echo_the_request (ollama : GenerateCall -> ServiceOutcome)
    (all_products : list Product) (data : Request) (resp : RecommendBody) :
  fst (ai_recommend ollama all_products data) = Returned (Ok200 resp) ->
  body_user_id resp = user_id data
  /\ body_query resp = user_query data
  /\ ((ai_model resp = Some AI_MODEL /\ note resp = None)
      \/ (ai_model resp = None /\ note resp = Some PARSING_FAILED_NOTE
          /\ reasoning resp = JStr FALLBACK_REASONING)).
Proof.
  intros H. destruct (ok_paths _ _ _ _ H) as [B | [B | [rkv [entries B]]]].
  - injection B as ->. simpl. auto.
  - unfold fallback_response in B. injection B as ->. simpl. auto 6.
  - destruct (survivors entries); injection B as ->; simpl; auto.
Qed.

(** ** The prompt *)

Lemma starts_with_app (t a b : string) :
  starts_with t a = true -> starts_with t (a ++ b) = true.
Proof.
  revert a. induction t as [|c t IH]; intros a; [reflexivity|].
  destruct a as [|c' a]; simpl; [discriminate|].
  intros H. apply andb_prop in H. destruct H as [E H].
  rewrite E, (IH a H). reflexivity.
Qed.

Lemma starts_with_refl (s : string) : starts_with s s = true.
Proof. induction s as [|c s IH]; simpl; [reflexivity|]. rewrite Ascii.eqb_refl. exact IH. Qed.

Lemma str_in_refl (s : string) : str_in s s = true.
Proof. destruct s; simpl; [reflexivity|]. rewrite Ascii.eqb_refl, starts_with_refl. reflexivity. Qed.

Lemma str_in_app_l (t a b : string) :
  str_in t a = true -> str_in t (a ++ b) = true.
Proof.
  induction a as [|c a IH]; simpl.
  - rewrite orb_false_r. intros H. destruct t; [apply str_in_empty | discriminate].
  - intros H. apply orb_prop in H. destruct H as [H | H].
    + change (String c (a ++ b)) with (String c a ++ b).
      rewrite (starts_with_app _ _ b H). reflexivity.
    + rewrite (IH H). apply orb_true_r.
Qed.

Lemma str_in_app_r (t a b : string) :
  str_in t b = true -> str_in t (a ++ b) = true.
Proof.
  intros H. induction a as [|c a IH]; simpl; [exact H|].
  rewrite IH. apply orb_true_r.
Qed.

Lemma append_assoc (a b c : string) : ((a ++ b) ++ c)%string = (a ++ (b ++ c))%string.
Proof. induction a as [|x a IH]; simpl; [reflexivity|]. rewrite IH. reflexivity. Qed.

Lemma str_in_join (t sep : string) (items : list string) (x : string) :
  In x items -> str_in t x = true -> str_in t (join sep items) = true.
Proof.
  intros I H. induction items as [|y rest IH]; [inversion I|].
  destruct I as [-> | I].
  - destruct rest; simpl; [exact H | apply str_in_app_l; exact H].
  - destruct rest as [|z rest]; [inversion I|].
    change (join sep (y :: z :: rest)) with (y ++ sep ++ join sep (z :: rest)).
    apply str_in_app_r, str_in_app_r. exact (IH I).
Qed.

(** X13.  Every call the endpoint makes carries, in its prompt, the query
    between quotes and one menu line for each candidate, made of its
    identifier, name, category and notes. *)
Theorem prompt_lists_every_candidate (ollama : GenerateCall -> ServiceOutcome)
    (all_products : list Product) (data : Request) (call : GenerateCall) :
  In call (snd (ai_recommend ollama all_products data)) ->
  str_in (dq ++ user_query data ++ dq) (prompt call) = true
  /\ forall p,
       In p (filtered_products all_products data) ->
       str_in (str_of_int (id p) ++ ". " ++ name p ++ " (" ++ category p ++ ") - "
               ++ notes_text p)
         (prompt call) = true.
Proof.
  destruct (filtered_empty_or_not all_products data) as [E | N].
  - rewrite (ai_recommend_empty ollama all_products data E). intros [].
  - rewrite (ai_recommend_called ollama all_products data N). simpl snd.
    intros [<- | []]. cbn [prompt generate_call]. unfold build_prompt. split.
    + apply str_in_join with (x := request_line data); [left; reflexivity|].
      unfold request_line. apply str_in_app_r.
      match goal with
      | |- str_in ?t (dq ++ user_query data ++ dq ++ ?rest) = true =>
          replace (dq ++ user_query data ++ dq ++ rest)%string with (t ++ rest)%string
            by (rewrite !append_assoc; reflexivity)
      end.
      apply str_in_app_l, str_in_refl.
    + intros p I.
      apply str_in_join with (x := products_text (filtered_products all_products data));
        [right; right; right; left; reflexivity|].
      unfold products_text.
      apply str_in_join with (x := product_line p); [|apply str_in_refl].
      apply in_map. exact I.
Qed.

End Endpoint.

(** ** The endpoint on the sample catalog

    The runs below use the library functions on plain text. *)

(** Checks of the definitions on small inputs. *)

Example str_in_notes :
  str_in "milk" (ascii_lower "Cappuccino Espresso with steamed MILK foam") = true
  /\ str_in "soy" (ascii_lower "Cappuccino Espresso with steamed MILK foam") = false
  /\ str_in EmptyString "abc" = true.
Proof. repeat split. Qed.

Example decimal_int_texts :
  decimal_int "4" = Some 4 /\ decimal_int " -12 " = Some (-12) /\ decimal_int "1_000" = Some 1000
  /\ decimal_int "Pike Place Roast" = None /\ decimal_int "4.0" = None
  /\ decimal_int EmptyString = None.
Proof. repeat split. Qed.

Example loads_fragment_texts :
  loads_fragment "{}" = Loaded (JDict [])
  /\ loads_fragment " [1, -2, true, null] " = Loaded (JList [JInt 1; JInt (-2); JBool true; JNull])
  /\ loads_fragment "[1, 2,]" = JSONDecodeError
  /\ loads_fragment (entry_text "3" "7") = Loaded (entry (JInt 3) (JInt 7)).
Proof. repeat split. Qed.

Example py_iter_values :
  py_iter (JDict [("a", JInt 1); ("b", JInt 2)]) = Returned [JStr "a"; JStr "b"]
  /\ py_iter (JStr "ab") = Returned [JStr "a"; JStr "b"]
  /\ py_iter JNull = Uncaught TypeError.
Proof. repeat split. Qed.

Example confidence_ok_values :
  confidence_ok (JInt 5) = Returned true /\ confidence_ok (JInt 8) = Returned false
  /\ confidence_ok (JFloat (FFinite (13 # 2))) = Returned true
  /\ confidence_ok (JBool true) = Returned false
  /\ confidence_ok (JFloat FNaN) = Returned false
  /\ confidence_ok JNull = Uncaught TypeError
  /\ confidence_ok (JStr "7") = Uncaught TypeError.
Proof. repeat split. Qed.

Example filter_stages :
  map id (filtered_products ascii_lower catalog guest_request) = [1; 3; 4; 6; 7]
  /\ map id (filtered_products ascii_lower catalog careful_request) = [1; 4; 6]
  /\ map id (filtered_products ascii_lower catalog picky_request) = []
  /\ map id (category_stage (Some "Cold Coffees") catalog) = [6; 7]
  /\ map id (category_stage (Some EmptyString) catalog) = [1; 3; 4; 6; 7]
  /\ map id (avoid_stage ascii_lower ["COLD"] catalog) = [1; 3; 4].
Proof. repeat split. Qed.

(** A row with NULL notes is formatted with the text of [None], which the
    allergen test then searches. *)
Example null_notes_text :
  allergy_text ascii_lower
    {| id := 9; name := "Water"; category := "Other"; price := FFinite 0; roast := None;
       notes := None; allergens := JNull; caffeine_mg := None; vendor := "Tap";
       created_at := None; updated_at := None |}
  = "water none".
Proof. reflexivity. Qed.

Example join_identifiers :
  lookup_product catalog (JInt 4) = Some flat_white
  /\ lookup_product catalog (JFloat (FFinite (4 # 1))) = Some flat_white
  /\ lookup_product catalog (JBool true) = Some pike_place
  /\ lookup_product catalog (JInt 99) = None
  /\ lookup_product catalog JNull = None.
Proof. repeat split. Qed.

(** The guest's request has candidates, and [answers text] replies to its
    call with the payload [text]. *)
Lemma guest_payload (text : string) :
  success_payload ascii_lower (answers text) catalog guest_request text.
Proof.
  split; [vm_compute; discriminate|].
  eexists. split; reflexivity.
Defined.

(** C1, counterexample.  A reply that lists the weaker match first is
    returned in that order, and the entries of the fallback carry no
    confidence. *)
Lemma unsorted_and_fallback_counterexample :
  (fst (ai_recommend ascii_lower decimal_int loads_fragment (answers unsorted_reply) catalog guest_request)
   = Returned (Ok200 (response_to guest_request
                        [scored pike_place 5; scored cappuccino 7] "Both are smooth"))
   /\ ~ descending [scored pike_place 5; scored cappuccino 7])
  /\ (fst (ai_recommend ascii_lower decimal_int loads_fragment (answers garbled_reply) catalog guest_request)
      = Returned (Ok200 {| body_user_id := "guest"; body_query := "something strong";
                           recommendations := [plain pike_place; plain cappuccino; plain flat_white];
                           reasoning := JStr FALLBACK_REASONING; ai_model := None;
                           note := Some PARSING_FAILED_NOTE |})
      /\ Forall (fun r => confidence r = None)
           [plain pike_place; plain cappuccino; plain flat_white]).
Proof.
  split; split.
  - vm_compute. reflexivity.
  - intros D. inversion D as [|r l _ F]; subst.
    inversion F as [|r l G _]; subst.
    unfold conf_ge, num_ge, Qle in G. simpl in G. lia.
  - vm_compute. reflexivity.
  - repeat constructor.
Qed.

(** C1, a run: a reply in descending order, with a textual and an unknown
    identifier, gives three of the candidates with confidences 7, 6, 5. *)
Lemma recommendations_invariant_witness :
  fst (ai_recommend ascii_lower decimal_int loads_fragment (answers sorted_reply) catalog guest_request)
  = Returned (Ok200 (response_to guest_request
                       [scored cappuccino 7; scored flat_white 6; scored pike_place 5]
                       "Strongest first"))
  /\ Forall (fun r => In (product r) (filtered_products ascii_lower catalog guest_request))
       [scored cappuccino 7; scored flat_white 6; scored pike_place 5]
  /\ Forall (fun r => exists c, confidence r = Some c /\ within_5_7 c = true)
       [scored cappuccino 7; scored flat_white 6; scored pike_place 5]
  /\ Forall2 (from_entry decimal_int)
       [scored cappuccino 7; scored flat_white 6; scored pike_place 5]
       [entry (JInt 3) (JInt 7); entry (JStr "4") (JInt 6); entry (JInt 1) (JInt 5)]
  /\ descending [scored cappuccino 7; scored flat_white 6; scored pike_place 5].
Proof.
  assert (H : fst (ai_recommend ascii_lower decimal_int loads_fragment (answers sorted_reply) catalog guest_request)
              = Returned (Ok200 (response_to guest_request
                                   [scored cappuccino 7; scored flat_white 6; scored pike_place 5]
                                   "Strongest first")))
    by (vm_compute; reflexivity).
  destruct (recommendations_invariant ascii_lower decimal_int loads_fragment
              (answers sorted_reply) catalog guest_request _ H) as [F [C [_ D]]].
  split; [exact H|]. split; [exact F|]. split; [exact (C eq_refl)|].
  destruct (D sorted_reply
              (parsed [entry (JInt 3) (JInt 7); entry (JStr "4") (JInt 6);
                       entry (JInt 99) (JInt 6); entry (JInt 1) (JInt 5)] "Strongest first")
              [entry (JInt 3) (JInt 7); entry (JStr "4") (JInt 6);
               entry (JInt 99) (JInt 6); entry (JInt 1) (JInt 5)]
              (guest_payload sorted_reply)) as [J S].
  - vm_compute. reflexivity.
  - reflexivity.
  - split; [exact J|]. apply S.
    repeat constructor; unfold entry_conf_ge, num_ge, Qle; simpl; lia.
Defined.

(** The same for the customer with an allergy and a dislike. *)
Lemma careful_payload (text : string) :
  success_payload ascii_lower (answers text) catalog careful_request text.
Proof.
  split; [vm_compute; discriminate|].
  eexists. split; reflexivity.
Defined.

(** C2, a run: the customer allergic to milk is not offered the
    cappuccino the model put first. *)
Lemma no_allergen_returned_witness :
  allergies careful_request <> []
  /\ fst (ai_recommend ascii_lower decimal_int loads_fragment (answers sorted_reply) catalog careful_request)
     = Returned (Ok200 (response_to careful_request
                          [scored flat_white 6; scored pike_place 5] "Strongest first"))
  /\ forall r allergen,
       In r [scored flat_white 6; scored pike_place 5] -> In allergen ["Milk"] ->
       str_in (ascii_lower allergen)
         (ascii_lower (name (product r) ++ " " ++ notes_text (product r))) = false.
Proof.
  assert (A : allergies careful_request <> []) by discriminate.
  assert (H : fst (ai_recommend ascii_lower decimal_int loads_fragment (answers sorted_reply) catalog careful_request)
              = Returned (Ok200 (response_to careful_request
                                   [scored flat_white 6; scored pike_place 5]
                                   "Strongest first")))
    by (vm_compute; reflexivity).
  split; [exact A|]. split; [exact H|].
  exact (no_allergen_returned ascii_lower decimal_int loads_fragment
           (answers sorted_reply) catalog careful_request _ A H).
Defined.

(** C3, a run: the fallback of the customer who disliked product 7 is made
    of products 1, 4 and 6. *)
Lemma no_disliked_returned_witness :
  disliked_ids careful_request <> []
  /\ fst (ai_recommend ascii_lower decimal_int loads_fragment (answers garbled_reply) catalog careful_request)
     = Returned (Ok200 {| body_user_id := "ana@example.com"; body_query := "a smooth coffee";
                          recommendations := [plain pike_place; plain flat_white; plain iced_coffee];
                          reasoning := JStr FALLBACK_REASONING; ai_model := None;
                          note := Some PARSING_FAILED_NOTE |})
  /\ forall r,
       In r [plain pike_place; plain flat_white; plain iced_coffee] ->
       ~ In (id (product r)) [7].
Proof.
  assert (D : disliked_ids careful_request <> []) by discriminate.
  assert (H : fst (ai_recommend ascii_lower decimal_int loads_fragment (answers garbled_reply) catalog careful_request)
              = Returned (Ok200 {| body_user_id := "ana@example.com";
                                   body_query := "a smooth coffee";
                                   recommendations :=
                                     [plain pike_place; plain flat_white; plain iced_coffee];
                                   reasoning := JStr FALLBACK_REASONING; ai_model := None;
                                   note := Some PARSING_FAILED_NOTE |}))
    by (vm_compute; reflexivity).
  split; [exact D|]. split; [exact H|].
  exact (no_disliked_returned ascii_lower decimal_int loads_fragment
           (answers garbled_reply) catalog careful_request _ D H).
Defined.

(** C4, a run: every product is disliked, nothing is asked of the
    service. *)
Lemma empty_filter_short_circuit_witness :
  filtered_products ascii_lower catalog picky_request = []
  /\ ai_recommend ascii_lower decimal_int loads_fragment (answers sorted_reply) catalog picky_request
     = (Returned (Ok200 (response_to picky_request [] NO_DRINKS_MATCH)), []).
Proof.
  assert (E : filtered_products ascii_lower catalog picky_request = [])
    by (vm_compute; reflexivity).
  split; [exact E|].
  exact (empty_filter_short_circuit ascii_lower decimal_int loads_fragment
           (answers sorted_reply) catalog picky_request E).
Defined.

(** C5, the failing reply.  A record whose confidence is text parses, and
    the comparison of line 847 raises [TypeError] out of the handler. *)
Theorem text_confidence_uncaught :
  loads_fragment text_confidence_reply
  = Loaded (JDict (parsed [entry (JInt 1) (JStr "high")] "A strong roast"))
  /\ fst (ai_recommend ascii_lower decimal_int loads_fragment (answers text_confidence_reply) catalog guest_request)
     = Uncaught TypeError.
Proof. split; vm_compute; reflexivity. Qed.

(** C6, the failing reply.  On a payload of five thousand opening
    brackets [json.loads] raises [RecursionError], which the [except]
    clause of line 880 does not name: the exception leaves the handler and
    no fallback is returned. *)
Theorem deep_nesting_uncaught :
  loads_fragment deep_reply = Raised RecursionError
  /\ fst (ai_recommend ascii_lower decimal_int loads_fragment (answers deep_reply) catalog guest_request)
     = Uncaught RecursionError.
Proof. split; vm_compute; reflexivity. Qed.

(** X24, a run: a payload that is not JSON. *)
Lemma parse_failure_fallback_witness :
  loads_fragment garbled_reply = JSONDecodeError
  /\ fst (ai_recommend ascii_lower decimal_int loads_fragment (answers garbled_reply) catalog guest_request)
     = Returned (Ok200 {| body_user_id := "guest"; body_query := "something strong";
                          recommendations := [plain pike_place; plain cappuccino; plain flat_white];
                          reasoning := JStr FALLBACK_REASONING; ai_model := None;
                          note := Some PARSING_FAILED_NOTE |}).
Proof.
  assert (L : loads_fragment garbled_reply = JSONDecodeError) by (vm_compute; reflexivity).
  split; [exact L|].
  exact (proj1 (parse_failure_fallback ascii_lower decimal_int loads_fragment
                  (answers garbled_reply) catalog guest_request garbled_reply
                  (guest_payload garbled_reply)) L).
Defined.

(** An integer literal of five thousand digits: [json.loads] raises
    [ValueError], which leaves the handler as well. *)
Example long_number_uncaught :
  loads_fragment long_number_reply = Raised ValueError
  /\ fst (ai_recommend ascii_lower decimal_int loads_fragment (answers long_number_reply) catalog guest_request)
     = Uncaught ValueError.
Proof. split; vm_compute; reflexivity. Qed.



(** C8, two runs: a 404 from the service, and a refused connection. *)
Lemma service_failures_witness :
  filtered_products ascii_lower catalog guest_request <> []
  /\ ai_recommend ascii_lower decimal_int loads_fragment (refuses 404) catalog guest_request
     = (Returned (Err500 (OllamaApiError "Ollama API error" 404)),
        [generate_call ascii_lower (filtered_products ascii_lower catalog guest_request)
           guest_request])
  /\ ai_recommend ascii_lower decimal_int loads_fragment unreachable catalog guest_request
     = (Returned (Err500 (CannotConnect
                            "Cannot connect to Ollama. Make sure Ollama is running."
                            "Connection refused")),
        [generate_call ascii_lower (filtered_products ascii_lower catalog guest_request)
           guest_request])
  /\ timeout (generate_call ascii_lower (filtered_products ascii_lower catalog guest_request)
                guest_request) = 90.
Proof.
  assert (N : filtered_products ascii_lower catalog guest_request <> [])
    by (vm_compute; discriminate).
  destruct (service_failures ascii_lower decimal_int loads_fragment
              (refuses 404) catalog guest_request N) as [C1 [T [S1 _]]].
  destruct (service_failures ascii_lower decimal_int loads_fragment
              unreachable catalog guest_request N) as [C2 [_ [_ R2]]].
  split; [exact N|]. split; [|split; [|exact T]].
  - rewrite (surjective_pairing (ai_recommend ascii_lower decimal_int loads_fragment (refuses 404) catalog guest_request)).
    rewrite C1, (S1 404 _ eq_refl); [reflexivity | discriminate].
  - rewrite (surjective_pairing (ai_recommend ascii_lower decimal_int loads_fragment unreachable catalog guest_request)).
    rewrite C2, (R2 _ eq_refl). reflexivity.
Defined.

(** C9, a run: the reply in descending order. *)
Lemma sorted_reply_sorted_response_witness :
  loads_fragment sorted_reply
  = Loaded (JDict (parsed [entry (JInt 3) (JInt 7); entry (JStr "4") (JInt 6);
                           entry (JInt 99) (JInt 6); entry (JInt 1) (JInt 5)]
                     "Strongest first"))
  /\ exists resp,
       fst (ai_recommend ascii_lower decimal_int loads_fragment (answers sorted_reply) catalog guest_request) = Returned (Ok200 resp)
       /\ Forall2 (from_entry decimal_int) (recommendations resp)
            [entry (JInt 3) (JInt 7); entry (JStr "4") (JInt 6); entry (JInt 1) (JInt 5)]
       /\ descending (recommendations resp).
Proof.
  assert (L : loads_fragment sorted_reply
              = Loaded (JDict (parsed [entry (JInt 3) (JInt 7); entry (JStr "4") (JInt 6);
                                       entry (JInt 99) (JInt 6); entry (JInt 1) (JInt 5)]
                                 "Strongest first")))
    by (vm_compute; reflexivity).
  split; [exact L|].
  destruct (sorted_reply_sorted_response ascii_lower decimal_int loads_fragment
              (answers sorted_reply) catalog guest_request sorted_reply
              (parsed [entry (JInt 3) (JInt 7); entry (JStr "4") (JInt 6);
                       entry (JInt 99) (JInt 6); entry (JInt 1) (JInt 5)] "Strongest first")
              [entry (JInt 3) (JInt 7); entry (JStr "4") (JInt 6);
               entry (JInt 99) (JInt 6); entry (JInt 1) (JInt 5)]
              (guest_payload sorted_reply) L eq_refl) as [resp [R [J S]]].
  - repeat constructor.
  - exists resp. split; [exact R|]. split; [exact J|]. apply S.
    repeat constructor; unfold entry_conf_ge, num_ge, Qle; simpl; lia.
Defined.

(** C10, counterexample.  The only entry of the reply is a record with
    confidence 6 whose identifier is text that [int] rejects: the entry is
    skipped and the response carries the fixed rationale of no strong
    matches, not the reasoning of the reply. *)
Lemma unconvertible_identifier_counterexample :
  loads_fragment named_reply
  = Loaded (JDict (parsed [entry (JStr "Pike Place Roast") (JInt 6)] "Try the house roast"))
  /\ within_5_7 (entry_confidence (entry (JStr "Pike Place Roast") (JInt 6))) = true
  /\ fst (ai_recommend ascii_lower decimal_int loads_fragment (answers named_reply) catalog guest_request)
     = Returned (Ok200 (response_to guest_request [] NO_STRONG_MATCHES))
  /\ JStr NO_STRONG_MATCHES <> JStr "Try the house roast".
Proof.
  split; [vm_compute; reflexivity|].
  split; [reflexivity|].
  split; [vm_compute; reflexivity | discriminate].
Qed.

(** C10, a run: confidence 6 for identifier 99, which no product has. *)
Lemma unmatched_reply_keeps_reasoning_witness :
  loads_fragment unknown_reply
  = Loaded (JDict (parsed [entry (JInt 99) (JInt 6)] "Try the seasonal special"))
  /\ fst (ai_recommend ascii_lower decimal_int loads_fragment (answers unknown_reply) catalog guest_request)
     = Returned (Ok200 (response_to guest_request [] "Try the seasonal special")).
Proof.
  assert (L : loads_fragment unknown_reply
              = Loaded (JDict (parsed [entry (JInt 99) (JInt 6)] "Try the seasonal special")))
    by (vm_compute; reflexivity).
  split; [exact L|].
  apply (unmatched_reply_keeps_reasoning ascii_lower decimal_int loads_fragment
           (answers unknown_reply) catalog guest_request unknown_reply _
           [entry (JInt 99) (JInt 6)] (JStr "Try the seasonal special")
           (guest_payload unknown_reply) L).
  - reflexivity.
  - reflexivity.
  - repeat constructor.
  - constructor. split; [discriminate | reflexivity].
  - constructor; [|constructor].
    intros rec_id E _. injection E as <-. vm_compute. repeat constructor.
Defined.

(** ** Further runs on the sample catalog *)

Example full_reply_runs :
  map (fun r => id (product r))
    (match fst (ai_recommend ascii_lower decimal_int loads_fragment
                  (answers full_reply) catalog avoiding_request) with
     | Returned (Ok200 resp) => recommendations resp
     | _ => []
     end) = [3; 4; 1]
  /\ map (fun r => id (product r))
       (match fst (ai_recommend ascii_lower decimal_int loads_fragment
                     (answers full_reply) catalog cold_request) with
        | Returned (Ok200 resp) => recommendations resp
        | _ => []
        end) = [7; 6].
Proof. split; vm_compute; reflexivity. Qed.

Lemma payload_of (data : Request) (text : string) :
  filtered_products ascii_lower catalog data <> [] ->
  success_payload ascii_lower (answers text) catalog data text.
Proof. intros N. split; [exact N|]. eexists. split; reflexivity. Defined.

(** X3, a run: nothing cold is offered to the guest who avoids it. *)
Lemma no_avoided_returned_witness :
  fst (ai_recommend ascii_lower decimal_int loads_fragment (answers full_reply) catalog avoiding_request)
  = Returned (Ok200 (response_to avoiding_request
                       [scored cappuccino 6; scored flat_white 5; scored pike_place 5]
                       "All of them"))
  /\ forall r avoid_item,
       In r [scored cappuccino 6; scored flat_white 5; scored pike_place 5] ->
       In avoid_item ["COLD"] ->
       str_in (ascii_lower avoid_item)
         (ascii_lower (name (product r) ++ " " ++ notes_text (product r) ++ " "
                       ++ category (product r))) = false.
Proof.
  assert (H : fst (ai_recommend ascii_lower decimal_int loads_fragment (answers full_reply) catalog avoiding_request)
              = Returned (Ok200 (response_to avoiding_request
                                   [scored cappuccino 6; scored flat_white 5;
                                    scored pike_place 5] "All of them")))
    by (vm_compute; reflexivity).
  split; [exact H|].
  exact (no_avoided_returned ascii_lower decimal_int loads_fragment
           (answers full_reply) catalog avoiding_request _ H).
Defined.

(** X4, a run: only cold coffees for the guest who asked for them. *)
Lemma category_restriction_witness :
  fst (ai_recommend ascii_lower decimal_int loads_fragment (answers full_reply) catalog cold_request)
  = Returned (Ok200 (response_to cold_request
                       [scored cold_brew 7; scored iced_coffee 6] "All of them"))
  /\ forall r, In r [scored cold_brew 7; scored iced_coffee 6] ->
               category (product r) = "Cold Coffees".
Proof.
  assert (H : fst (ai_recommend ascii_lower decimal_int loads_fragment (answers full_reply) catalog cold_request)
              = Returned (Ok200 (response_to cold_request
                                   [scored cold_brew 7; scored iced_coffee 6]
                                   "All of them")))
    by (vm_compute; reflexivity).
  split; [exact H|].
  destruct (category_restriction ascii_lower decimal_int loads_fragment
              (answers full_reply) catalog cold_request
              (response_to cold_request [scored cold_brew 7; scored iced_coffee 6]
                 "All of them")
              "Cold Coffees" eq_refl) as [C _].
  apply C; [discriminate | exact H].
Defined.

(** X5, a run: the careful customer's candidates are among the guest's. *)
Lemma stricter_request_fewer_candidates_witness :
  stricter guest_request careful_request
  /\ incl (filtered_products ascii_lower catalog careful_request)
       (filtered_products ascii_lower catalog guest_request).
Proof.
  assert (S : stricter guest_request careful_request).
  { repeat split; intros x []. }
  split; [exact S|].
  exact (stricter_request_fewer_candidates ascii_lower catalog
           guest_request careful_request S).
Defined.

(** X6, a run: an empty string in the allergy list. *)
Lemma empty_term_excludes_everything_witness :
  ai_recommend ascii_lower decimal_int loads_fragment (answers full_reply) catalog blank_allergy_request
  = (Returned (Ok200 (response_to blank_allergy_request [] NO_DRINKS_MATCH)), []).
Proof.
  apply (empty_term_excludes_everything ascii_lower decimal_int loads_fragment
           (answers full_reply) catalog blank_allergy_request eq_refl).
  left. right. left. reflexivity.
Defined.

(** X7, two runs: the sorted reply is answered, the reply with a textual
    confidence raises. *)
Lemma answered_unless_confidence_not_number_witness :
  (exists resp,
     fst (ai_recommend ascii_lower decimal_int loads_fragment (answers sorted_reply) catalog guest_request) = Returned (Ok200 resp))
  /\ fst (ai_recommend ascii_lower decimal_int loads_fragment (answers text_confidence_reply) catalog guest_request) = Uncaught TypeError.
Proof.
  assert (N : filtered_products ascii_lower catalog guest_request <> [])
    by (vm_compute; discriminate).
  split.
  - apply (answered_unless_confidence_not_number ascii_lower decimal_int loads_fragment
             (answers sorted_reply) catalog guest_request sorted_reply
             (parsed [entry (JInt 3) (JInt 7); entry (JStr "4") (JInt 6);
                      entry (JInt 99) (JInt 6); entry (JInt 1) (JInt 5)] "Strongest first")
             [entry (JInt 3) (JInt 7); entry (JStr "4") (JInt 6);
              entry (JInt 99) (JInt 6); entry (JInt 1) (JInt 5)]
             (payload_of guest_request sorted_reply N)).
    + vm_compute. reflexivity.
    + reflexivity.
    + repeat constructor.
  - apply (answered_unless_confidence_not_number ascii_lower decimal_int loads_fragment
             (answers text_confidence_reply) catalog guest_request text_confidence_reply
             (parsed [entry (JInt 1) (JStr "high")] "A strong roast")
             [entry (JInt 1) (JStr "high")]
             (payload_of guest_request text_confidence_reply N)).
    + vm_compute. reflexivity.
    + reflexivity.
    + constructor. reflexivity.
Defined.

(** X8, two runs: a reply that is a list, and a [null] candidate list. *)
Lemma wrong_shape_raises_witness :
  loads_fragment list_reply = Loaded (JList [JInt 1; JInt 2])
  /\ fst (ai_recommend ascii_lower decimal_int loads_fragment (answers list_reply) catalog guest_request) = Uncaught AttributeError
  /\ loads_fragment null_candidates_reply = Loaded (JDict [("recommendations", JNull)])
  /\ fst (ai_recommend ascii_lower decimal_int loads_fragment (answers null_candidates_reply) catalog guest_request) = Uncaught TypeError.
Proof.
  assert (N : filtered_products ascii_lower catalog guest_request <> [])
    by (vm_compute; discriminate).
  assert (L1 : loads_fragment list_reply = Loaded (JList [JInt 1; JInt 2]))
    by (vm_compute; reflexivity).
  assert (L2 : loads_fragment null_candidates_reply = Loaded (JDict [("recommendations", JNull)]))
    by (vm_compute; reflexivity).
  destruct (wrong_shape_raises ascii_lower decimal_int loads_fragment
              (answers list_reply) catalog guest_request list_reply _
              (payload_of guest_request list_reply N) L1) as [A _].
  destruct (wrong_shape_raises ascii_lower decimal_int loads_fragment
              (answers null_candidates_reply) catalog guest_request null_candidates_reply _
              (payload_of guest_request null_candidates_reply N) L2) as [_ T].
  split; [exact L1|]. split; [exact (A eq_refl)|]. split; [exact L2|].
  exact (T _ eq_refl eq_refl).
Defined.

(** X9, a run: the candidate list is the text [none]. *)
Lemma text_or_object_candidates_are_no_matches_witness :
  loads_fragment text_candidates_reply = Loaded (JDict [("recommendations", JStr "none")])
  /\ fst (ai_recommend ascii_lower decimal_int loads_fragment (answers text_candidates_reply) catalog guest_request)
     = Returned (Ok200 (response_to guest_request [] NO_STRONG_MATCHES)).
Proof.
  assert (N : filtered_products ascii_lower catalog guest_request <> [])
    by (vm_compute; discriminate).
  assert (L : loads_fragment text_candidates_reply
              = Loaded (JDict [("recommendations", JStr "none")]))
    by (vm_compute; reflexivity).
  split; [exact L|].
  apply (text_or_object_candidates_are_no_matches ascii_lower decimal_int loads_fragment
           (answers text_candidates_reply) catalog guest_request text_candidates_reply _
           (payload_of guest_request text_candidates_reply N) L).
  left. exists "none". reflexivity.
Defined.

(** X10, a run: the service answers 200 without a [response] key. *)
Lemma missing_payload_is_no_matches_witness :
  fst (ai_recommend ascii_lower decimal_int loads_fragment silent catalog guest_request)
  = Returned (Ok200 (response_to guest_request [] NO_STRONG_MATCHES)).
Proof.
  apply (missing_payload_is_no_matches ascii_lower decimal_int loads_fragment
           silent catalog guest_request
           [("model", JStr "deepseek-r1:8b"); ("done", JBool true)]).
  - vm_compute. discriminate.
  - reflexivity.
  - reflexivity.
  - vm_compute. reflexivity.
Defined.

(** X11, a run: three recommendations from the four entries of the sorted
    reply. *)
Lemma recommendations_come_from_the_reply_witness :
  (exists kept,
     subseq kept [entry (JInt 3) (JInt 7); entry (JStr "4") (JInt 6);
                  entry (JInt 99) (JInt 6); entry (JInt 1) (JInt 5)]
     /\ Forall2 (from_entry decimal_int)
          [scored cappuccino 7; scored flat_white 6; scored pike_place 5] kept)
  /\ (List.length [scored cappuccino 7; scored flat_white 6; scored pike_place 5] <= 4)%nat.
Proof.
  assert (N : filtered_products ascii_lower catalog guest_request <> [])
    by (vm_compute; discriminate).
  apply (recommendations_come_from_the_reply ascii_lower decimal_int loads_fragment
           (answers sorted_reply) catalog guest_request sorted_reply
           (parsed [entry (JInt 3) (JInt 7); entry (JStr "4") (JInt 6);
                    entry (JInt 99) (JInt 6); entry (JInt 1) (JInt 5)] "Strongest first")
           [entry (JInt 3) (JInt 7); entry (JStr "4") (JInt 6);
            entry (JInt 99) (JInt 6); entry (JInt 1) (JInt 5)]
           (response_to guest_request
              [scored cappuccino 7; scored flat_white 6; scored pike_place 5]
              "Strongest first")
           (payload_of guest_request sorted_reply N)).
  - vm_compute. reflexivity.
  - reflexivity.
  - vm_compute. reflexivity.
Defined.

(** X12, a run: the answer to the careful customer. *)
Lemma answers_echo_the_request_witness :
  fst (ai_recommend ascii_lower decimal_int loads_fragment (answers sorted_reply) catalog careful_request)
  = Returned (Ok200 (response_to careful_request
                       [scored flat_white 6; scored pike_place 5] "Strongest first"))
  /\ body_user_id (response_to careful_request
                     [scored flat_white 6; scored pike_place 5] "Strongest first")
     = "ana@example.com"
  /\ body_query (response_to careful_request
                   [scored flat_white 6; scored pike_place 5] "Strongest first")
     = "a smooth coffee".
Proof.
  assert (H : fst (ai_recommend ascii_lower decimal_int loads_fragment (answers sorted_reply) catalog careful_request)
              = Returned (Ok200 (response_to careful_request
                                   [scored flat_white 6; scored pike_place 5]
                                   "Strongest first")))
    by (vm_compute; reflexivity).
  destruct (answers_echo_the_request ascii_lower decimal_int loads_fragment
              (answers sorted_reply) catalog careful_request _ H) as [U [Q _]].
  split; [exact H|]. split; assumption.
Defined.

(** X13, a run: the flat white is on the menu sent for the careful
    customer. *)
Lemma prompt_lists_every_candidate_witness :
  snd (ai_recommend ascii_lower decimal_int loads_fragment (answers sorted_reply) catalog careful_request)
  = [generate_call ascii_lower (filtered_products ascii_lower catalog careful_request)
       careful_request]
  /\ str_in "4. Flat White (Hot Coffees) - Bold ristretto shots, microfoam"
       (prompt (generate_call ascii_lower
                  (filtered_products ascii_lower catalog careful_request) careful_request))
     = true.
Proof.
  assert (C : snd (ai_recommend ascii_lower decimal_int loads_fragment (answers sorted_reply) catalog careful_request)
              = [generate_call ascii_lower
                   (filtered_products ascii_lower catalog careful_request) careful_request])
    by reflexivity.
  split; [exact C|].
  destruct (prompt_lists_every_candidate ascii_lower decimal_int loads_fragment
              (answers sorted_reply) catalog careful_request
              (generate_call ascii_lower
                 (filtered_products ascii_lower catalog careful_request) careful_request))
    as [_ M].
  - rewrite C. left. reflexivity.
  - apply (M flat_white). vm_compute. auto.
Defined.

(** ** Administrator accounts *)

Lemma set_password_usernames (table : list Admin.Account) (user new now : string) :
  map Admin.username (Admin.set_password table user new now) = map Admin.username table.
Proof.
  induction table as [|a rest IH]; simpl; [reflexivity|].
  destruct (String.eqb (Admin.username a) user); simpl; congruence.
Qed.

Lemma set_password_rows (table : list Admin.Account) (user new now : string)
    (a' : Admin.Account) :
  In a' (Admin.set_password table user new now) ->
  In a' table \/ (Admin.username a' = user /\ Admin.password a' = new).
Proof.
  induction table as [|a rest IH]; simpl; [tauto|].
  destruct (String.eqb (Admin.username a) user) eqn:E.
  - apply String.eqb_eq in E. intros [<- | I]; simpl; auto.
  - intros [<- | I]; [auto|]. destruct (IH I); auto.
Qed.

Lemma set_password_find (table : list Admin.Account) (user new now : string)
    (admin : Admin.Account) :
  find (fun a => String.eqb (Admin.username a) user) table = Some admin ->
  exists admin',
    find (fun a => String.eqb (Admin.username a) user)
      (Admin.set_password table user new now) = Some admin'
    /\ Admin.username admin' = user /\ Admin.password admin' = new.
Proof.
  induction table as [|a rest IH]; simpl; [discriminate|].
  destruct (String.eqb (Admin.username a) user) eqn:E.
  - intros _. simpl. rewrite E. eexists. split; [reflexivity|].
    apply String.eqb_eq in E. simpl. auto.
  - intros F. simpl. rewrite E. exact (IH F).
Qed.

(** What a 200 from [change_admin_password] implies. *)
Lemma change_password_ok (table table' : list Admin.Account) (s : Web.Session)
    (data : Admin.PasswordForm) (now : string) (reply : Web.Reply) :
  Admin.change_admin_password table s data now = (reply, table') ->
  Web.code reply = 200 ->
  exists user admin,
    Web.admin_id s = Some user
    /\ user <> EmptyString
    /\ find (fun a => String.eqb (Admin.username a) user) table = Some admin
    /\ Admin.password admin = Admin.current_password data
    /\ Admin.new_password data = Admin.confirm_password data
    /\ 6 <= Web.py_len (Admin.new_password data)
    /\ table' = Admin.set_password table user (Admin.new_password data) now.
Proof.
  unfold Admin.change_admin_password, Web.require_admin_auth.
  destruct (Web.admin_id s) as [[|c user]|] eqn:A; simpl;
    try (intros H C; injection H as <- <-; discriminate C).
  destruct (Admin.is_empty (Admin.current_password data)
            || Admin.is_empty (Admin.new_password data)
            || Admin.is_empty (Admin.confirm_password data));
    [intros H C; injection H as <- <-; discriminate C|].
  destruct (String.eqb (Admin.new_password data) (Admin.confirm_password data)) eqn:M;
    simpl; [|intros H C; injection H as <- <-; discriminate C].
  destruct (Web.py_len (Admin.new_password data) <? 6) eqn:L;
    [intros H C; injection H as <- <-; discriminate C|].
  destruct (find (fun a => String.eqb (Admin.username a) (String c user)) table)
    as [admin|] eqn:F; [|intros H C; injection H as <- <-; discriminate C].
  destruct (String.eqb (Admin.password admin) (Admin.current_password data)) eqn:P;
    simpl; [|intros H C; injection H as <- <-; discriminate C].
  intros H _. injection H as _ <-.
  exists (String c user), admin.
  apply String.eqb_eq in M. apply String.eqb_eq in P. apply Z.ltb_ge in L.
  repeat split; try assumption; try reflexivity. discriminate.
Qed.

(** X14.  [change_admin_password] writes to the table only when it answers
    200, and it answers 200 only for a logged-in administrator whose row
    exists and holds the current password given, with a new password that
    equals its confirmation and has at least six characters; then user
    names are untouched and every row is an old row or the
    administrator's row with the new password. *)
Theorem password_changes_only_after_all_checks (table : list Admin.Account)
    (s : Web.Session) (data : Admin.PasswordForm) (now : string) :
  (Web.code (fst (Admin.change_admin_password table s data now)) <> 200 ->
   snd (Admin.change_admin_password table s data now) = table)
  /\ (Web.code (fst (Admin.change_admin_password table s data now)) = 200 ->
      exists user admin,
        Web.admin_id s = Some user
        /\ In admin table /\ Admin.username admin = user
        /\ Admin.password admin = Admin.current_password data
        /\ Admin.new_password data = Admin.confirm_password data
        /\ 6 <= Web.py_len (Admin.new_password data)
        /\ map Admin.username (snd (Admin.change_admin_password table s data now))
           = map Admin.username table
        /\ forall a',
             In a' (snd (Admin.change_admin_password table s data now)) ->
             In a' table
             \/ (Admin.username a' = user
                 /\ Admin.password a' = Admin.new_password data)).
Proof.
  destruct (Admin.change_admin_password table s data now) as [reply table'] eqn:H.
  simpl. split.
  - intros C. revert H C.
    unfold Admin.change_admin_password.
    destruct (Web.require_admin_auth s); [intros H; injection H as <- <-; reflexivity|].
    destruct (_ || _ || _); [intros H; injection H as <- <-; reflexivity|].
    destruct (negb _); [intros H; injection H as <- <-; reflexivity|].
    destruct (_ <? _); [intros H; injection H as <- <-; reflexivity|].
    destruct (Web.admin_id s); [|intros H; injection H as <- <-; reflexivity].
    destruct (find _ table); [|intros H; injection H as <- <-; reflexivity].
    destruct (negb _); intros H; injection H as <- <-; [reflexivity|].
    intros C. exfalso. apply C. reflexivity.
  - intros C. destruct (change_password_ok _ _ _ _ _ _ H C)
      as [user [admin [A [_ [F [P [M [L ->]]]]]]]].
    exists user, admin. apply find_some in F. destruct F as [I E].
    apply String.eqb_eq in E.
    repeat split; try assumption.
    + apply set_password_usernames.
    + apply set_password_rows.
Qed.

Lemma unique_username_row (table : list Admin.Account) (a b : Admin.Account) :
  NoDup (map Admin.username table) ->
  In a table -> In b table -> Admin.username a = Admin.username b -> a = b.
Proof.
  induction table as [|x rest IH]; simpl; [tauto|].
  intros N. inversion N as [|? ? Nx Nr]; subst.
  intros [<- | Ia] [<- | Ib] E; auto.
  - exfalso. apply Nx. rewrite E. apply in_map. exact Ib.
  - exfalso. apply Nx. rewrite <- E. apply in_map. exact Ia.
Qed.

(** X15.  After a successful change of password, and with user names
    unique in the table as the schema demands, the administrator logs in
    with the new password, and no longer with the old one when the two
    differ. *)
Theorem changed_password_logs_in (strip : string -> string) (table : list Admin.Account)
    (s s0 : Web.Session) (data : Admin.PasswordForm) (now user : string) :
  NoDup (map Admin.username table) ->
  Web.code (fst (Admin.change_admin_password table s data now)) = 200 ->
  Web.admin_id s = Some user ->
  strip user = user ->
  let table' := snd (Admin.change_admin_password table s data now) in
  (Web.code (fst (Admin.admin_login strip table' s0
                    {| Admin.form_username := user;
                       Admin.form_password := Admin.new_password data |})) = 200
   /\ Web.admin_id (snd (Admin.admin_login strip table' s0
                           {| Admin.form_username := user;
                              Admin.form_password := Admin.new_password data |}))
      = Some user)
  /\ (Admin.current_password data <> Admin.new_password data ->
      Admin.admin_login strip table' s0
        {| Admin.form_username := user;
           Admin.form_password := Admin.current_password data |}
      = (Admin.error "Invalid username or password" 401, s0)).
Proof.
  intros N C A S.
  destruct (Admin.change_admin_password table s data now) as [reply table'] eqn:H.
  simpl in C. simpl.
  destruct (change_password_ok _ _ _ _ _ _ H C)
    as [user' [admin [A' [_ [F [P [M [L ->]]]]]]]].
  rewrite A in A'. injection A' as <-.
  assert (N' : NoDup (map Admin.username
                        (Admin.set_password table user (Admin.new_password data) now)))
    by (rewrite set_password_usernames; exact N).
  destruct (set_password_find table user (Admin.new_password data) now admin F)
    as [admin' [F' [U' P']]].
  apply find_some in F'. destruct F' as [I' _].
  split.
  - unfold Admin.admin_login. simpl. rewrite S.
    match goal with
    | |- context [find ?f ?l] => destruct (find f l) as [found|] eqn:X
    end.
    + simpl. split; [reflexivity|]. apply find_some in X. destruct X as [_ E].
      apply andb_prop in E. destruct E as [E _]. apply String.eqb_eq in E.
      congruence.
    + exfalso. apply (find_none _ _ X) in I'.
      rewrite U', P', !String.eqb_refl in I'. discriminate.
  - intros D. unfold Admin.admin_login. simpl. rewrite S.
    match goal with
    | |- context [find ?f ?l] => destruct (find f l) as [found|] eqn:X
    end; [|reflexivity].
    exfalso. apply find_some in X. destruct X as [If E].
    apply andb_prop in E. destruct E as [Eu Ep].
    apply String.eqb_eq in Eu. apply String.eqb_eq in Ep.
    assert (found = admin') by (apply (unique_username_row _ _ _ N' If I'); congruence).
    subst found. congruence.
Qed.

(** X16.  Logging out ends the administrator's session whatever it was:
    the guard of the admin endpoints answers 401 afterwards and the session
    check reports no authentication, while the vendor keys of the session
    are kept; and a successful login as a user with a non-empty name passes
    the guard. *)
Theorem logout_ends_the_admin_session (strip : string -> string)
    (table : list Admin.Account) (s : Web.Session) (data : Admin.LoginForm) :
  (exists denied,
     Web.require_admin_auth (snd (Admin.admin_logout s)) = Some denied
     /\ Web.code denied = 401)
  /\ Web.code (Admin.admin_session (snd (Admin.admin_logout s))) = 401
  /\ Web.vendor_id (snd (Admin.admin_logout s)) = Web.vendor_id s
  /\ Web.business_name (snd (Admin.admin_logout s)) = Web.business_name s
  /\ (Web.code (fst (Admin.admin_login strip table s data)) = 200 ->
      strip (Admin.form_username data) <> EmptyString ->
      Web.require_admin_auth (snd (Admin.admin_login strip table s data)) = None
      /\ Web.admin_id (snd (Admin.admin_login strip table s data))
         = Some (strip (Admin.form_username data))).
Proof.
  split; [eexists; split; reflexivity|]. repeat split.
  - revert H. unfold Admin.admin_login.
    destruct (find _ table) as [admin|] eqn:F; simpl; [|discriminate]. intros _.
    apply find_some in F. destruct F as [_ E]. apply andb_prop in E.
    destruct E as [E _]. apply String.eqb_eq in E.
    unfold Web.require_admin_auth. simpl. rewrite E.
    destruct (strip (Admin.form_username data)); [congruence | reflexivity].
  - revert H. unfold Admin.admin_login.
    destruct (find _ table) as [admin|] eqn:F; simpl; [|discriminate]. intros _.
    apply find_some in F. destruct F as [_ E]. apply andb_prop in E.
    destruct E as [E _]. apply String.eqb_eq in E. congruence.
Qed.

(** X14, runs: a password of five characters is refused and nothing is
    written; a good form changes one row. *)
Example change_password_runs :
  Admin.change_admin_password admins admin_logged_in
    {| Admin.current_password := "admin123"; Admin.new_password := "short";
       Admin.confirm_password := "short" |} "2025-06-01T12:00:00"
  = (Admin.error "Password must be at least 6 characters" 400, admins)
  /\ Admin.change_admin_password admins Web.anonymous new_secret "2025-06-01T12:00:00"
     = (Admin.error "Unauthorized. Admin login required." 401, admins)
  /\ map (fun a => (Admin.password a, Admin.updated_at a))
       (snd (Admin.change_admin_password admins admin_logged_in new_secret
               "2025-06-01T12:00:00"))
     = [("s3cr3t!", "2025-06-01T12:00:00"); ("letmein", "2025-01-02T00:00:00")].
Proof. repeat split. Qed.

(** X15, a run: the super administrator changes the password and logs in
    with it. *)
Lemma changed_password_logs_in_witness :
  Web.code (fst (Admin.admin_login ASCII_STRIP
                   (snd (Admin.change_admin_password admins admin_logged_in new_secret
                           "2025-06-01T12:00:00"))
                   Web.anonymous
                   {| Admin.form_username := "olving82@gmail.com";
                      Admin.form_password := "s3cr3t!" |})) = 200
  /\ Admin.admin_login ASCII_STRIP
       (snd (Admin.change_admin_password admins admin_logged_in new_secret
               "2025-06-01T12:00:00"))
       Web.anonymous
       {| Admin.form_username := "olving82@gmail.com"; Admin.form_password := "admin123" |}
     = (Admin.error "Invalid username or password" 401, Web.anonymous).
Proof.
  assert (N : NoDup (map Admin.username admins)).
  { repeat constructor; simpl; intuition discriminate. }
  destruct (changed_password_logs_in ASCII_STRIP admins admin_logged_in Web.anonymous
              new_secret "2025-06-01T12:00:00" "olving82@gmail.com"
              N eq_refl eq_refl eq_refl) as [[L _] O].
  split; [exact L|]. apply O. discriminate.
Defined.

(** X16, a run: login, guard, logout, guard. *)
Example login_logout_runs :
  Web.require_admin_auth
    (snd (Admin.admin_login ASCII_STRIP admins Web.anonymous
            {| Admin.form_username := " ops@example.com "; Admin.form_password := "letmein" |}))
  = None
  /\ Web.require_admin_auth
       (snd (Admin.admin_logout
               (snd (Admin.admin_login ASCII_STRIP admins Web.anonymous
                       {| Admin.form_username := " ops@example.com ";
                          Admin.form_password := "letmein" |}))))
     = Some (Admin.error "Unauthorized. Admin login required." 401)
  /\ Web.code (fst (Admin.admin_login ASCII_STRIP admins Web.anonymous
                      {| Admin.form_username := "ops@example.com";
                         Admin.form_password := "LETMEIN" |})) = 401.
Proof. repeat split. Qed.

(** ** Outgoing mail *)

(** What [send_email] does, by configuration. *)
Lemma send_email_effects (cfg : Email.Config) (net : Email.Transports)
    (to subject body : string) (html_body : option string) :
  let result := fst (Email.send_email cfg net to subject body html_body) in
  let effects := snd (Email.send_email cfg net to subject body html_body) in
  (List.length effects <= 1)%nat
  /\ Forall (addressed to) effects
  /\ (forall key m,
        In (Email.SendGrid key m) effects ->
        Email.EMAIL_PROVIDER cfg = "sendgrid"
        /\ key = Email.SENDGRID_API_KEY cfg /\ key <> EmptyString
        /\ In ("text/plain", body) (Email.parts m))
  /\ (forall host port user password m,
        In (Email.Smtp host port user password m) effects ->
        Email.EMAIL_PROVIDER cfg = "smtp"
        /\ user = Email.SMTP_USER cfg /\ user <> EmptyString
        /\ password = Email.SMTP_PASSWORD cfg /\ password <> EmptyString
        /\ In ("plain", body) (Email.parts m))
  /\ (forall lines,
        In (Email.Printed lines) effects ->
        Email.EMAIL_PROVIDER cfg <> "sendgrid" /\ Email.EMAIL_PROVIDER cfg <> "smtp"
        /\ dict_get_default
             match result with JDict kv => kv | _ => [] end "success" JNull = JBool true)
  /\ (effects = [] ->
      dict_get_default
        match result with JDict kv => kv | _ => [] end "success" JNull = JBool false).
Proof.
  unfold Email.send_email.
  destruct (String.eqb (Email.EMAIL_PROVIDER cfg) "sendgrid") eqn:G.
  - apply String.eqb_eq in G. unfold Email._send_via_sendgrid.
    destruct (Email.SENDGRID_API_KEY cfg) as [|c key] eqn:K; cbn [Email.is_empty fst snd].
    + cbn [List.length]. split; [lia|]. split; [constructor|].
      split; [intros ? ? []|]. split; [intros ? ? ? ? ? []|]. split; [intros ? []|].
      intros _. reflexivity.
    + destruct (Email.sendgrid net (String c key) _) eqn:O; cbn [fst snd List.length].
      * split; [lia|]. split; [repeat constructor|].
        split; [intros ? ? [E | []]; injection E as <- <-; cbn; repeat split; auto; discriminate|].
        split; [intros ? ? ? ? ? [E | []]; discriminate E|].
        split; [intros ? [E | []]; discriminate E|]. discriminate.
      * split; [lia|]. split; [repeat constructor|].
        split; [intros ? ? [E | []]; injection E as <- <-; cbn; repeat split; auto; discriminate|].
        split; [intros ? ? ? ? ? [E | []]; discriminate E|].
        split; [intros ? [E | []]; discriminate E|]. discriminate.
  - destruct (String.eqb (Email.EMAIL_PROVIDER cfg) "smtp") eqn:S.
    + apply String.eqb_eq in S. unfold Email._send_via_smtp.
      destruct (Email.SMTP_USER cfg) as [|c user] eqn:U;
        [|destruct (Email.SMTP_PASSWORD cfg) as [|c' pw] eqn:P];
        cbn [Email.is_empty orb fst snd].
      * cbn [List.length]. split; [lia|]. split; [constructor|].
        split; [intros ? ? []|]. split; [intros ? ? ? ? ? []|]. split; [intros ? []|].
        intros _. reflexivity.
      * cbn [List.length]. split; [lia|]. split; [constructor|].
        split; [intros ? ? []|]. split; [intros ? ? ? ? ? []|]. split; [intros ? []|].
        intros _. reflexivity.
      * destruct (Email.smtp net _ _ _ _ _) eqn:O; cbn [fst snd List.length].
        -- split; [lia|]. split; [repeat constructor|].
           split; [intros ? ? [E | []]; discriminate E|].
           split; [intros ? ? ? ? ? [E | []]; injection E as <- <- <- <- <-; cbn;
                   repeat split; auto; discriminate|].
           split; [intros ? [E | []]; discriminate E|]. discriminate.
        -- split; [lia|]. split; [repeat constructor|].
           split; [intros ? ? [E | []]; discriminate E|].
           split; [intros ? ? ? ? ? [E | []]; injection E as <- <- <- <- <-; cbn;
                   repeat split; auto; discriminate|].
           split; [intros ? [E | []]; discriminate E|]. discriminate.
    + apply String.eqb_neq in G. apply String.eqb_neq in S.
      unfold Email._send_mock. cbn [fst snd List.length].
      split; [lia|]. split; [constructor; [|constructor]; cbn; do 3 right; left; reflexivity|].
      split; [intros ? ? [E | []]; discriminate E|].
      split; [intros ? ? ? ? ? [E | []]; discriminate E|].
      split; [intros ? _; repeat split; auto|]. discriminate.
Qed.

(** X17.  [send_email] contacts a transport exactly when it is configured:
    with the provider [sendgrid] and the key set it hands SendGrid one
    message, with the provider [smtp] and both credentials set it hands
    the SMTP server one message, each for the recipient and the subject
    given and with the plain body as a part, and it reports success
    exactly when the transport accepts the message; a provider without
    its settings sends nothing and reports failure, and any other provider
    only prints the mail, body included, and reports success. *)
Theorem mail_leaves_only_when_configured (cfg : Email.Config) (net : Email.Transports)
    (to subject body : string) (html_body : option string) :
  let result := fst (Email.send_email cfg net to subject body html_body) in
  let effects := snd (Email.send_email cfg net to subject body html_body) in
  let success :=
    dict_get_default match result with JDict kv => kv | _ => [] end "success" JNull in
  (List.length effects <= 1)%nat
  /\ Forall (addressed to) effects
  /\ (forall key m,
        In (Email.SendGrid key m) effects ->
        Email.EMAIL_PROVIDER cfg = "sendgrid"
        /\ key = Email.SENDGRID_API_KEY cfg /\ key <> EmptyString
        /\ In ("text/plain", body) (Email.parts m))
  /\ (forall host port user password m,
        In (Email.Smtp host port user password m) effects ->
        Email.EMAIL_PROVIDER cfg = "smtp"
        /\ user = Email.SMTP_USER cfg /\ user <> EmptyString
        /\ password = Email.SMTP_PASSWORD cfg /\ password <> EmptyString
        /\ In ("plain", body) (Email.parts m))
  /\ (forall lines,
        In (Email.Printed lines) effects ->
        Email.EMAIL_PROVIDER cfg <> "sendgrid" /\ Email.EMAIL_PROVIDER cfg <> "smtp"
        /\ success = JBool true)
  /\ (effects = [] -> success = JBool false)
  /\ (Email.EMAIL_PROVIDER cfg = "sendgrid" ->
      Email.SENDGRID_API_KEY cfg <> EmptyString ->
      exists m,
        effects = [Email.SendGrid (Email.SENDGRID_API_KEY cfg) m]
        /\ Email.to_email m = to /\ Email.subject m = subject
        /\ (success = JBool true
            <-> exists status_code,
                  Email.sendgrid net (Email.SENDGRID_API_KEY cfg) m = inl status_code))
  /\ (Email.EMAIL_PROVIDER cfg = "smtp" ->
      Email.SMTP_USER cfg <> EmptyString ->
      Email.SMTP_PASSWORD cfg <> EmptyString ->
      exists m,
        effects = [Email.Smtp (Email.SMTP_HOST cfg) (Email.SMTP_PORT cfg)
                     (Email.SMTP_USER cfg) (Email.SMTP_PASSWORD cfg) m]
        /\ Email.to_email m = to /\ Email.subject m = subject
        /\ (success = JBool true
            <-> Email.smtp net (Email.SMTP_HOST cfg) (Email.SMTP_PORT cfg)
                  (Email.SMTP_USER cfg) (Email.SMTP_PASSWORD cfg) m = None))
  /\ (Email.EMAIL_PROVIDER cfg = "sendgrid" ->
      Email.SENDGRID_API_KEY cfg = EmptyString -> effects = [])
  /\ (Email.EMAIL_PROVIDER cfg = "smtp" ->
      Email.SMTP_USER cfg = EmptyString \/ Email.SMTP_PASSWORD cfg = EmptyString ->
      effects = [])
  /\ (Email.EMAIL_PROVIDER cfg <> "sendgrid" ->
      Email.EMAIL_PROVIDER cfg <> "smtp" ->
      exists lines,
        effects = [Email.Printed lines] /\ In body lines /\ success = JBool true).
Proof.
  cbv zeta.
  destruct (send_email_effects cfg net to subject body html_body)
    as [A [B [C [D [E F]]]]].
  do 6 (split; [assumption|]).
  unfold Email.send_email.
  split; [|split; [|split; [|split]]].
  - intros G K. rewrite G. cbn [String.eqb Ascii.eqb Bool.eqb].
    unfold Email._send_via_sendgrid.
    destruct (Email.SENDGRID_API_KEY cfg) as [|c key]; [congruence|].
    cbn [Email.is_empty].
    match goal with
    | |- context [Email.sendgrid net ?k ?m] =>
        exists m; destruct (Email.sendgrid net k m) as [status_code|e] eqn:O
    end; cbn [fst snd].
    + repeat split; auto. exists status_code. reflexivity.
    + repeat split; auto; [discriminate|]. intros [status_code X]. discriminate X.
  - intros G U W. rewrite G. cbn [String.eqb Ascii.eqb Bool.eqb].
    unfold Email._send_via_smtp.
    destruct (Email.SMTP_USER cfg) as [|c user]; [congruence|].
    destruct (Email.SMTP_PASSWORD cfg) as [|c' pw]; [congruence|].
    cbn [Email.is_empty orb].
    match goal with
    | |- context [Email.smtp net ?h ?p ?u ?w ?m] =>
        exists m; destruct (Email.smtp net h p u w m) as [e|] eqn:O
    end; cbn [fst snd].
    + repeat split; auto; discriminate.
    + repeat split; auto.
  - intros G K. rewrite G. cbn [String.eqb Ascii.eqb Bool.eqb].
    unfold Email._send_via_sendgrid. rewrite K. reflexivity.
  - intros G K. rewrite G. cbn [String.eqb Ascii.eqb Bool.eqb].
    unfold Email._send_via_smtp. destruct K as [-> | ->]; [reflexivity|].
    rewrite orb_true_r. reflexivity.
  - intros G S. apply String.eqb_neq in G. apply String.eqb_neq in S.
    rewrite G, S. unfold Email._send_mock. cbn [fst snd].
    eexists. split; [reflexivity|]. split; [|reflexivity].
    cbn. do 7 right. left. reflexivity.
Qed.

(** ** Vendor accounts *)

Lemma transition_refused (cfg : Email.Config) (net : Email.Transports)
    (table : list Vendor.Account) (s : Web.Session) (vendor_id : Z) (now : string)
    (change : Vendor.Account -> Vendor.Account)
    (mail : Vendor.Account -> string * string * string) (message : string) :
  Web.truthy_text (Web.admin_id s) = false ->
  Vendor.transition cfg net table s vendor_id now change mail message
  = ({| Web.body := JDict [("error", JStr "Unauthorized. Admin login required.")];
        Web.code := 401 |}, table, []).
Proof.
  intros A. unfold Vendor.transition, Web.require_admin_auth. rewrite A. reflexivity.
Qed.

Lemma transition_missing (cfg : Email.Config) (net : Email.Transports)
    (table : list Vendor.Account) (s : Web.Session) (vendor_id : Z) (now : string)
    (change : Vendor.Account -> Vendor.Account)
    (mail : Vendor.Account -> string * string * string) (message : string) :
  Web.truthy_text (Web.admin_id s) = true ->
  find (fun v => Vendor.id v =? vendor_id) table = None ->
  Vendor.transition cfg net table s vendor_id now change mail message
  = ({| Web.body := JDict [("error", JStr "Vendor not found")]; Web.code := 404 |},
     table, []).
Proof.
  intros A F. unfold Vendor.transition, Web.require_admin_auth. rewrite A, F. reflexivity.
Qed.

Lemma transition_done (cfg : Email.Config) (net : Email.Transports)
    (table : list Vendor.Account) (s : Web.Session) (vendor_id : Z) (now : string)
    (change : Vendor.Account -> Vendor.Account)
    (mail : Vendor.Account -> string * string * string) (message : string)
    (old : Vendor.Account) :
  Web.truthy_text (Web.admin_id s) = true ->
  find (fun v => Vendor.id v =? vendor_id) table = Some old ->
  let vendor := Vendor.commit now old (change old) in
  let sent :=
    Email.send_email cfg net (Vendor.email vendor) (fst (fst (mail vendor)))
      (snd (fst (mail vendor))) (Some (snd (mail vendor))) in
  Vendor.transition cfg net table s vendor_id now change mail message
  = ({| Web.body := JDict [("message", JStr message);
                           ("vendor", Vendor.to_dict vendor);
                           ("email_status", fst sent)];
        Web.code := 200 |},
     Vendor.store table vendor_id vendor, snd sent).
Proof.
  intros A F. unfold Vendor.transition, Web.require_admin_auth. rewrite A, F.
  cbv zeta. destruct (mail _) as [[subject body] html_body]. cbn [fst snd].
  destruct (Email.send_email _ _ _ _ _ _). reflexivity.
Qed.

Lemma perform_shape (a : Vendor.Action) :
  exists change mail message,
    (forall cfg net table s vendor_id now,
       Vendor.perform cfg net table s vendor_id now a
       = Vendor.transition cfg net table s vendor_id now change mail message)
    /\ forall v,
         Vendor.status (change v) = Some (Vendor.target a)
         /\ reason_recorded a v (change v)
         /\ Vendor.id (change v) = Vendor.id v
         /\ Vendor.business_name (change v) = Vendor.business_name v
         /\ Vendor.email (change v) = Vendor.email v.
Proof.
  destruct a; do 3 eexists; (split; [intros; reflexivity|]);
    intros v; cbn; repeat split.
Qed.

Lemma commit_columns (now : string) (old new : Vendor.Account) :
  Vendor.id (Vendor.commit now old new) = Vendor.id new
  /\ Vendor.business_name (Vendor.commit now old new) = Vendor.business_name new
  /\ Vendor.email (Vendor.commit now old new) = Vendor.email new
  /\ Vendor.status (Vendor.commit now old new) = Vendor.status new
  /\ Vendor.reject_reason (Vendor.commit now old new) = Vendor.reject_reason new
  /\ Vendor.block_reason (Vendor.commit now old new) = Vendor.block_reason new
  /\ Vendor.suspend_reason (Vendor.commit now old new) = Vendor.suspend_reason new.
Proof. unfold Vendor.commit. destruct (_ && _); cbn; repeat split. Qed.

Lemma find_by_id (table : list Vendor.Account) (vendor_id : Z) (old : Vendor.Account) :
  NoDup (map Vendor.id table) -> In old table -> Vendor.id old = vendor_id ->
  find (fun v => Vendor.id v =? vendor_id) table = Some old.
Proof.
  induction table as [|v rest IH]; simpl; [tauto|].
  intros N. inversion N as [|? ? Nv Nr]; subst. intros [-> | I] E.
  - rewrite E, Z.eqb_refl. reflexivity.
  - destruct (Vendor.id v =? vendor_id) eqn:X; [|auto].
    exfalso. apply Z.eqb_eq in X. apply Nv. rewrite X, <- E. apply in_map. exact I.
Qed.

Lemma find_by_id_none (table : list Vendor.Account) (vendor_id : Z) :
  (forall v, In v table -> Vendor.id v <> vendor_id) ->
  find (fun v => Vendor.id v =? vendor_id) table = None.
Proof.
  intros H. apply find_all_false. apply Forall_forall. intros v I.
  apply Z.eqb_neq. exact (H v I).
Qed.

Lemma store_ids (table : list Vendor.Account) (vendor_id : Z) (new : Vendor.Account) :
  Vendor.id new = vendor_id ->
  map Vendor.id (Vendor.store table vendor_id new) = map Vendor.id table.
Proof.
  intros E. induction table as [|v rest IH]; simpl; [reflexivity|].
  destruct (Vendor.id v =? vendor_id) eqn:X; simpl; [|congruence].
  apply Z.eqb_eq in X. congruence.
Qed.

Lemma store_others (table : list Vendor.Account) (vendor_id : Z) (new v : Vendor.Account) :
  Vendor.id new = vendor_id -> Vendor.id v <> vendor_id ->
  (In v (Vendor.store table vendor_id new) <-> In v table).
Proof.
  intros E D. induction table as [|x rest IH]; simpl; [tauto|].
  destruct (Vendor.id x =? vendor_id) eqn:X; simpl.
  - apply Z.eqb_eq in X. split; intros [<- | I]; auto; congruence.
  - rewrite IH. tauto.
Qed.

Lemma store_new (table : list Vendor.Account) (vendor_id : Z) (new old : Vendor.Account) :
  find (fun v => Vendor.id v =? vendor_id) table = Some old ->
  In new (Vendor.store table vendor_id new).
Proof.
  induction table as [|x rest IH]; simpl; [discriminate|].
  destruct (Vendor.id x =? vendor_id); simpl; auto.
Qed.

(** X18.  Each of the six status requests is refused without any effect
    when no administrator is logged in (401) and when no vendor has the
    identifier (404): the table is unchanged and no mail is attempted. *)
Theorem refused_requests_change_nothing (cfg : Email.Config) (net : Email.Transports)
    (table : list Vendor.Account) (s : Web.Session) (vendor_id : Z) (now : string)
    (a : Vendor.Action) :
  (Web.truthy_text (Web.admin_id s) = false ->
   Vendor.perform cfg net table s vendor_id now a
   = ({| Web.body := JDict [("error", JStr "Unauthorized. Admin login required.")];
         Web.code := 401 |}, table, []))
  /\ (Web.truthy_text (Web.admin_id s) = true ->
      (forall v, In v table -> Vendor.id v <> vendor_id) ->
      Vendor.perform cfg net table s vendor_id now a
      = ({| Web.body := JDict [("error", JStr "Vendor not found")]; Web.code := 404 |},
         table, [])).
Proof.
  destruct (perform_shape a) as [change [mail [message [P _]]]]. rewrite P. split.
  - apply transition_refused.
  - intros A H. apply transition_missing; [exact A|]. apply find_by_id_none. exact H.
Qed.

(** X19.  A status request of a logged-in administrator for an existing
    vendor, identifiers being unique, is answered 200 whatever becomes of
    the mail; the vendor's row gets the status of the request and its
    reason, keeps its identifier, name and address, and is the row the
    reply shows; every other row is untouched; and at most one mail is
    attempted, for the vendor's address. *)
Theorem request_updates_one_vendor (cfg : Email.Config) (net : Email.Transports)
    (table : list Vendor.Account) (s : Web.Session) (vendor_id : Z) (now : string)
    (a : Vendor.Action) (old : Vendor.Account) :
  Web.truthy_text (Web.admin_id s) = true ->
  NoDup (map Vendor.id table) ->
  In old table ->
  Vendor.id old = vendor_id ->
  let reply := fst (fst (Vendor.perform cfg net table s vendor_id now a)) in
  let table' := snd (fst (Vendor.perform cfg net table s vendor_id now a)) in
  let effects := snd (Vendor.perform cfg net table s vendor_id now a) in
  Web.code reply = 200
  /\ map Vendor.id table' = map Vendor.id table
  /\ (forall v, Vendor.id v <> vendor_id -> (In v table' <-> In v table))
  /\ (exists new,
        In new table'
        /\ Vendor.id new = vendor_id
        /\ Vendor.status new = Some (Vendor.target a)
        /\ reason_recorded a old new
        /\ Vendor.business_name new = Vendor.business_name old
        /\ Vendor.email new = Vendor.email old
        /\ match Web.body reply with
           | JDict kv => dict_get kv "vendor" = Some (Vendor.to_dict new)
           | _ => False
           end)
  /\ (List.length effects <= 1)%nat
  /\ Forall (addressed (Vendor.email old)) effects.
Proof.
  intros A N I E.
  destruct (perform_shape a) as [change [mail [message [P C]]]]. rewrite P.
  pose proof (find_by_id table vendor_id old N I E) as F.
  rewrite (transition_done _ _ _ _ _ _ _ _ _ _ A F). cbn [fst snd Web.code Web.body].
  destruct (C old) as [Cs [Cr [Ci [Cn Ce]]]].
  destruct (commit_columns now old (change old)) as [Ki [Kn [Ke [Ks [Kj [Kb Kp]]]]]].
  assert (Id : Vendor.id (Vendor.commit now old (change old)) = vendor_id) by congruence.
  split; [reflexivity|]. split; [apply store_ids; exact Id|].
  split; [intros v D; apply store_others; assumption|].
  split.
  - exists (Vendor.commit now old (change old)).
    split; [eapply store_new; exact F|]. split; [exact Id|].
    split; [congruence|]. split.
    + destruct a; cbn in Cr |- *; rewrite Kj, Kb, Kp; exact Cr.
    + split; [congruence|]. split; [congruence|]. reflexivity.
  - rewrite Ke, Ce.
    destruct (send_email_effects cfg net (Vendor.email old)
                (fst (fst (mail (Vendor.commit now old (change old)))))
                (snd (fst (mail (Vendor.commit now old (change old)))))
                (Some (snd (mail (Vendor.commit now old (change old))))))
      as [L [Ad _]].
    split; assumption.
Qed.

Lemma store_find_name (table : list Vendor.Account) (vendor_id : Z)
    (old new : Vendor.Account) :
  NoDup (map Vendor.business_name table) ->
  find (fun v => Vendor.id v =? vendor_id) table = Some old ->
  Vendor.business_name new = Vendor.business_name old ->
  find (fun v => String.eqb (Vendor.business_name v) (Vendor.business_name old))
    (Vendor.store table vendor_id new) = Some new.
Proof.
  induction table as [|x rest IH]; simpl; [discriminate|].
  intros N F E. inversion N as [|? ? Nx Nr]; subst.
  destruct (Vendor.id x =? vendor_id) eqn:X.
  - injection F as ->. simpl. rewrite E, String.eqb_refl. reflexivity.
  - simpl. destruct (String.eqb (Vendor.business_name x) (Vendor.business_name old)) eqn:B.
    + exfalso. apply String.eqb_eq in B. apply Nx. rewrite B.
      apply in_map. apply find_some in F. tauto.
    + exact (IH Nr F E).
Qed.

(** X20.  After a status request for a vendor, in a table where
    identifiers and business names are unique, the guard of the vendor
    endpoints treats a session that carries that vendor's business name
    by the new status: blocked and suspended vendors get 403 with the
    reason recorded, and approved vendors pass; so do rejected ones, and
    unblocking or unsuspending lets a vendor in whatever its status was.
    A vendor whose business name is empty is never looked up: its session
    passes the guard after every request, a block included. *)
Theorem vendor_guard_follows_the_status (cfg : Email.Config) (net : Email.Transports)
    (table : list Vendor.Account) (s sv : Web.Session) (vendor_id : Z) (now : string)
    (a : Vendor.Action) (old : Vendor.Account) :
  Web.truthy_text (Web.admin_id s) = true ->
  NoDup (map Vendor.id table) ->
  NoDup (map Vendor.business_name table) ->
  In old table ->
  Vendor.id old = vendor_id ->
  Web.truthy_int (Web.vendor_id sv) = true ->
  Web.business_name sv = Some (Vendor.business_name old) ->
  Vendor.require_vendor_auth
    (snd (fst (Vendor.perform cfg net table s vendor_id now a))) sv
  = match Vendor.business_name old with
    | EmptyString => None
    | String _ _ =>
        match a with
        | Vendor.Block reason =>
            Some {| Web.body :=
                      JDict [("error", JStr "Account Blocked");
                             ("message",
                              JStr ("Your account has been blocked. Reason: "
                                    ++ Web.text_or
                                         (Some (Vendor.reason_or reason "Blocked by administrator"))
                                         "Contact administrator"))];
                    Web.code := 403 |}
        | Vendor.Suspend reason =>
            Some {| Web.body :=
                      JDict [("error", JStr "Account Suspended");
                             ("message",
                              JStr ("Your account is temporarily suspended. Reason: "
                                    ++ Web.text_or
                                         (Some (Vendor.reason_or reason "Payment required"))
                                         "Payment required"))];
                    Web.code := 403 |}
        | Vendor.Approve | Vendor.Reject _ | Vendor.Unblock | Vendor.Unsuspend => None
        end
    end.
Proof.
  intros A N Nn I E V B.
  destruct (perform_shape a) as [change [mail [message [P C]]]]. rewrite P.
  pose proof (find_by_id table vendor_id old N I E) as F.
  rewrite (transition_done _ _ _ _ _ _ _ _ _ _ A F). cbn [fst snd].
  destruct (C old) as [Cs [Cr [Ci [Cn Ce]]]].
  destruct (commit_columns now old (change old)) as [Ki [Kn [Ke [Ks [Kj [Kb Kp]]]]]].
  unfold Vendor.require_vendor_auth. rewrite V, B. cbn [negb].
  destruct (Vendor.business_name old) as [|c name] eqn:Bn; [reflexivity|].
  rewrite <- Bn.
  rewrite (store_find_name table vendor_id old _ Nn F) by congruence.
  unfold Vendor.has_status. rewrite Ks, Cs.
  destruct a; cbn in Cr |- *; try reflexivity.
  - rewrite Kb. destruct Cr as [_ [-> _]]. reflexivity.
  - rewrite Kp. destruct Cr as [_ [_ ->]]. reflexivity.
Qed.

(** ** The texts of the mails *)

Lemma str_in_join_some (t sep : string) (items : list string) :
  Exists (fun x => str_in t x = true) items -> str_in t (join sep items) = true.
Proof.
  intros E. apply Exists_exists in E. destruct E as [x [I H]].
  exact (str_in_join t sep items x I H).
Qed.

Ltac inside :=
  first [ apply str_in_refl
        | apply str_in_app_l; apply str_in_refl
        | apply str_in_app_r; inside ].

Ltac some_line :=
  first [ apply Exists_cons_hd; solve [inside]
        | apply Exists_cons_tl; some_line ].

Ltac in_mail := cbn [fst snd]; apply str_in_join_some; some_line.

(** X21.  Each of the five mails names the contact person and the
    business in its plain text and in its HTML text, and the mails about a
    rejection, a block and a suspension carry the reason in both. *)
Theorem mails_name_the_vendor_and_the_reason (vendor_name contact_person reason : string) :
  let named (mail : string * string * string) (x : string) : Prop :=
    str_in x (snd (fst mail)) = true /\ str_in x (snd mail) = true in
  (named (Email.get_vendor_approval_email vendor_name contact_person) contact_person
   /\ named (Email.get_vendor_approval_email vendor_name contact_person) vendor_name)
  /\ (named (Email.get_vendor_rejection_email vendor_name contact_person reason) contact_person
      /\ named (Email.get_vendor_rejection_email vendor_name contact_person reason) vendor_name
      /\ named (Email.get_vendor_rejection_email vendor_name contact_person reason) reason)
  /\ (named (Email.get_vendor_blocked_email vendor_name contact_person reason) contact_person
      /\ named (Email.get_vendor_blocked_email vendor_name contact_person reason) vendor_name
      /\ named (Email.get_vendor_blocked_email vendor_name contact_person reason) reason)
  /\ (named (Email.get_vendor_suspended_email vendor_name contact_person reason) contact_person
      /\ named (Email.get_vendor_suspended_email vendor_name contact_person reason) vendor_name
      /\ named (Email.get_vendor_suspended_email vendor_name contact_person reason) reason)
  /\ (named (Email.get_vendor_restored_email vendor_name contact_person) contact_person
      /\ named (Email.get_vendor_restored_email vendor_name contact_person) vendor_name).
Proof.
  cbv zeta.
  unfold Email.get_vendor_approval_email, Email.get_vendor_rejection_email,
    Email.get_vendor_blocked_email, Email.get_vendor_suspended_email,
    Email.get_vendor_restored_email.
  cbv zeta.
  repeat split; in_mail.
Qed.

(** X18, X19, runs: an anonymous request and an unknown vendor; then a
    block of vendor 2 while the SMTP server refuses the login: the row is
    blocked all the same and the reply is 200. *)
Example block_runs :
  Vendor.perform smtp_config sample_net vendors Web.anonymous 2 "2025-06-01T12:00:00"
    (Vendor.Block (Some "Spam"))
  = (Admin.error "Unauthorized. Admin login required." 401, vendors, [])
  /\ Vendor.perform smtp_config sample_net vendors admin_logged_in 9 "2025-06-01T12:00:00"
       Vendor.Unblock
     = (Admin.error "Vendor not found" 404, vendors, [])
  /\ map (fun v => (Vendor.status v, Vendor.block_reason v, Vendor.updated_at v))
       (snd (fst (Vendor.perform smtp_config sample_net vendors admin_logged_in 2
                    "2025-06-01T12:00:00" (Vendor.Block (Some "Spam")))))
     = [(Some "approved", None, "2025-01-01T00:00:00");
        (Some "blocked", Some "Spam", "2025-06-01T12:00:00");
        (Some "blocked", Some "Unpaid invoices", "2025-01-01T00:00:00")]
  /\ Web.code (fst (fst (Vendor.perform smtp_config sample_net vendors admin_logged_in 2
                           "2025-06-01T12:00:00" (Vendor.Block (Some "Spam"))))) = 200
  /\ match Web.body (fst (fst (Vendor.perform smtp_config sample_net vendors admin_logged_in 2
                                 "2025-06-01T12:00:00" (Vendor.Block (Some "Spam"))))) with
     | JDict kv => dict_get kv "email_status"
     | _ => None
     end
     = Some (JDict [("success", JBool false);
                    ("message", JStr "SMTP error: (535, b'Authentication failed')")]).
Proof. repeat split; vm_compute; reflexivity. Qed.

Lemma vendors_distinct :
  NoDup (map Vendor.id vendors) /\ NoDup (map Vendor.business_name vendors).
Proof. split; repeat constructor; simpl; intuition discriminate. Defined.

(** X19, a run: the block of vendor 2. *)
Lemma request_updates_one_vendor_witness :
  exists new,
    In new (snd (fst (Vendor.perform smtp_config sample_net vendors admin_logged_in 2
                        "2025-06-01T12:00:00" (Vendor.Block (Some "Spam")))))
    /\ Vendor.id new = 2
    /\ Vendor.status new = Some "blocked"
    /\ Vendor.block_reason new = Some "Spam"
    /\ Vendor.email new = "hello@bluebottle.example".
Proof.
  destruct (request_updates_one_vendor smtp_config sample_net vendors admin_logged_in 2
              "2025-06-01T12:00:00" (Vendor.Block (Some "Spam"))
              (vendor_row 2 "Blue Bottle Coffee" None "hello@bluebottle.example" "pending" None)
              eq_refl (proj1 vendors_distinct) (or_intror (or_introl eq_refl)) eq_refl)
    as [_ [_ [_ [[new [I [Ei [Es [[_ [Eb _]] [_ [Ee _]]]]]]] _]]]].
  exists new. repeat split; assumption.
Defined.

(** X20, a run: after the block, the vendor's session is refused with the
    reason; the rows of the table still have distinct names. *)
Lemma vendor_guard_follows_the_status_witness :
  Vendor.require_vendor_auth vendors blue_bottle_session = None
  /\ Vendor.require_vendor_auth
       (snd (fst (Vendor.perform smtp_config sample_net vendors admin_logged_in 2
                    "2025-06-01T12:00:00" (Vendor.Block (Some "Spam")))))
       blue_bottle_session
     = Some {| Web.body :=
                 JDict [("error", JStr "Account Blocked");
                        ("message", JStr "Your account has been blocked. Reason: Spam")];
               Web.code := 403 |}.
Proof.
  split; [reflexivity|].
  exact (vendor_guard_follows_the_status smtp_config sample_net vendors admin_logged_in
           blue_bottle_session 2 "2025-06-01T12:00:00" (Vendor.Block (Some "Spam"))
           (vendor_row 2 "Blue Bottle Coffee" None "hello@bluebottle.example" "pending" None)
           eq_refl (proj1 vendors_distinct) (proj2 vendors_distinct)
           (or_intror (or_introl eq_refl)) eq_refl eq_refl eq_refl).
Defined.

(** ** Products of a vendor *)

Lemma insert_stat_perm (x : Shop.Stat) (l : list Shop.Stat) :
  Permutation (Shop.insert_stat x l) (x :: l).
Proof.
  induction l as [|y rest IH]; simpl; [reflexivity|].
  destruct (Shop.likes x <? Shop.likes y); [|reflexivity].
  rewrite IH. apply perm_swap.
Qed.

Lemma sort_stats_perm (l : list Shop.Stat) : Permutation (Shop.sort_stats l) l.
Proof.
  induction l as [|x rest IH]; simpl; [reflexivity|].
  rewrite insert_stat_perm. apply perm_skip. exact IH.
Qed.

Lemma insert_stat_sorted (x : Shop.Stat) (l : list Shop.Stat) :
  StronglySorted (fun a b => Shop.likes b <= Shop.likes a) l ->
  StronglySorted (fun a b => Shop.likes b <= Shop.likes a) (Shop.insert_stat x l).
Proof.
  induction 1 as [|y rest S IH F]; simpl; [repeat constructor|].
  destruct (Shop.likes x <? Shop.likes y) eqn:L.
  - apply Z.ltb_lt in L. constructor; [exact IH|].
    apply Forall_forall. intros z I.
    apply (Permutation_in _ (insert_stat_perm x rest)) in I.
    destruct I as [<- | I]; [lia|]. rewrite Forall_forall in F. exact (F z I).
  - apply Z.ltb_ge in L. constructor; [constructor; assumption|].
    constructor; [exact L|]. rewrite Forall_forall in *. intros z I.
    specialize (F z I). lia.
Qed.

Lemma sort_stats_sorted (l : list Shop.Stat) :
  StronglySorted (fun a b => Shop.likes b <= Shop.likes a) (Shop.sort_stats l).
Proof.
  induction l as [|x rest IH]; simpl; [constructor|].
  apply insert_stat_sorted. exact IH.
Qed.

Lemma insert_stat_stable (k : Z) (x : Shop.Stat) (l : list Shop.Stat) :
  filter (fun y => Shop.likes y =? k) (Shop.insert_stat x l)
  = filter (fun y => Shop.likes y =? k) (x :: l).
Proof.
  induction l as [|y rest IH]; [reflexivity|].
  simpl Shop.insert_stat. destruct (Shop.likes x <? Shop.likes y) eqn:L; [|reflexivity].
  apply Z.ltb_lt in L. simpl in *. rewrite IH.
  destruct (Shop.likes x =? k) eqn:X; [|reflexivity].
  destruct (Shop.likes y =? k) eqn:Y; [|reflexivity].
  apply Z.eqb_eq in X. apply Z.eqb_eq in Y. lia.
Qed.

Lemma sort_stats_stable (k : Z) (l : list Shop.Stat) :
  filter (fun y => Shop.likes y =? k) (Shop.sort_stats l)
  = filter (fun y => Shop.likes y =? k) l.
Proof.
  induction l as [|x rest IH]; [reflexivity|].
  simpl Shop.sort_stats. rewrite insert_stat_stable. simpl. rewrite IH. reflexivity.
Qed.

(** X22.  For a vendor that passes the guard, the statistics hold one
    entry for each product of the vendor named by the session and for no
    other, with the numbers of its [like] and [dislike] interactions; they
    are sorted by likes, most liked first, and entries with as many likes
    keep the order of the product table. *)
Theorem stats_are_sorted_by_likes (vendors : list Vendor.Account) (products : list Product)
    (interactions : list Shop.Interaction) (s : Web.Session) :
  Vendor.require_vendor_auth vendors s = None ->
  exists stats,
    Shop.get_product_stats vendors products interactions s
    = {| Web.body := JList (map Shop.stat_to_dict stats); Web.code := 200 |}
    /\ StronglySorted (fun a b => Shop.likes b <= Shop.likes a) stats
    /\ Permutation stats
         (map (fun p =>
                 {| Shop.stat_id := id p; Shop.stat_name := name p;
                    Shop.stat_category := category p;
                    Shop.likes :=
                      Z.of_nat (List.length
                                  (filter (fun i => (Shop.product_id i =? id p)
                                                    && String.eqb (Shop.interaction_type i) "like")
                                     interactions));
                    Shop.dislikes :=
                      Z.of_nat (List.length
                                  (filter (fun i => (Shop.product_id i =? id p)
                                                    && String.eqb (Shop.interaction_type i) "dislike")
                                     interactions)) |})
            (filter (fun p => match Web.business_name s with
                              | Some bn => String.eqb (vendor p) bn
                              | None => false
                              end) products))
    /\ forall k,
         filter (fun x => Shop.likes x =? k) stats
         = filter (fun x => Shop.likes x =? k)
             (Shop.stats_of interactions (filter (Shop.owned_by (Web.business_name s)) products)).
Proof.
  intros G. unfold Shop.get_product_stats. rewrite G.
  eexists. split; [reflexivity|].
  split; [apply sort_stats_sorted|].
  split; [apply sort_stats_perm|].
  intros k. apply sort_stats_stable.
Qed.

Lemma same_id_same_product (products : list Product) (p q : Product) :
  NoDup (map id products) -> In p products -> In q products -> id p = id q -> p = q.
Proof.
  induction products as [|x rest IH]; simpl; [tauto|].
  intros N. inversion N as [|? ? Nx Nr]; subst.
  intros [<- | Ip] [<- | Iq] E; auto.
  - exfalso. apply Nx. rewrite E. apply in_map. exact Iq.
  - exfalso. apply Nx. rewrite <- E. apply in_map. exact Ip.
Qed.

(** X23.  [delete_product] removes a product only for a vendor that passes
    the guard and whose session names the product's vendor: then that row
    and the interactions of that product go, and nothing else; in every
    other case both tables are unchanged, so a vendor cannot delete the
    product of another vendor. *)
Theorem vendors_delete_only_their_products (vendors : list Vendor.Account)
    (products : list Product) (interactions : list Shop.Interaction)
    (s : Web.Session) (pid : Z) :
  NoDup (map id products) ->
  let reply := fst (fst (Shop.delete_product vendors products interactions s pid)) in
  let products' := snd (fst (Shop.delete_product vendors products interactions s pid)) in
  let interactions' := snd (Shop.delete_product vendors products interactions s pid) in
  (Web.code reply <> 200 -> products' = products /\ interactions' = interactions)
  /\ (Web.code reply = 200 ->
      Vendor.require_vendor_auth vendors s = None
      /\ (exists product,
            In product products /\ id product = pid
            /\ Web.business_name s = Some (vendor product))
      /\ (forall p, In p products' <-> In p products /\ id p <> pid)
      /\ (forall i, In i interactions' <-> In i interactions /\ Shop.product_id i <> pid))
  /\ (forall p,
        In p products -> id p = pid -> Web.business_name s <> Some (vendor p) ->
        Web.code reply <> 200).
Proof.
  intros N. cbv zeta.
  assert (Ok : Web.code (fst (fst (Shop.delete_product vendors products interactions s pid)))
               = 200 ->
               Vendor.require_vendor_auth vendors s = None
               /\ exists product,
                    find (fun p => (id p =? pid) && Shop.owned_by (Web.business_name s) p)
                      products = Some product
                    /\ Shop.delete_product vendors products interactions s pid
                       = ({| Web.body := JDict [("message", JStr "Product deleted successfully")];
                             Web.code := 200 |},
                          filter (fun p => negb (id p =? id product)) products,
                          filter (fun i => negb (Shop.product_id i =? id product)) interactions)).
  { unfold Shop.delete_product, Vendor.require_vendor_auth.
    destruct (negb (Web.truthy_int (Web.vendor_id s))); [discriminate|].
    destruct (Web.business_name s) as [[|c bn]|];
      try (destruct (find _ vendors) as [v|];
           [destruct (Vendor.has_status v "blocked"); [discriminate|];
            destruct (Vendor.has_status v "suspended"); [discriminate|] |]);
      (destruct (find _ products) as [product|] eqn:F; [|discriminate]);
      intros _; (split; [reflexivity|]); exists product; split; reflexivity. }
  assert (Facts : forall product,
            find (fun p => (id p =? pid) && Shop.owned_by (Web.business_name s) p) products
            = Some product ->
            In product products /\ id product = pid
            /\ Web.business_name s = Some (vendor product)).
  { intros product F. apply find_some in F. destruct F as [I E].
    apply andb_prop in E. destruct E as [Ei Eo]. apply Z.eqb_eq in Ei.
    unfold Shop.owned_by in Eo. destruct (Web.business_name s) as [bn|]; [|discriminate].
    apply String.eqb_eq in Eo. split; [exact I|]. split; [exact Ei|]. congruence. }
  split; [|split].
  - intros C. unfold Shop.delete_product in *.
    destruct (Vendor.require_vendor_auth vendors s); [split; reflexivity|].
    destruct (find _ products); [|split; reflexivity].
    exfalso. apply C. reflexivity.
  - intros C. destruct (Ok C) as [G [product [F ->]]]. cbn [fst snd].
    destruct (Facts product F) as [I [E B]].
    split; [exact G|]. split; [exists product; auto|]. split.
    + intros p. rewrite filter_In, negb_true_iff, Z.eqb_neq, E. tauto.
    + intros i. rewrite filter_In, negb_true_iff, Z.eqb_neq, E. tauto.
  - intros p I E B C. destruct (Ok C) as [_ [product [F _]]].
    destruct (Facts product F) as [I' [E' B']].
    assert (p = product) by (apply (same_id_same_product products); congruence).
    subst p. contradiction.
Qed.

(** The statistics of Starbucks: the two products with two likes first, in
    the order of the product table, and no product of another vendor. *)
Example starbucks_stats :
  Shop.get_product_stats vendors shelves sample_interactions starbucks_session
  = {| Web.body :=
         JList (map Shop.stat_to_dict
                  [{| Shop.stat_id := 4; Shop.stat_name := "Flat White";
                      Shop.stat_category := "Hot Coffees"; Shop.likes := 2; Shop.dislikes := 0 |};
                   {| Shop.stat_id := 7; Shop.stat_name := "Cold Brew";
                      Shop.stat_category := "Cold Coffees"; Shop.likes := 2; Shop.dislikes := 0 |};
                   {| Shop.stat_id := 1; Shop.stat_name := "Pike Place Roast";
                      Shop.stat_category := "Hot Coffees"; Shop.likes := 0; Shop.dislikes := 0 |};
                   {| Shop.stat_id := 3; Shop.stat_name := "Cappuccino";
                      Shop.stat_category := "Hot Coffees"; Shop.likes := 0; Shop.dislikes := 1 |};
                   {| Shop.stat_id := 6; Shop.stat_name := "Iced Coffee";
                      Shop.stat_category := "Cold Coffees"; Shop.likes := 0; Shop.dislikes := 0 |}]);
       Web.code := 200 |}.
Proof. reflexivity. Qed.

Lemma stats_are_sorted_by_likes_witness :
  Vendor.require_vendor_auth vendors starbucks_session = None
  /\ exists stats,
       Shop.get_product_stats vendors shelves sample_interactions starbucks_session
       = {| Web.body := JList (map Shop.stat_to_dict stats); Web.code := 200 |}
       /\ StronglySorted (fun a b => Shop.likes b <= Shop.likes a) stats.
Proof.
  split; [reflexivity|].
  destruct (stats_are_sorted_by_likes vendors shelves sample_interactions starbucks_session
              eq_refl) as [stats [R [S _]]].
  exists stats. split; [exact R | exact S].
Defined.

(** Blue Bottle Coffee asks to delete the flat white of Starbucks, then its
    own single origin. *)
Example foreign_product_is_kept :
  Shop.delete_product vendors shelves sample_interactions blue_bottle_session 4
  = ({| Web.body := JDict [("error", JStr "Product not found or unauthorized")];
        Web.code := 404 |}, shelves, sample_interactions).
Proof. reflexivity. Qed.

Example own_product_is_deleted :
  Shop.delete_product vendors shelves sample_interactions blue_bottle_session 9
  = ({| Web.body := JDict [("message", JStr "Product deleted successfully")];
        Web.code := 200 |}, catalog,
     [interaction 1 4 "like"; interaction 2 7 "like"; interaction 3 3 "dislike";
      interaction 4 7 "like"; interaction 6 4 "like"]).
Proof. reflexivity. Qed.

Lemma shelves_distinct : NoDup (map id shelves).
Proof.
  repeat (constructor; [simpl; intros H; repeat destruct H as [H | H]; try discriminate H;
                        exact H|]).
  constructor.
Defined.

Lemma vendors_delete_only_their_products_witness :
  NoDup (map id shelves)
  /\ Web.code (fst (fst (Shop.delete_product vendors shelves sample_interactions
                           blue_bottle_session 4))) <> 200.
Proof.
  split; [exact shelves_distinct|].
  refine (proj2 (proj2 (vendors_delete_only_their_products vendors shelves sample_interactions
                          blue_bottle_session 4 shelves_distinct)) flat_white _ _ _).
  - simpl. tauto.
  - reflexivity.
  - discriminate.
Defined.
